(** * lesstinydb: the storage layer ([tinydb/storages.py])

    A shallow embedding of the [Storage] base class, of its two backends
    [JSONStorage] and [MemoryStorage], and of the part of the Python run time
    their transaction code relies on (exceptions, text files, generators and
    [contextlib.contextmanager]), followed by the properties of the
    transaction protocol.

    Python methods are state transformers that may raise: a method of an
    object of type [S] returning [A] is a function [S → outcome A * S].  The
    state that an exception leaves behind is kept, because [finally] blocks
    and the in-transaction flag are all about it. *)

From Stdlib Require Import ZArith Ascii String.
From stdpp Require Import base option list strings pretty gmap.

Set Warnings "-clear-no-such-hyp".


(** ** Exceptions *)

(** The exception classes that the module and the library calls it makes can
    raise.  Python's [IOError] is an alias of [OSError];
    [io.UnsupportedOperation], [FileNotFoundError] and the like are kept as
    constructors of their own because the code catches one of them by class.
    Tracebacks and exception chaining ([__context__]) are not modelled: two
    exceptions of the same class and message are the same exception. *)
Inductive exn : Type :=
  | RuntimeError (msg : string)
  | OSError (msg : string)
  | UnsupportedOperation (msg : string)
  | FileNotFoundError (filename : string)
  | FileExistsError (filename : string)
  | IsADirectoryError (filename : string)
  | ValueError (msg : string)
  | TypeError (msg : string)
  | AttributeError (msg : string)
  | JSONDecodeError (msg : string)
  | StopIteration
  | GeneratorExit.

#[global] Instance exn_eq_dec : EqDecision exn.
Proof. solve_decision. Defined.

Inductive outcome (A : Type) : Type :=
  | Ret (a : A)
  | Raise (e : exn).
Arguments Ret {A} a.
Arguments Raise {A} e.

#[global] Instance outcome_eq_dec {A} `{EqDecision A} : EqDecision (outcome A).
Proof. solve_decision. Defined.

(** ** The monad of methods *)

Definition M (S A : Type) : Type := S → outcome A * S.

#[global] Instance M_ret {S} : MRet (M S) := λ A a s, (Ret a, s).

#[global] Instance M_bind {S} : MBind (M S) := λ A B k m s,
  match m s with
  | (Ret a, s') => k a s'
  | (Raise e, s') => (Raise e, s')
  end.

Definition raise {S A} (e : exn) : M S A := λ s, (Raise e, s).

Definition gets {S A} (f : S → A) : M S A := λ s, (Ret (f s), s).

Definition modify {S} (f : S → S) : M S unit := λ s, (Ret tt, f s).

(** [try: m  except: h]: a bare [except] catches every exception. *)
Definition try_except {S A} (m : M S A) (h : exn → M S A) : M S A := λ s,
  match m s with
  | (Ret a, s') => (Ret a, s')
  | (Raise e, s') => h e s'
  end.

(** [try: m  finally: f]: [f] runs on both exits of [m]; when [f] raises, its
    exception is the one that propagates. *)
Definition try_finally {S A} (m : M S A) (f : M S unit) : M S A := λ s,
  let (r, s') := m s in
  match f s' with
  | (Ret _, s'') => (r, s'')
  | (Raise e, s'') => (Raise e, s'')
  end.

(** The outcome of a call that has no effect on the state. *)
Definition call {S A} (o : outcome A) : M S A := λ s, (o, s).

(** Runs [m] and hands its outcome over as a value. *)
Definition attempt {S A} (m : M S A) : M S (outcome A) := λ s,
  let (r, s') := m s in (Ret r, s').

(** Runs a method of a component of the state. *)
Definition zoom {S T A} (get : S → T) (set : T → S → S) (m : M T A) : M S A := λ s,
  let (r, t') := m (get s) in (r, set t' s).

(** The state a method leaves, and whether it raised. *)
Definition exec {S A} (m : M S A) (s : S) : S := (m s).2.
Definition result {S A} (m : M S A) (s : S) : outcome A := (m s).1.

(** ** The [json] module, as far as the storages use it *)

(** [V] is the type of the Python values handed to [write] and returned by
    [read].  The storages only test a value for being [None] ([none_dec]) and
    pass it to [json.dumps] / read it back with [json.loads]; both are
    library calls, so they are operations of an interface here.  [dumps] stands for
    [json.dumps(data, **kwargs)] with the keyword arguments the storage was
    built with. *)
Class Json (V : Type) := {
  none : V;
  none_dec : ∀ v : V, Decision (v = none);
  dumps : V → outcome string;
  loads : string → outcome V
}.
#[global] Existing Instance none_dec.

(** ** class Storage(ABC) *)

(** The abstract methods: what a backend has to provide.  A backend's own
    attributes (and, for the file backend, the files it works on) make up
    [B]; neither backend's methods mention [_in_transaction], which lives in
    the base class part of the object. *)
Class Backend (V B : Type) := {
  read : M B V;
  write : V → M B unit;
  close : M B unit;
  _begin_transaction : M B unit;
  _commit_transaction : M B unit;
  _rollback_transaction : M B unit
}.
#[global] Hint Mode Backend - ! : typeclass_instances.

Module Storage.

(** An instance: the base class attribute and the subclass part. *)
Record t (B : Type) : Type := mk {
  _in_transaction : bool;
  self : B
}.
Arguments mk {B}.
Arguments _in_transaction {B}.
Arguments self {B}.

Definition set_in_transaction {B} (b : bool) (s : t B) : t B :=
  mk b (self s).
Definition set_self {B} (x : B) (s : t B) : t B :=
  mk (_in_transaction s) x.

(** A call of a backend method on the instance. *)
Definition sub {B A} (m : M B A) : M (t B) A := zoom self set_self m.

(** [Storage.__init__], once the subclass part is set up. *)
Definition __init__ {B} (x : B) : t B := mk false x.

Section methods.
Context {V B : Type} `{!Backend V B}.

Definition begin : M (t B) unit :=
  flag ← gets _in_transaction;
  if (flag : bool) then raise (RuntimeError "Transaction already in progress")
  else
    modify (set_in_transaction true);;
    sub _begin_transaction.

Definition commit : M (t B) unit :=
  flag ← gets _in_transaction;
  if negb flag then raise (RuntimeError "No transaction in progress")
  else
    try_finally (sub _commit_transaction)
                (modify (set_in_transaction false)).

Definition rollback : M (t B) unit :=
  flag ← gets _in_transaction;
  if negb flag then raise (RuntimeError "No transaction in progress")
  else
    try_finally (sub _rollback_transaction)
                (modify (set_in_transaction false)).

(** The generator function [transaction], cut at its only [yield].
    [transaction_start] is what the first [next()] runs: the code up to
    [yield self].  [transaction_after_yield sent] is what runs when the
    generator is resumed: the [yield] expression returns ([sent = Ret tt],
    after [next()]) or raises the exception thrown in ([sent = Raise e],
    after [throw(e)] or [close()]), inside the [try] whose bare [except]
    rolls back and re-raises. *)
Definition transaction_start : M (t B) unit := begin.

Definition transaction_after_yield (sent : outcome unit) : M (t B) unit :=
  try_except
    (call sent;; commit)
    (λ e, rollback ;; raise e).

End methods.
End Storage.

(** ** Generators *)

(** A generator function whose body has one [yield], cut at that [yield]:
    [gf_start] runs from the top to the [yield]; [gf_after_yield sent] runs
    from the [yield] to the end, the [yield] expression returning
    ([sent = Ret tt]) or raising what was thrown in ([sent = Raise e]). *)
Record genfunc (S : Type) : Type := {
  gf_start : M S unit;
  gf_after_yield : outcome unit → M S unit
}.
Arguments gf_start {S}.
Arguments gf_after_yield {S}.

(** The states of a generator-iterator ([inspect.getgeneratorstate]). *)
Inductive gen_state : Type :=
  | GEN_CREATED
  | GEN_SUSPENDED
  | GEN_CLOSED.

#[global] Instance gen_state_eq_dec : EqDecision gen_state.
Proof. solve_decision. Defined.

(** PEP 479: a [StopIteration] that escapes a generator body is replaced by
    a [RuntimeError]. *)
Definition pep479 (e : exn) : exn :=
  if decide (e = StopIteration)
  then RuntimeError "generator raised StopIteration"
  else e.

(** What the Python implementation does with a generator that becomes
    unreachable while it is suspended at its [yield].  The language has the
    generator's [close()] called when it is garbage-collected (PEP 342) and
    leaves open when that is: CPython counts references and closes the
    generator as soon as the last reference is dropped; an implementation may
    also postpone collection, [Deferred] standing for "not collected during
    the calls under study". *)
Inductive runtime : Type :=
  | RefCounting
  | Deferred.

Module Generator.
Section methods.
Context {S : Type} (body : genfunc S).

(** [next(gen)] *)
Definition next : M (gen_state * S) unit := λ '(g, s),
  match g with
  | GEN_CREATED =>
      match gf_start body s with
      | (Ret _, s') => (Ret tt, (GEN_SUSPENDED, s'))
      | (Raise e, s') => (Raise (pep479 e), (GEN_CLOSED, s'))
      end
  | GEN_SUSPENDED =>
      match gf_after_yield body (Ret tt) s with
      | (Ret _, s') => (Raise StopIteration, (GEN_CLOSED, s'))
      | (Raise e, s') => (Raise (pep479 e), (GEN_CLOSED, s'))
      end
  | GEN_CLOSED => (Raise StopIteration, (GEN_CLOSED, s))
  end.

(** [gen.throw(e)]: thrown into a generator that has not started, the
    exception is raised at the top of its frame, before any of the body
    runs, and comes back out of the generator, as PEP 479 has it.  A
    generator that has finished has no frame left to raise it in. *)
Definition throw (e : exn) : M (gen_state * S) unit := λ '(g, s),
  match g with
  | GEN_CREATED => (Raise (pep479 e), (GEN_CLOSED, s))
  | GEN_SUSPENDED =>
      match gf_after_yield body (Raise e) s with
      | (Ret _, s') => (Raise StopIteration, (GEN_CLOSED, s'))
      | (Raise e', s') => (Raise (pep479 e'), (GEN_CLOSED, s'))
      end
  | GEN_CLOSED => (Raise e, (GEN_CLOSED, s))
  end.

(** [gen.close()]: throws [GeneratorExit] in at the [yield]; the call
    returns when the body lets it through or returns, and passes on any
    other exception the body raises. *)
Definition close : M (gen_state * S) unit := λ '(g, s),
  match g with
  | GEN_CREATED => (Ret tt, (GEN_CLOSED, s))
  | GEN_SUSPENDED =>
      match gf_after_yield body (Raise GeneratorExit) s with
      | (Ret _, s') => (Ret tt, (GEN_CLOSED, s'))
      | (Raise e', s') =>
          (if decide (pep479 e' = GeneratorExit) then Ret tt
           else Raise (pep479 e'),
           (GEN_CLOSED, s'))
      end
  | GEN_CLOSED => (Ret tt, (GEN_CLOSED, s))
  end.

(** The last reference to the generator is dropped.  An exception that
    [close()] raises inside a finalizer is reported on [stderr] and
    ignored. *)
Definition finalize (rt : runtime) (g : gen_state) (s : S) : S :=
  match rt with
  | RefCounting => (exec close (g, s)).2
  | Deferred => s
  end.
End methods.
End Generator.

(** ** contextlib.contextmanager and the [with] statement *)

Module contextlib.
Section manager.
Context {S : Type} (body : genfunc S).

(** [_GeneratorContextManager.__enter__] *)
Definition __enter__ : M (gen_state * S) unit :=
  try_except (Generator.next body)
    (λ e, if decide (e = StopIteration)
          then raise (RuntimeError "generator didn't yield")
          else raise e).

(** [_GeneratorContextManager.__exit__(typ, value, traceback)], [exc]
    being the exception passed in, if any.  The result tells the [with]
    statement whether to suppress the exception.  Of an exception that
    [throw] raises, [__exit__] asks whether it is the one passed in (then
    it returns [False] and leaves the re-raising to the [with] statement)
    or, after PEP 479, a [RuntimeError] caused by the [StopIteration]
    passed in; any other exception it lets through.  (As of Python 3.11,
    which raises "generator didn't stop" and leaves the generator
    suspended; later versions close it first.) *)
Definition __exit__ (exc : option exn) : M (gen_state * S) bool :=
  match exc with
  | None =>
      r ← attempt (Generator.next body);
      match r with
      | Raise StopIteration => mret false
      | Raise e => raise e
      | Ret _ => raise (RuntimeError "generator didn't stop")
      end
  | Some value =>
      r ← attempt (Generator.throw body value);
      match r with
      | Raise StopIteration => mret true
      | Raise e =>
          if decide (e = value) then mret false
          else if decide (value = StopIteration ∧
                          e = RuntimeError "generator raised StopIteration")
          then mret false
          else raise e
      | Ret _ => raise (RuntimeError "generator didn't stop after throw()")
      end
  end.

(** [with mgr: block] (PEP 343), [mgr] being a manager made from [body]. *)
Definition with_ (block : M S unit) : M (gen_state * S) unit :=
  __enter__;;
  r ← attempt (zoom snd (λ s' gs, (gs.1, s')) block);
  match r with
  | Ret _ => __exit__ None;; mret tt
  | Raise e =>
      suppress ← __exit__ (Some e);
      if (suppress : bool) then mret tt else raise e
  end.
End manager.
End contextlib.

(** ** Storage.transaction, Storage.__enter__, Storage.__exit__ *)

Module Scope.
Section scope.
Context {V B : Type} `{!Backend V B}.

(** The generator function behind [@contextmanager def transaction]. *)
Definition transaction : genfunc (Storage.t B) := {|
  gf_start := Storage.transaction_start;
  gf_after_yield := Storage.transaction_after_yield
|}.

(** [with self.transaction(): block].  The manager is a temporary: it is
    created for the statement and unreachable after it. *)
Definition with_transaction (rt : runtime) (block : M (Storage.t B) unit)
  : M (Storage.t B) unit := λ s,
  let '(r, (g, s')) := contextlib.with_ transaction block (GEN_CREATED, s) in
  (r, Generator.finalize transaction rt g s').

(** [return self.transaction().__enter__()]: a new manager is made and its
    [__enter__] runs, which starts the generator and leaves it suspended at
    [yield self].  Nothing keeps the manager: it is unreachable when the
    method returns.  Under reference counting it is deallocated there and
    then, its generator with it, and closing the generator raises
    [GeneratorExit] at the [yield], inside the [try] of [transaction], whose
    bare [except:] catches it, calls [self.rollback()] and re-raises. *)
Definition __enter__ (rt : runtime) : M (Storage.t B) unit := λ s,
  let '(r, (g, s')) := contextlib.__enter__ transaction (GEN_CREATED, s) in
  (r, Generator.finalize transaction rt g s').

(** [return self.transaction().__exit__(exc_type, exc_val, exc_tb)]:
    again on a new manager, whose generator has not started.  When the call
    returns, nothing refers to the manager and it is dropped there and then.
    When the call raises, the traceback of the exception refers to the frame
    of the manager's [__exit__], and through it to the manager: manager and
    generator stay as they are for as long as the exception is alive. *)
Definition __exit__ (rt : runtime) (exc : option exn)
  : M (Storage.t B) bool := λ s,
  let '(r, (g, s')) := contextlib.__exit__ transaction exc (GEN_CREATED, s) in
  match r with
  | Ret _ => (r, Generator.finalize transaction rt g s')
  | Raise _ => (r, s')
  end.

(** The state in which that call leaves the generator of its manager. *)
Definition __exit__generator (exc : option exn) (s : Storage.t B) : gen_state :=
  (exec (contextlib.__exit__ transaction exc) (GEN_CREATED, s)).1.

(** The exception that a call of [__exit__] raised is released (the handler
    that caught it ends, and the traceback goes with it): the manager is
    unreachable, and its generator, left in state [g], is finalized. *)
Definition release (rt : runtime) (g : gen_state) (s : Storage.t B) : Storage.t B :=
  Generator.finalize transaction rt g s.
End scope.
End Scope.

(** ** class MemoryStorage(Storage) *)

Module MemoryStorage.
Record t (V : Type) : Type := mk {
  memory : V;
  _backup : V
}.
Arguments mk {V}.
Arguments memory {V}.
Arguments _backup {V}.

Section methods.
Context {V : Type} `{!Json V}.

Definition set_memory (data : V) (s : t V) : t V := mk data (_backup s).
Definition set_backup (b : V) (s : t V) : t V := mk (memory s) b.

Definition __init__ : Storage.t (t V) := Storage.__init__ (mk none none).

Definition read : M (t V) V := gets memory.

Definition write (data : V) : M (t V) unit := modify (set_memory data).

(** [self._backup = json.loads(json.dumps(self.memory))
                    if self.memory is not None else None] *)
Definition _begin_transaction : M (t V) unit :=
  m ← gets memory;
  copy ← (if decide (m = none) then mret none
          else text ← call (dumps m); call (loads text));
  modify (set_backup copy).

Definition _commit_transaction : M (t V) unit := modify (set_backup none).

Definition _rollback_transaction : M (t V) unit :=
  b ← gets _backup;
  modify (set_memory b);;
  modify (set_backup none).

(** [close] is inherited: [pass]. *)
#[global] Instance backend : Backend V (t V) :=
  Build_Backend V (t V)
    read write (mret tt)
    _begin_transaction _commit_transaction _rollback_transaction.
End methods.
End MemoryStorage.

(** ** Text files *)

(** The access modes of [open]: one of [r], [w], [a], [x], with or without
    [+].  (Text mode throughout; the storage passes an encoding, which rules
    binary modes out.) *)
Inductive open_kind : Type :=
  | OpenR
  | OpenW
  | OpenA
  | OpenX.

Record access_mode : Type := {
  kind : open_kind;
  plus : bool
}.

#[global] Instance open_kind_eq_dec : EqDecision open_kind.
Proof. solve_decision. Defined.
#[global] Instance access_mode_eq_dec : EqDecision access_mode.
Proof. solve_decision. Defined.

Definition mode_str (m : access_mode) : string :=
  (match kind m with
   | OpenR => "r"
   | OpenW => "w"
   | OpenA => "a"
   | OpenX => "x"
   end) +:+ (if plus m then "+" else "").

Definition readable (m : access_mode) : bool :=
  match kind m with OpenR => true | _ => plus m end.

Definition writable (m : access_mode) : bool :=
  match kind m with OpenR => plus m | _ => true end.

Definition appending (m : access_mode) : bool :=
  match kind m with OpenA => true | _ => false end.

Definition truncating (m : access_mode) : bool :=
  match kind m with OpenW => true | _ => false end.

(** What a path names.  The name space is flat: the directories above a file
    are not modelled. *)
Inductive node : Type :=
  | Regular (content : string)
  | Directory.

#[global] Instance node_eq_dec : EqDecision node.
Proof. solve_decision. Defined.

Abbreviation filesystem := (gmap string node).

(** An open file object.  It is attached to the path it was opened on, the
    model having no files renamed or unlinked under an open handle (the code
    removes only the backup file, which it holds no handle on by then).
    Buffering is left out: every [write] of the storage is followed by
    [flush] before anything else looks at the file, so a written text is put
    into the file at once and [flush] has nothing to do. *)
Record file_object : Type := {
  name : string;
  mode : access_mode;
  offset : nat;
  closed : bool
}.

#[global] Instance file_object_eq_dec : EqDecision file_object.
Proof. solve_decision. Defined.

Inductive whence : Type :=
  | SEEK_SET
  | SEEK_END.

Module Text.
Fixpoint take (n : nat) (s : string) : string :=
  match n, s with
  | S n', String a s' => String a (take n' s')
  | _, _ => ""
  end.

Fixpoint drop (n : nat) (s : string) : string :=
  match n, s with
  | S n', String _ s' => drop n' s'
  | _, _ => s
  end.

Fixpoint nuls (n : nat) : string :=
  match n with
  | 0 => ""
  | S n' => String "000"%char (nuls n')
  end.

(** [ftruncate]: cut at [n], or extend to [n] with NUL bytes. *)
Definition resize (n : nat) (c : string) : string :=
  take n c +:+ nuls (n - String.length c).

(** The content after [text] is written at offset [off] over [c]. *)
Definition pwrite (off : nat) (text c : string) : string :=
  resize off c +:+ text +:+ drop (off + String.length text) c.

Fixpoint has_char (a : ascii) (c : string) : bool :=
  match c with
  | "" => false
  | String b c' => bool_decide (b = a) || has_char a c'
  end.

(** Whether a text holds a carriage return.  Text mode reads with universal
    newlines, which turn [\r\n] and [\r] into [\n]: only a text without
    carriage returns is read as the file holds it (and, on POSIX, written as
    it is). *)
Definition has_cr (c : string) : bool := has_char "013"%char c.
End Text.

Module TextIO.
Definition set_offset (n : nat) (f : file_object) : file_object :=
  {| name := name f; mode := mode f; offset := n; closed := closed f |}.

(** A path that names an entry of the working directory: a file name, which
    is not empty, is short enough for a name in any encoding, holds neither
    [/] nor NUL, and is neither [.] nor [..].  The flat name space takes
    every path for such a name; on other paths [open] fails in ways it does
    not show ([FileNotFoundError] for the empty path and under a directory
    that is missing, [ValueError] for a NUL, [OSError] for a name too
    long). *)
Definition is_file_name (p : string) : bool :=
  negb (bool_decide (p = "")) && (String.length p <=? 127)
  && negb (Text.has_char "/"%char p) && negb (Text.has_char "000"%char p)
  && negb (bool_decide (p = ".")) && negb (bool_decide (p = "..")).

(** [open(p, m)] *)
Definition open (p : string) (m : access_mode) : M filesystem file_object := λ fs,
  let f n := {| name := p; mode := m; offset := n; closed := false |} in
  match fs !! p, kind m with
  | Some Directory, OpenX => (Raise (FileExistsError p), fs)
  | Some Directory, _ => (Raise (IsADirectoryError p), fs)
  | None, OpenR => (Raise (FileNotFoundError p), fs)
  | Some (Regular _), OpenR => (Ret (f 0), fs)
  | _, OpenW => (Ret (f 0), <[p := Regular ""]> fs)
  | None, OpenA => (Ret (f 0), <[p := Regular ""]> fs)
  | Some (Regular c), OpenA => (Ret (f (String.length c)), fs)
  | Some (Regular _), OpenX => (Raise (FileExistsError p), fs)
  | None, OpenX => (Ret (f 0), <[p := Regular ""]> fs)
  end.

(** The methods of a file object act on the object and on the file
    system.  Every one of them but [close] starts by refusing a closed
    file. *)
Abbreviation IO A := (M (file_object * filesystem) A).

(** The content of the file behind an open file object.  (A file object
    whose file is gone is outside the model; it answers with an error.) *)
Definition content : IO string := λ '(f, fs),
  if closed f then (Raise (ValueError "I/O operation on closed file."), (f, fs))
  else match fs !! name f with
       | Some (Regular c) => (Ret c, (f, fs))
       | _ => (Raise (OSError "Stale file handle"), (f, fs))
       end.

Definition put (c : string) (n : nat) : IO unit :=
  modify (λ '(f, fs), (set_offset n f, <[name f := Regular c]> fs)).

Definition seek (target : nat) (w : whence) : IO unit :=
  c ← content;
  modify (λ '(f, fs),
    (set_offset (match w with
                 | SEEK_SET => target
                 | SEEK_END => String.length c + target
                 end) f, fs)).

Definition tell : IO nat :=
  content;; gets (λ '(f, _), offset f).

(** [f.read()]: the text from the current position to the end, as the file
    holds it.  (Universal newlines are left out: a text with carriage
    returns, [Text.has_cr], would be read with line feeds in their place.) *)
Definition read : IO string :=
  c ← content;
  m ← gets (λ '(f, _), mode f);
  if negb (readable m) then raise (UnsupportedOperation "not readable")
  else
    pos ← gets (λ '(f, _), offset f);
    modify (λ '(f, fs), (set_offset (Nat.max pos (String.length c)) f, fs));;
    mret (Text.drop pos c).

(** [f.write(text)]: at the current position, or at the end of the file
    when the file was opened for appending, wherever the position is. *)
Definition write (text : string) : IO unit :=
  c ← content;
  m ← gets (λ '(f, _), mode f);
  if negb (writable m) then raise (UnsupportedOperation "not writable")
  else
    pos ← gets (λ '(f, _), offset f);
    let at_ := if appending m then String.length c else pos in
    put (Text.pwrite at_ text c) (at_ + String.length text).

Definition flush : IO unit := content;; mret tt.

Definition fileno : IO unit := content;; mret tt.

(** [f.truncate()]: the file ends at the current position. *)
Definition truncate : IO unit :=
  c ← content;
  m ← gets (λ '(f, _), mode f);
  if negb (writable m) then raise (UnsupportedOperation "File not open for writing")
  else
    pos ← gets (λ '(f, _), offset f);
    put (Text.resize pos c) pos.

Definition close : IO unit :=
  modify (λ '(f, fs),
    ({| name := name f; mode := mode f; offset := offset f; closed := true |}, fs)).

(** [with open(p, m) as f: body] *)
Definition with_open {A} (p : string) (m : access_mode) (body : IO A)
  : M filesystem A := λ fs,
  match open p m fs with
  | (Raise e, fs') => (Raise e, fs')
  | (Ret f, fs') => let '(r, (_, fs'')) := body (f, fs') in (r, fs'')
  end.

(** [os.path.exists(p)], [os.remove(p)] *)
Definition exists_ (p : string) : M filesystem bool :=
  gets (λ fs, bool_decide (is_Some (fs !! p))).

Definition remove (p : string) : M filesystem unit := λ fs,
  match fs !! p with
  | Some (Regular _) => (Ret tt, delete p fs)
  | Some Directory => (Raise (IsADirectoryError p), fs)
  | None => (Raise (FileNotFoundError p), fs)
  end.
End TextIO.

(** ** class JSONStorage(Storage) *)

Module JSONStorage.

(** The attributes of an instance, and the part of the world it acts on: the
    file system, and whether the advisory lock on the lock file is held
    through [_lock_file].  [_backup_path] is an attribute that exists only
    once [_begin_transaction] has run.  [encoding] is not kept: file contents
    are texts already.  [kwargs] is part of [dumps]. *)
Record t : Type := mk {
  _mode : access_mode;
  path : string;
  _lock_file : option file_object;
  _backup_path : option string;
  _handle : file_object;
  disk : filesystem;
  flock : bool
}.

Definition set_lock_file (l : option file_object) (s : t) : t :=
  mk (_mode s) (path s) l (_backup_path s) (_handle s) (disk s) (flock s).
Definition set_backup_path (b : option string) (s : t) : t :=
  mk (_mode s) (path s) (_lock_file s) b (_handle s) (disk s) (flock s).
Definition set_handle (h : file_object) (s : t) : t :=
  mk (_mode s) (path s) (_lock_file s) (_backup_path s) h (disk s) (flock s).
Definition set_disk (d : filesystem) (s : t) : t :=
  mk (_mode s) (path s) (_lock_file s) (_backup_path s) (_handle s) d (flock s).
Definition set_flock (b : bool) (s : t) : t :=
  mk (_mode s) (path s) (_lock_file s) (_backup_path s) (_handle s) (disk s) b.

(** A call on the file system, and a call of a method of [self._handle]. *)
Definition os {A} (m : M filesystem A) : M t A := zoom disk set_disk m.

Definition handle {A} (m : TextIO.IO A) : M t A :=
  zoom (λ s, (_handle s, disk s)) (λ '(h, d) s, set_handle h (set_disk d s)) m.

(** Reading [self._backup_path] *)
Definition backup_path : M t string :=
  b ← gets _backup_path;
  match b with
  | Some p => mret p
  | None => raise (AttributeError "'JSONStorage' object has no attribute '_backup_path'")
  end.

(** [touch(path, create_dirs=False)]: opening for appending creates the file
    when it is missing and leaves its content alone.  The branch for
    [create_dirs], which makes the directories above [path], is outside a
    flat name space and is left out; so is what [open] does with a path that
    is no file name, [TextIO.is_file_name]. *)
Definition touch (p : string) : M filesystem unit :=
  TextIO.with_open p {| kind := OpenA; plus := false |} (mret tt).

(** [JSONStorage(path, access_mode=...)] on the file system [fs], with
    [create_dirs] left [False] *)
Definition __init__ (p : string) (access_mode : access_mode) (fs : filesystem)
  : outcome (Storage.t t) :=
  let init : M filesystem file_object :=
    (if plus access_mode || bool_decide (kind access_mode = OpenW)
        || bool_decide (kind access_mode = OpenA)
     then touch p else mret tt);;
    TextIO.open p access_mode in
  match init fs with
  | (Ret h, fs') => Ret (Storage.__init__ (mk access_mode p None None h fs' false))
  | (Raise e, _) => Raise e
  end.

Definition _acquire_lock : M t unit :=
  l ← gets _lock_file;
  (if l is None then
     p ← gets path;
     f ← os (TextIO.open (p +:+ ".lock") {| kind := OpenW; plus := false |});
     modify (set_lock_file (Some f))
   else mret tt);;
  l ← gets _lock_file;
  match l with
  | Some f =>
      (if closed f then raise (ValueError "I/O operation on closed file.")
       else mret tt);;
      modify (set_flock true)
  | None => raise (AttributeError "'NoneType' object has no attribute 'fileno'")
  end.

Definition _release_lock : M t unit :=
  l ← gets _lock_file;
  match l with
  | Some f =>
      (if closed f then raise (ValueError "I/O operation on closed file.")
       else mret tt);;
      modify (set_flock false)
  | None => raise (AttributeError "'NoneType' object has no attribute 'fileno'")
  end.

Definition _begin_transaction : M t unit :=
  p ← gets path;
  modify (set_backup_path (Some (p +:+ ".backup")));;
  _acquire_lock;;
  p ← gets path;
  b ← backup_path;
  os (TextIO.with_open p {| kind := OpenR; plus := false |}
        (content ← TextIO.read;
         zoom snd (λ fs' ffs, (ffs.1, fs'))
           (TextIO.with_open b {| kind := OpenW; plus := false |}
              (TextIO.write content)))).

Definition _commit_transaction : M t unit :=
  handle TextIO.flush;;
  handle TextIO.fileno;;
  b ← backup_path;
  present ← os (TextIO.exists_ b);
  (if (present : bool) then b ← backup_path; os (TextIO.remove b) else mret tt);;
  _release_lock.

Definition _rollback_transaction : M t unit :=
  try_finally
    (handle TextIO.close;;
     b ← backup_path;
     content ← os (TextIO.with_open b {| kind := OpenR; plus := false |} TextIO.read);
     p ← gets path;
     os (TextIO.with_open p {| kind := OpenW; plus := false |} (TextIO.write content));;
     p ← gets path;
     m ← gets _mode;
     h ← os (TextIO.open p m);
     modify (set_handle h))
    (b ← backup_path;
     present ← os (TextIO.exists_ b);
     (if (present : bool) then b ← backup_path; os (TextIO.remove b) else mret tt);;
     _release_lock).

Definition close : M t unit := handle TextIO.close.

Section methods.
Context {V : Type} `{!Json V}.

Definition read : M t V :=
  handle (TextIO.seek 0 SEEK_END);;
  size ← handle TextIO.tell;
  if bool_decide (size = 0) then mret none
  else
    handle (TextIO.seek 0 SEEK_SET);;
    text ← handle TextIO.read;
    call (loads text).

Definition write (data : V) : M t unit :=
  handle (TextIO.seek 0 SEEK_SET);;
  serialized ← call (dumps data);
  try_except (handle (TextIO.write serialized))
    (λ e, match e with
          | UnsupportedOperation _ =>
              m ← gets _mode;
              raise (OSError ("Cannot write to the database. Access mode is "
                              +:+ String "034"%char (mode_str m)
                              +:+ String "034"%char ""))
          | _ => raise e
          end);;
  handle TextIO.flush;;
  handle TextIO.fileno;;
  handle TextIO.truncate.

#[global] Instance backend : Backend V t :=
  Build_Backend V t
    read write close
    _begin_transaction _commit_transaction _rollback_transaction.
End methods.
End JSONStorage.

(** ** Python values and a [json] for them *)

(** An instance of [Json] to run the storages on: the values that JSON text
    denotes (numbers being integers here), and [PyObject] for any object that
    [json.dumps] refuses, a [set] for one.  A [dict] lists its items in
    insertion order; its keys are strings.  [dumps] prints the way
    [json.dumps] does by default ([", "] and [": "] as separators, everything
    outside printable ASCII escaped); [loads] is a JSON parser.  Exception
    messages do not carry positions. *)
Module PyJson.

#[local] Unset Elimination Schemes.
Inductive value : Type :=
  | PyNone
  | PyBool (b : bool)
  | PyInt (z : Z)
  | PyStr (s : string)
  | PyList (items : list value)
  | PyDict (items : list (string * value))
  | PyObject (type_name : string).
#[local] Set Elimination Schemes.

Definition quote : ascii := "034"%char.
Definition backslash : ascii := "092"%char.

Definition hex_digit (n : N) : ascii :=
  ascii_of_N (if (n <? 10)%N then 48 + n else 87 + n)%N.

Definition hex_value (a : ascii) : option N :=
  let n := N_of_ascii a in
  if (48 <=? n)%N && (n <=? 57)%N then Some (n - 48)%N
  else if (97 <=? n)%N && (n <=? 102)%N then Some (n - 87)%N
  else if (65 <=? n)%N && (n <=? 70)%N then Some (n - 55)%N
  else None.

Definition escape_char (a : ascii) : string :=
  let n := N_of_ascii a in
  if decide (a = quote) then String backslash (String quote "")
  else if decide (a = backslash) then String backslash (String backslash "")
  else if (n =? 10)%N then String backslash "n"
  else if (n =? 13)%N then String backslash "r"
  else if (n =? 9)%N then String backslash "t"
  else if (n =? 8)%N then String backslash "b"
  else if (n =? 12)%N then String backslash "f"
  else if (32 <=? n)%N && (n <=? 126)%N then String a ""
  else String backslash
         (String "u" (String "0" (String "0"
            (String (hex_digit (n / 16)) (String (hex_digit (n mod 16)) ""))))).

Fixpoint escape (s : string) : string :=
  match s with
  | "" => ""
  | String a s' => escape_char a +:+ escape s'
  end.

Definition encode_str (s : string) : string :=
  String quote (escape s) +:+ String quote "".

Fixpoint join (sep : string) (parts : list string) : string :=
  match parts with
  | [] => ""
  | [x] => x
  | x :: rest => x +:+ sep +:+ join sep rest
  end.

(** The texts of the items of a list, up to the first item that has none. *)
Definition collect {A} (f : A → outcome string) : list A → outcome (list string) :=
  fix go (l : list A) : outcome (list string) :=
    match l with
    | [] => Ret []
    | x :: l' =>
        match f x with
        | Raise e => Raise e
        | Ret tx =>
            match go l' with
            | Raise e => Raise e
            | Ret ts => Ret (tx :: ts)
            end
        end
    end.

Fixpoint encode (v : value) : outcome string :=
  match v with
  | PyNone => Ret "null"
  | PyBool true => Ret "true"
  | PyBool false => Ret "false"
  | PyInt z => Ret (pretty z)
  | PyStr s => Ret (encode_str s)
  | PyList items =>
      match collect encode items with
      | Raise e => Raise e
      | Ret ts => Ret ("[" +:+ join ", " ts +:+ "]")
      end
  | PyDict items =>
      match collect (λ kv, match encode kv.2 with
                           | Raise e => Raise e
                           | Ret tx => Ret (encode_str kv.1 +:+ ": " +:+ tx)
                           end) items with
      | Raise e => Raise e
      | Ret ts => Ret ("{" +:+ join ", " ts +:+ "}")
      end
  | PyObject type_name =>
      Raise (TypeError ("Object of type " +:+ type_name +:+ " is not JSON serializable"))
  end.

Fixpoint skip_ws (s : string) : string :=
  match s with
  | String a s' =>
      if bool_decide (a = " "%char ∨ a = "009"%char ∨ a = "010"%char ∨ a = "013"%char)
      then skip_ws s' else s
  | "" => ""
  end.

(** The body of a string literal, after the opening quote.  Code points
    above 255 have no counterpart in the texts of this model. *)
Fixpoint parse_str (s : string) : option (string * string) :=
  match s with
  | "" => None
  | String a rest =>
      if decide (a = quote) then Some ("", rest)
      else if decide (a = backslash) then
        match rest with
        | String "u" (String h1 (String h2 (String h3 (String h4 rest')))) =>
            match hex_value h1, hex_value h2, hex_value h3, hex_value h4 with
            | Some 0%N, Some 0%N, Some d3, Some d4 =>
                '(t, r) ← parse_str rest';
                Some (String (ascii_of_N (16 * d3 + d4)) t, r)
            | _, _, _, _ => None
            end
        | String e rest' =>
            c ← (if decide (e = quote) then Some quote
                 else if decide (e = backslash) then Some backslash
                 else match e with
                      | "/" => Some "/"
                      | "n" => Some "010"
                      | "r" => Some "013"
                      | "t" => Some "009"
                      | "b" => Some "008"
                      | "f" => Some "012"
                      | _ => None
                      end%char);
            '(t, r) ← parse_str rest';
            Some (String c t, r)
        | "" => None
        end
      else if (N_of_ascii a <? 32)%N then None
      else '(t, r) ← parse_str rest; Some (String a t, r)
  end.

Definition digit_value (a : ascii) : option Z :=
  let n := N_of_ascii a in
  if (48 <=? n)%N && (n <=? 57)%N then Some (Z.of_N (n - 48)) else None.

Fixpoint parse_digits (acc : Z) (s : string) : Z * string :=
  match s with
  | String a s' =>
      match digit_value a with
      | Some d => parse_digits (10 * acc + d) s'
      | None => (acc, s)
      end
  | "" => (acc, s)
  end.

(** An optional minus sign, then 0 or a digit string without leading zero;
    a fraction or an exponent would make a float. *)
Definition parse_int (s : string) : option (Z * string) :=
  let '(sign, s1) := match s with
                     | String "-" s' => ((-1)%Z, s')
                     | _ => (1%Z, s)
                     end in
  match s1 with
  | String a s2 =>
      match digit_value a with
      | Some d =>
          let '(n, rest) := if decide (d = 0%Z) then (0%Z, s2) else parse_digits d s2 in
          match rest with
          | String "." _ | String "e" _ | String "E" _ => None
          | _ => Some ((sign * n)%Z, rest)
          end
      | None => None
      end
  | "" => None
  end.

Definition literal (word : string) (v : value) (s : string) : option (value * string) :=
  if decide (Text.take (String.length word) s = word)
  then Some (v, Text.drop (String.length word) s) else None.

(** [d[k] = v] on a [dict] *)
Fixpoint dict_set (k : string) (v : value) (d : list (string * value))
  : list (string * value) :=
  match d with
  | [] => [(k, v)]
  | (k', v') :: d' =>
      if decide (k' = k) then (k, v) :: d' else (k', v') :: dict_set k v d'
  end.

Fixpoint parse_value (fuel : nat) (s : string) : option (value * string) :=
  match fuel with
  | 0 => None
  | S fuel' =>
      match skip_ws s with
      | String "n" _ as s' => literal "null" PyNone s'
      | String "t" _ as s' => literal "true" (PyBool true) s'
      | String "f" _ as s' => literal "false" (PyBool false) s'
      | String "[" rest =>
          match skip_ws rest with
          | String "]" rest' => Some (PyList [], rest')
          | _ => '(vs, rest') ← parse_elements fuel' rest; Some (PyList vs, rest')
          end
      | String "{" rest =>
          match skip_ws rest with
          | String "}" rest' => Some (PyDict [], rest')
          | _ => '(kvs, rest') ← parse_members fuel' [] rest; Some (PyDict kvs, rest')
          end
      | String a rest as s' =>
          if decide (a = quote)
          then '(t, rest') ← parse_str rest; Some (PyStr t, rest')
          else '(z, rest') ← parse_int s'; Some (PyInt z, rest')
      | "" => None
      end
  end
with parse_elements (fuel : nat) (s : string) : option (list value * string) :=
  match fuel with
  | 0 => None
  | S fuel' =>
      '(v, rest) ← parse_value fuel' s;
      match skip_ws rest with
      | String "," rest' =>
          '(vs, rest'') ← parse_elements fuel' rest'; Some (v :: vs, rest'')
      | String "]" rest' => Some ([v], rest')
      | _ => None
      end
  end
with parse_members (fuel : nat) (acc : list (string * value)) (s : string)
  : option (list (string * value) * string) :=
  match fuel with
  | 0 => None
  | S fuel' =>
      match skip_ws s with
      | String a rest =>
          if decide (a = quote) then
            '(k, rest1) ← parse_str rest;
            match skip_ws rest1 with
            | String ":" rest2 =>
                '(v, rest3) ← parse_value fuel' rest2;
                let acc' := dict_set k v acc in
                match skip_ws rest3 with
                | String "," rest4 => parse_members fuel' acc' rest4
                | String "}" rest4 => Some (acc', rest4)
                | _ => None
                end
            | _ => None
            end
          else None
      | "" => None
      end
  end.

Definition decode (s : string) : outcome value :=
  match parse_value (S (String.length s)) s with
  | Some (v, rest) =>
      if decide (skip_ws rest = "") then Ret v
      else Raise (JSONDecodeError "Extra data")
  | None => Raise (JSONDecodeError "Expecting value")
  end.

Definition is_None (v : value) : Decision (v = PyNone).
Proof. destruct v; [left; reflexivity | right; discriminate ..]. Defined.

#[global] Instance json : Json value := {|
  none := PyNone;
  none_dec := is_None;
  dumps := encode;
  loads := decode
|}.

End PyJson.

(** ** JSON-compatible values *)

Module Codec.
Import PyJson.

(** The values that JSON text denotes: no object that [json.dumps] refuses,
    and no key twice in a [dict]. *)
Fixpoint compatible (v : value) : Prop :=
  match v with
  | PyNone | PyBool _ | PyInt _ | PyStr _ => True
  | PyList items =>
      (fix go (l : list value) : Prop :=
         match l with
         | [] => True
         | x :: l' => compatible x ∧ go l'
         end) items
  | PyDict items =>
      NoDup items.*1 ∧
      (fix go (l : list (string * value)) : Prop :=
         match l with
         | [] => True
         | (_, x) :: l' => compatible x ∧ go l'
         end) items
  | PyObject _ => False
  end.

(** Where the text of a value ends: at the end of the whole text or at a
    character that cannot continue a number. *)
Definition stops (rest : string) : Prop :=
  match rest with
  | "" => True
  | String a _ => a = ","%char ∨ a = "]"%char ∨ a = "}"%char
  end.

(** What a number's text starts with. *)
Definition number_start (c : ascii) : Prop :=
  c = "-"%char ∨ ∃ d, c = pretty_N_char d.

(** What a value's text starts with: never a blank, a comma or a closing
    bracket. *)
Definition value_start (c : ascii) : Prop :=
  c = "n"%char ∨ c = "t"%char ∨ c = "f"%char ∨ c = quote ∨
  c = "["%char ∨ c = "{"%char ∨ number_start c.

(** [t] is the text of [x] and, followed by whatever ends a value, reads
    back as [x], given fuel for its length. *)
Definition text_is (x : value) (t : string) : Prop :=
  encode x = Ret t ∧
  (∃ c tail, t = String c tail ∧ value_start c) ∧
  ∀ f rest,
    String.length t ≤ f → stops rest →
    parse_value f (t +:+ rest) = Some (x, rest).

Definition reads_back (v : value) : Prop := ∃ text, text_is v text.

(** [t] is the text of the member [kv]: its key, a colon and the text of
    its value. *)
Definition member_is (kv : string * value) (t : string) : Prop :=
  ∃ tv, t = encode_str kv.1 +:+ ": " +:+ tv ∧ text_is kv.2 tv.

End Codec.

(** ** States of a file-backed instance *)

(** The handle is open on the instance's file, in the instance's mode, and
    the file holds [c]. *)
Definition open_on (c : string) (s : JSONStorage.t) : Prop :=
  closed (JSONStorage._handle s) = false ∧
  name (JSONStorage._handle s) = JSONStorage.path s ∧
  mode (JSONStorage._handle s) = JSONStorage._mode s ∧
  JSONStorage.disk s !! JSONStorage.path s = Some (Regular c).

(** An instance on which a transaction can start: besides, no directory
    sits where the lock file and the backup file go, and the lock file, if
    it was opened before, is still open (nothing in the class closes it). *)
Definition ready (c : string) (s : JSONStorage.t) : Prop :=
  open_on c s ∧
  JSONStorage.disk s !! (JSONStorage.path s +:+ ".lock") ≠ Some Directory ∧
  JSONStorage.disk s !! (JSONStorage.path s +:+ ".backup") ≠ Some Directory ∧
  from_option closed false (JSONStorage._lock_file s) = false.

(** What [_begin_transaction] has set up: the backup file holds [c0] and
    the lock file is open. *)
Definition backed_up (c0 : string) (s : JSONStorage.t) : Prop :=
  JSONStorage._backup_path s = Some (JSONStorage.path s +:+ ".backup") ∧
  JSONStorage.disk s !! (JSONStorage.path s +:+ ".backup") = Some (Regular c0) ∧
  (∃ f, JSONStorage._lock_file s = Some f ∧ closed f = false).

(** The modes in which opening a file that exists succeeds and leaves its
    content alone: [w] would empty it, [x] would refuse it. *)
Definition preserving (m : access_mode) : bool :=
  match kind m with
  | OpenR | OpenA => true
  | OpenW | OpenX => false
  end.

(** What [read] makes of a file that holds [c], through a handle of mode [m]. *)
Definition read_outcome {V} `{!Json V} (m : access_mode) (c : string) : outcome V :=
  if decide (c = "") then Ret none
  else if readable m then loads c
  else Raise (UnsupportedOperation "not readable").

(** A value that the copy through [json] gives back as it was: [None],
    which is not copied, or one that [json.loads(json.dumps(v))] restores. *)
Definition survives_copy {V} `{!Json V} (v : V) : Prop :=
  v = none ∨ ∃ text, dumps v = Ret text ∧ loads text = Ret v.

(** A run of writes, each of which may raise and be caught by the caller. *)
Fixpoint writes {V B} `{!Backend V B} (ws : list V) : M (Storage.t B) unit :=
  match ws with
  | [] => mret tt
  | w :: ws' => attempt (Storage.sub (write w));; writes ws'
  end.

(** The calls a client can make on an instance other than [commit] and
    [rollback]; what a call returns is dropped and what it raises is caught. *)
Inductive client_call (V : Type) : Type :=
  | CallBegin
  | CallRead
  | CallWrite (data : V)
  | CallClose.
Arguments CallBegin {V}.
Arguments CallRead {V}.
Arguments CallWrite {V} data.
Arguments CallClose {V}.

Definition perform {V B} `{!Backend V B} (c : client_call V) : M (Storage.t B) unit :=
  match c with
  | CallBegin => attempt Storage.begin;; mret tt
  | CallRead => attempt (Storage.sub read);; mret tt
  | CallWrite data => attempt (Storage.sub (write data));; mret tt
  | CallClose => attempt (Storage.sub close);; mret tt
  end.

Fixpoint perform_all {V B} `{!Backend V B} (cs : list (client_call V))
  : M (Storage.t B) unit :=
  match cs with
  | [] => mret tt
  | c :: cs' => perform c;; perform_all cs'
  end.

(** ** The instance as its own context manager *)

(** [with storage: block] (PEP 343): [storage.__enter__()], the block, then
    [storage.__exit__] with the exception of the block, if any, and the
    exception is raised again unless [__exit__] returns a true value. *)
Definition with_storage {V B} `{!Backend V B}
    (rt : runtime) (block : M (Storage.t B) unit) : M (Storage.t B) unit :=
  Scope.__enter__ rt;;
  r ← attempt block;
  match r with
  | Ret _ => Scope.__exit__ rt None;; mret tt
  | Raise e =>
      suppress ← Scope.__exit__ rt (Some e);
      if (suppress : bool) then mret tt else raise e
  end.

(** ** A file-backed instance inside a transaction *)

(** Between [begin] and [commit] or [rollback]: the handle is open on the
    file, which holds [c]; the backup file holds [c0]; the lock file is open
    and the lock is held. *)
Definition in_transaction (c c0 : string) (s : JSONStorage.t) : Prop :=
  open_on c s ∧ backed_up c0 s ∧
  JSONStorage.disk s !! (JSONStorage.path s +:+ ".lock") ≠ Some Directory ∧
  JSONStorage.flock s = true.

(** ** Transactions in a row *)

(** One transaction: [begin], a run of writes, and [commit] or [rollback]. *)
Definition transaction_run {V B} `{!Backend V B}
    (how : bool * list V) : M (Storage.t B) unit :=
  Storage.begin;; writes how.2;;
  if how.1 then Storage.commit else Storage.rollback.

Fixpoint transactions {V B} `{!Backend V B}
    (l : list (bool * list V)) : M (Storage.t B) unit :=
  match l with
  | [] => mret tt
  | how :: l' => transaction_run how;; transactions l'
  end.

(** ** Instances to run the model on *)

Module Scenario.
Import PyJson.

(** [{"_default": {"1": {"name": "a"}}}] and the same with ["b"] *)
Definition snapshot_a : value :=
  PyDict [("_default", PyDict [("1", PyDict [("name", PyStr "a")])])].
Definition snapshot_b : value :=
  PyDict [("_default", PyDict [("1", PyDict [("name", PyStr "b")])])].

(** [{"_default": {"1": {"name": "a"}, "2": {"name": "b"}}}] *)
Definition snapshot_ab : value :=
  PyDict [("_default", PyDict [("1", PyDict [("name", PyStr "a")]);
                               ("2", PyDict [("name", PyStr "b")])])].

(** A [set], which [json.dumps] refuses. *)
Definition a_set : value := PyObject "set".

(** The text [json.dumps] makes of a value. *)
Definition text_of (v : value) : string :=
  match dumps v with
  | Ret text => text
  | Raise _ => ""
  end.

Definition boom : exn := ValueError "boom".

Definition mode_r : access_mode := {| kind := OpenR; plus := false |}.
Definition mode_r_plus : access_mode := {| kind := OpenR; plus := true |}.
Definition mode_w : access_mode := {| kind := OpenW; plus := false |}.
Definition mode_w_plus : access_mode := {| kind := OpenW; plus := true |}.
Definition mode_a_plus : access_mode := {| kind := OpenA; plus := true |}.

(** A [MemoryStorage] after [write(data)]. *)
Definition memory_with (data : value) : Storage.t (MemoryStorage.t value) :=
  exec (Storage.sub (write data)) MemoryStorage.__init__.

(** [JSONStorage("db.json", access_mode=m)] on the file system [fs]; should
    the constructor raise, there is no instance, and a closed one on no file
    stands in. *)
Definition json_storage (m : access_mode) (fs : filesystem) : Storage.t JSONStorage.t :=
  match JSONStorage.__init__ "db.json" m fs with
  | Ret s => s
  | Raise _ =>
      Storage.__init__
        (JSONStorage.mk m "" None None
           {| name := ""; mode := m; offset := 0; closed := true |} ∅ false)
  end.

(** The same after [write(data)]. *)
Definition json_with (m : access_mode) (fs : filesystem) (data : value)
  : Storage.t JSONStorage.t :=
  exec (Storage.sub (write data)) (json_storage m fs).

(** A file system on which ["db.json"] holds [text]. *)
Definition db_json (text : string) : filesystem := {[ "db.json" := Regular text ]}.

(** A file system on which the lock file's name is taken by a directory. *)
Definition lock_is_directory : filesystem :=
  {[ "db.json" := Regular ""; "db.json.lock" := Directory ]}.

End Scenario.

(** * Properties *)

(** Unfolds the monad and the base class down to functions on states. *)
Ltac unfold_monad :=
  cbv [mbind M_bind mret M_ret gets modify raise call zoom attempt
       try_except try_finally exec result] in *.

Ltac unfold_storage :=
  cbv [Storage.begin Storage.commit Storage.rollback Storage.sub
       Storage.transaction_start Storage.transaction_after_yield
       Storage.set_in_transaction Storage.set_self] in *;
  unfold_monad.

(** ** The base class *)

Section storage_facts.
Context {V B : Type} `{!Backend V B}.
Implicit Types s : Storage.t B.

Lemma begin_guard s :
  Storage._in_transaction s = true →
  Storage.begin s = (Raise (RuntimeError "Transaction already in progress"), s).
Proof. destruct s as [[] b]; [reflexivity | discriminate]. Qed.

Lemma begin_run s :
  Storage._in_transaction s = false →
  Storage.begin s =
    ((_begin_transaction (Storage.self s)).1,
     Storage.mk true (_begin_transaction (Storage.self s)).2).
Proof.
  destruct s as [[] b]; [discriminate | intros _].
  unfold_storage; simpl. by destruct (_begin_transaction b) as [[] b'].
Qed.

Lemma commit_guard s :
  Storage._in_transaction s = false →
  Storage.commit s = (Raise (RuntimeError "No transaction in progress"), s).
Proof. destruct s as [[] b]; [discriminate | reflexivity]. Qed.

Lemma commit_run s :
  Storage._in_transaction s = true →
  Storage.commit s =
    ((_commit_transaction (Storage.self s)).1,
     Storage.mk false (_commit_transaction (Storage.self s)).2).
Proof.
  destruct s as [[] b]; [intros _ | discriminate].
  unfold_storage; simpl. by destruct (_commit_transaction b) as [[] b'].
Qed.

Lemma rollback_guard s :
  Storage._in_transaction s = false →
  Storage.rollback s = (Raise (RuntimeError "No transaction in progress"), s).
Proof. destruct s as [[] b]; [discriminate | reflexivity]. Qed.

Lemma rollback_run s :
  Storage._in_transaction s = true →
  Storage.rollback s =
    ((_rollback_transaction (Storage.self s)).1,
     Storage.mk false (_rollback_transaction (Storage.self s)).2).
Proof.
  destruct s as [[] b]; [intros _ | discriminate].
  unfold_storage; simpl. by destruct (_rollback_transaction b) as [[] b'].
Qed.

(** Whatever state they are called in, [commit] and [rollback] return with
    the flag down. *)
Lemma commit_flag s : Storage._in_transaction (exec Storage.commit s) = false.
Proof.
  destruct (Storage._in_transaction s) eqn:Hs; unfold exec.
  - by rewrite commit_run.
  - by rewrite commit_guard.
Qed.

Lemma rollback_flag s : Storage._in_transaction (exec Storage.rollback s) = false.
Proof.
  destruct (Storage._in_transaction s) eqn:Hs; unfold exec.
  - by rewrite rollback_run.
  - by rewrite rollback_guard.
Qed.

(** A backend method leaves the flag alone. *)
Lemma sub_flag {A} (m : M B A) s :
  Storage._in_transaction (exec (Storage.sub m) s) = Storage._in_transaction s.
Proof. destruct s as [f b]. unfold_storage; simpl. by destruct (m b). Qed.

(** A [begin] that returns has raised the flag. *)
Lemma begin_ok_flag s s1 :
  Storage.begin s = (Ret tt, s1) →
  Storage._in_transaction s = false ∧ Storage._in_transaction s1 = true.
Proof.
  destruct (Storage._in_transaction s) eqn:Hs.
  - by rewrite begin_guard.
  - rewrite begin_run by done. by intros [= _ <-].
Qed.

End storage_facts.

(** ** The transaction scope *)

Ltac unfold_scope :=
  cbv [Scope.with_transaction Scope.__enter__ Scope.__exit__ Scope.transaction
       contextlib.with_ contextlib.__enter__ contextlib.__exit__
       Generator.next Generator.throw Generator.close Generator.finalize
       gf_start gf_after_yield
       Storage.transaction_start Storage.transaction_after_yield
       mbind M_bind mret M_ret gets modify raise call zoom attempt
       try_except try_finally exec result fst snd].

Section scope_facts.
Context {V B : Type} `{!Backend V B}.
Implicit Types s : Storage.t B.

(** The scope when [begin] raises: the block does not run. *)
Lemma with_transaction_begin_raises rt block s e s1 :
  Storage.begin s = (Raise e, s1) →
  Scope.with_transaction rt block s = (Raise (pep479 e), s1).
Proof.
  intros Hb. unfold_scope. rewrite Hb. unfold pep479.
  destruct rt; by repeat case_decide.
Qed.

(** The scope when the block returns and [commit] returns. *)
Lemma with_transaction_commits rt block s s1 s2 s3 :
  Storage.begin s = (Ret tt, s1) →
  block s1 = (Ret tt, s2) →
  Storage.commit s2 = (Ret tt, s3) →
  Scope.with_transaction rt block s = (Ret tt, s3).
Proof.
  intros Hb Hk Hc. unfold_scope. rewrite Hb, Hk, Hc. by destruct rt.
Qed.

(** The scope when the block raises and [rollback] returns: the exception
    of the block comes out, whichever it is. *)
Lemma with_transaction_rolls_back rt block s s1 s2 s3 e :
  Storage.begin s = (Ret tt, s1) →
  block s1 = (Raise e, s2) →
  Storage.rollback s2 = (Ret tt, s3) →
  Scope.with_transaction rt block s = (Raise e, s3).
Proof.
  intros Hb Hk Hr. unfold_scope. rewrite Hb, Hk, Hr. unfold pep479.
  destruct (decide (e = StopIteration)) as [->|He]; simpl.
  - by destruct rt.
  - destruct e; try done; repeat case_decide; simplify_eq; by destruct rt.
Qed.

(** The scope when the block raises and [rollback] raises as well: the
    exception of [rollback] comes out. *)
Lemma with_transaction_rollback_raises rt block s s1 s2 s3 e e' :
  Storage.begin s = (Ret tt, s1) →
  block s1 = (Raise e, s2) →
  Storage.rollback s2 = (Raise e', s3) →
  e ≠ StopIteration →
  Scope.with_transaction rt block s = (Raise (pep479 e'), s3).
Proof.
  intros Hb Hk Hr He. unfold_scope. rewrite Hb, Hk, Hr. unfold pep479.
  destruct (decide (e' = StopIteration)) as [->|He']; simpl.
  - repeat case_decide; destruct_and?; simplify_eq; by destruct rt.
  - destruct e'; try done; repeat case_decide; destruct_and?; simplify_eq;
      by destruct rt.
Qed.

(** [__enter__] where nothing finalizes the abandoned manager: [begin], and
    the transaction stays open. *)
Lemma enter_deferred s s1 :
  Storage.begin s = (Ret tt, s1) →
  Scope.__enter__ Deferred s = (Ret tt, s1).
Proof. intros Hb. unfold_scope. by rewrite Hb. Qed.

(** [__enter__] under reference counting: the manager is dropped when the
    method returns, its generator is closed at the [yield], and the bare
    [except] rolls back. *)
Lemma enter_refcounting s s1 :
  Storage.begin s = (Ret tt, s1) →
  Scope.__enter__ RefCounting s = (Ret tt, exec Storage.rollback s1).
Proof.
  intros Hb. unfold_scope. rewrite Hb.
  by destruct (Storage.rollback s1) as [[[]|e] s2].
Qed.

(** [__exit__(None, None, None)] with a transaction open: the new scope's
    [begin] is refused, and nothing else happens. *)
Lemma exit_in_transaction rt s :
  Storage._in_transaction s = true →
  Scope.__exit__ rt None s =
    (Raise (RuntimeError "Transaction already in progress"), s).
Proof.
  intros Hs. unfold_scope. rewrite (begin_guard s Hs). by destruct rt.
Qed.

(** [__exit__(None, None, None)] with no transaction open, where [begin]
    returns: the new scope's generator stops at its [yield], which a manager
    does not expect on exit.  The exception it raises keeps the manager, so
    the transaction just begun stays open; when the exception is released,
    the transaction is rolled back as after [__enter__]. *)
Lemma exit_begins rt s s1 :
  Storage.begin s = (Ret tt, s1) →
  Scope.__exit__ rt None s =
    (Raise (RuntimeError "generator didn't stop"), s1) ∧
  Scope.__exit__generator None s = GEN_SUSPENDED ∧
  Scope.release RefCounting GEN_SUSPENDED s1 = exec Storage.rollback s1.
Proof.
  intros Hb. split_and!.
  - unfold_scope. by rewrite Hb.
  - unfold Scope.__exit__generator. unfold_scope. by rewrite Hb.
  - unfold Scope.release. unfold_scope.
    by destruct (Storage.rollback s1) as [[[]|e] s2].
Qed.

(** [__exit__] with an exception: it is thrown into a generator that has
    not started and comes back, and [__exit__] returns [False]. *)
Lemma exit_some rt e s :
  Scope.__exit__ rt (Some e) s = (Ret false, s).
Proof.
  unfold_scope. unfold pep479.
  destruct (decide (e = StopIteration)) as [->|He]; simpl.
  - by destruct rt.
  - destruct e; try done; repeat case_decide; simplify_eq; by destruct rt.
Qed.

End scope_facts.

(** ** Texts *)

Section text_facts.
Implicit Types a b c : string.

Lemma app_cons x a b : String x a +:+ b = String x (a +:+ b).
Proof. reflexivity. Qed.

Lemma app_empty_l a : "" +:+ a = a.
Proof. reflexivity. Qed.

Lemma app_empty_r a : a +:+ "" = a.
Proof. induction a as [|x a IH]; [done|]. by rewrite app_cons, IH. Qed.

Lemma length_app a b :
  String.length (a +:+ b) = String.length a + String.length b.
Proof. induction a as [|x a IH]; [done|]. rewrite app_cons. simpl. by rewrite IH. Qed.

Lemma length_zero a : String.length a = 0 ↔ a = "".
Proof. by destruct a. Qed.

Lemma take_app_length a b : Text.take (String.length a) (a +:+ b) = a.
Proof. induction a as [|x a IH]; [by destruct b|]. rewrite app_cons. simpl. by rewrite IH. Qed.

Lemma drop_zero a : Text.drop 0 a = a.
Proof. by destruct a. Qed.

Lemma drop_all a n : String.length a ≤ n → Text.drop n a = "".
Proof.
  revert n. induction a as [|x a IH]; intros [|n] Hn; simpl in *; try done; [lia|].
  apply IH. lia.
Qed.

Lemma take_all a n : String.length a ≤ n → Text.take n a = a.
Proof.
  revert n. induction a as [|x a IH]; intros [|n] Hn; simpl in *; try done; [lia|].
  rewrite IH; [done | lia].
Qed.

Lemma resize_exact a : Text.resize (String.length a) a = a.
Proof.
  unfold Text.resize. rewrite take_all, Nat.sub_diag by done. apply app_empty_r.
Qed.

Lemma resize_app_length a b : Text.resize (String.length a) (a +:+ b) = a.
Proof.
  unfold Text.resize. rewrite take_app_length, length_app.
  replace (String.length a - (String.length a + String.length b)) with 0 by lia.
  apply app_empty_r.
Qed.

(** Writing at the start and cutting after what was written leaves what was
    written, however long the file was. *)
Lemma resize_zero c : Text.resize 0 c = "".
Proof. by destruct c. Qed.

Lemma pwrite_start_truncate text c :
  Text.resize (String.length text) (Text.pwrite 0 text c) = text.
Proof.
  unfold Text.pwrite. rewrite resize_zero, app_empty_l. apply resize_app_length.
Qed.

(** Writing at the end appends. *)
Lemma pwrite_end text c : Text.pwrite (String.length c) text c = c +:+ text.
Proof.
  unfold Text.pwrite. rewrite resize_exact, drop_all by lia.
  by rewrite app_empty_r.
Qed.

Lemma pwrite_empty text : Text.pwrite 0 text "" = text.
Proof.
  unfold Text.pwrite. rewrite resize_zero, app_empty_l, drop_all by (simpl; lia).
  apply app_empty_r.
Qed.

Lemma app_neq_l a b : b ≠ "" → a +:+ b ≠ a.
Proof.
  intros Hb. induction a as [|x a IH]; [done|].
  rewrite app_cons. by intros [= ?].
Qed.

End text_facts.

(** The three files of an instance are three files. *)
Lemma backup_neq_path p : p +:+ ".backup" ≠ p.
Proof. by apply app_neq_l. Qed.

Lemma lock_neq_path p : p +:+ ".lock" ≠ p.
Proof. by apply app_neq_l. Qed.

Lemma lock_neq_backup p : p +:+ ".lock" ≠ p +:+ ".backup".
Proof. by intros ?%(inj _). Qed.

(** ** The file backend *)

Ltac unfold_json :=
  cbv [JSONStorage.read JSONStorage.write JSONStorage.close
       JSONStorage._begin_transaction JSONStorage._commit_transaction
       JSONStorage._rollback_transaction JSONStorage._acquire_lock
       JSONStorage._release_lock JSONStorage.backup_path
       JSONStorage.os JSONStorage.handle
       JSONStorage.set_lock_file JSONStorage.set_backup_path
       JSONStorage.set_handle JSONStorage.set_disk JSONStorage.set_flock
       JSONStorage._mode JSONStorage.path JSONStorage._lock_file
       JSONStorage._backup_path JSONStorage._handle JSONStorage.disk
       JSONStorage.flock
       TextIO.content TextIO.put TextIO.seek TextIO.tell TextIO.read
       TextIO.write TextIO.flush TextIO.fileno TextIO.truncate TextIO.close
       TextIO.open TextIO.with_open TextIO.exists_ TextIO.remove
       TextIO.set_offset name mode offset closed
       kind plus readable writable appending
       mbind M_bind mret M_ret gets modify raise call zoom attempt
       try_except try_finally exec result fst snd from_option negb] in *.

Ltac json_step :=
  first [ progress unfold_json
        | rewrite lookup_insert_eq
        | rewrite lookup_insert_ne by done
        | rewrite lookup_delete_ne by done
        | match goal with H : _ !! _ = _ |- _ => rewrite H end
        | match goal with H : dumps _ = _ |- _ => rewrite H end ].

Ltac json_run := repeat json_step.

Section json_facts.
Context {V : Type} `{!Json V}.
Implicit Types s : JSONStorage.t.

Lemma json_read_result s c :
  closed (JSONStorage._handle s) = false →
  JSONStorage.disk s !! name (JSONStorage._handle s) = Some (Regular c) →
  result JSONStorage.read s = read_outcome (mode (JSONStorage._handle s)) c.
Proof.
  destruct s as [m p lf bp [n hm pos cl] d fl]. unfold read_outcome.
  unfold_json. intros -> Hd. json_run.
  rewrite Nat.add_0_r.
  case_bool_decide as Hlen; case_decide as Hc; try (by apply length_zero in Hlen);
    try (by subst).
  destruct hm as [[] []]; json_run; try done; by destruct (loads c).
Qed.

(** [read] moves the position of the handle and nothing else. *)
Lemma json_read_state s c :
  closed (JSONStorage._handle s) = false →
  JSONStorage.disk s !! name (JSONStorage._handle s) = Some (Regular c) →
  ∃ k, exec JSONStorage.read s =
       JSONStorage.set_handle (TextIO.set_offset k (JSONStorage._handle s)) s.
Proof.
  destruct s as [m p lf bp [n hm pos cl] d fl].
  unfold_json. intros -> Hd. json_run.
  case_bool_decide as Hlen; [by eexists|].
  destruct hm as [[] []]; json_run; try (by eexists);
    destruct (loads c); by eexists.
Qed.

(** [write] through a handle that takes writes. *)
Lemma json_write_ok data text s c :
  closed (JSONStorage._handle s) = false →
  JSONStorage.disk s !! name (JSONStorage._handle s) = Some (Regular c) →
  dumps data = Ret text →
  writable (mode (JSONStorage._handle s)) = true →
  let h := JSONStorage._handle s in
  let c' := if appending (mode h) then c +:+ text else text in
  JSONStorage.write data s =
    (Ret tt,
     JSONStorage.set_handle
       {| name := name h; mode := mode h;
          offset := String.length c'; closed := false |}
       (JSONStorage.set_disk (<[name h := Regular c']> (JSONStorage.disk s)) s)).
Proof.
  destruct s as [m p lf bp [n [k pl] pos cl] d fl].
  unfold_json. intros -> Hd Hdumps Hw.
  destruct k, pl; try discriminate; json_run; rewrite !insert_insert_eq;
    rewrite ?pwrite_end, <-?length_app, ?resize_exact,
            ?Nat.add_0_l, ?pwrite_start_truncate; done.
Qed.

(** [write] through a handle that takes no writes. *)
Lemma json_write_rejected data text s c :
  closed (JSONStorage._handle s) = false →
  JSONStorage.disk s !! name (JSONStorage._handle s) = Some (Regular c) →
  dumps data = Ret text →
  writable (mode (JSONStorage._handle s)) = false →
  JSONStorage.write data s =
    (Raise (OSError ("Cannot write to the database. Access mode is "
                     +:+ String "034"%char (mode_str (JSONStorage._mode s))
                     +:+ String "034"%char "")),
     JSONStorage.set_handle (TextIO.set_offset 0 (JSONStorage._handle s)) s).
Proof.
  destruct s as [m p lf bp [n [k pl] pos cl] d fl].
  unfold_json. intros -> Hd Hdumps Hw.
  destruct k, pl; try discriminate; by json_run.
Qed.

(** [write] of what [json.dumps] refuses. *)
Lemma json_write_unserializable data e s c :
  closed (JSONStorage._handle s) = false →
  JSONStorage.disk s !! name (JSONStorage._handle s) = Some (Regular c) →
  dumps data = Raise e →
  JSONStorage.write data s =
    (Raise e,
     JSONStorage.set_handle (TextIO.set_offset 0 (JSONStorage._handle s)) s).
Proof.
  destruct s as [m p lf bp [n hm pos cl] d fl].
  unfold_json. intros -> Hd Hdumps. by json_run.
Qed.

End json_facts.

Lemma is_Some_true {A} (x : A) : bool_decide (is_Some (Some x)) = true.
Proof. apply bool_decide_eq_true_2. by eexists. Qed.

Lemma is_Some_false {A} : bool_decide (is_Some (@None A)) = false.
Proof. apply bool_decide_eq_false_2. by intros [? ?]. Qed.

Ltac tx_run :=
  repeat first [ json_step | rewrite is_Some_true | rewrite is_Some_false ].

Section json_tx.
Context {V : Type} `{!Json V}.
Implicit Types s : JSONStorage.t.

Lemma json_begin_ok s c :
  ready c s →
  ∃ s1, JSONStorage._begin_transaction s = (Ret tt, s1) ∧
        open_on c s1 ∧ backed_up c s1 ∧
        JSONStorage.path s1 = JSONStorage.path s ∧
        JSONStorage._mode s1 = JSONStorage._mode s.
Proof.
  destruct s as [m p lf bp [n hm pos cl] d fl].
  unfold ready, open_on, backed_up. simpl.
  intros ((-> & -> & -> & Hd) & Hlock & Hbackup & Hlf).
  pose proof (backup_neq_path p) as Hbp.
  pose proof (lock_neq_path p) as Hlp.
  pose proof (lock_neq_backup p) as Hlb.
  destruct lf as [f|]; simpl in Hlf.
  - json_run. rewrite Hlf. json_run.
    destruct (d !! (p +:+ ".backup")) as [[|]|] eqn:Hb; [|done|]; json_run;
      rewrite drop_zero, pwrite_empty, insert_insert_eq;
      (eexists; split; [reflexivity|]); json_run;
      split_and!; try done; by eexists.
  - json_run.
    destruct (d !! (p +:+ ".lock")) as [[|]|] eqn:Hl; [|done|]; json_run;
    (destruct (d !! (p +:+ ".backup")) as [[|]|] eqn:Hb; [|done|]); json_run;
      rewrite drop_zero, pwrite_empty, insert_insert_eq;
      (eexists; split; [reflexivity|]); json_run;
      split_and!; try done; by eexists.
Qed.

Lemma json_rollback_ok s c c0 :
  JSONStorage.disk s !! JSONStorage.path s = Some (Regular c) →
  backed_up c0 s →
  preserving (JSONStorage._mode s) = true →
  ∃ s3, JSONStorage._rollback_transaction s = (Ret tt, s3) ∧
        open_on c0 s3 ∧
        JSONStorage.path s3 = JSONStorage.path s ∧
        JSONStorage._mode s3 = JSONStorage._mode s ∧
        JSONStorage.disk s3 !! (JSONStorage.path s +:+ ".backup") = None ∧
        JSONStorage.flock s3 = false.
Proof.
  destruct s as [[k pl] p lf bp h d fl].
  unfold open_on, backed_up, preserving.
  cbn [JSONStorage.disk JSONStorage.path JSONStorage._backup_path
       JSONStorage._lock_file JSONStorage._mode kind].
  intros Hd (-> & Hb & f & -> & Hf) Hm.
  pose proof (backup_neq_path p) as Hbp.
  pose proof (lock_neq_path p) as Hlp.
  pose proof (lock_neq_backup p) as Hlb.
  assert (p ≠ p +:+ ".backup") as Hpb by done.
  destruct k; try discriminate.
  - tx_run. rewrite Hf. tx_run. rewrite drop_zero, pwrite_empty, insert_insert_eq.
    eexists; split; [reflexivity|]. tx_run. rewrite lookup_delete_eq. done.
  - tx_run. rewrite Hf. tx_run. rewrite drop_zero, pwrite_empty, insert_insert_eq.
    eexists; split; [reflexivity|]. tx_run. rewrite lookup_delete_eq. done.
Qed.

Lemma json_write_keeps data s c c0 :
  open_on c s → backed_up c0 s →
  ∃ c', open_on c' (exec (JSONStorage.write data) s) ∧
        backed_up c0 (exec (JSONStorage.write data) s) ∧
        JSONStorage.path (exec (JSONStorage.write data) s) = JSONStorage.path s ∧
        JSONStorage._mode (exec (JSONStorage.write data) s) = JSONStorage._mode s.
Proof.
  intros (Hcl & Hn & Hm & Hd) (Hbp & Hb & f & Hlf & Hf).
  pose proof (backup_neq_path (JSONStorage.path s)) as Hne.
  rewrite <-Hn in Hd.
  destruct (dumps data) as [text|e] eqn:Hdumps.
  - destruct (writable (mode (JSONStorage._handle s))) eqn:Hw.
    + unfold exec. rewrite (json_write_ok data text s c) by done.
      destruct s as [m p lf bp [n hm pos cl] d fl].
      unfold open_on, backed_up. tx_run. simplify_eq.
      eexists. tx_run. split_and!; try done. by eexists.
    + unfold exec. rewrite (json_write_rejected data text s c) by done.
      destruct s as [m p lf bp [n hm pos cl] d fl].
      unfold open_on, backed_up. tx_run. simplify_eq.
      eexists. tx_run. split_and!; try done. by eexists.
  - unfold exec. rewrite (json_write_unserializable data e s c) by done.
    destruct s as [m p lf bp [n hm pos cl] d fl].
    unfold open_on, backed_up. tx_run. simplify_eq.
    eexists. tx_run. split_and!; try done. by eexists.
Qed.

(** An instance as the constructor leaves it is ready for a transaction,
    unless a directory sits where the lock file or the backup file go. *)
Lemma json_init_ready p m fs (s : Storage.t JSONStorage.t) :
  JSONStorage.__init__ p m fs = Ret s →
  fs !! (p +:+ ".lock") ≠ Some Directory →
  fs !! (p +:+ ".backup") ≠ Some Directory →
  Storage._in_transaction s = false ∧
  JSONStorage._mode (Storage.self s) = m ∧
  JSONStorage.path (Storage.self s) = p ∧
  ∃ c, ready c (Storage.self s).
Proof.
  intros Hinit Hlock Hbackup.
  pose proof (backup_neq_path p) as Hbp.
  pose proof (lock_neq_path p) as Hlp.
  assert (p ≠ p +:+ ".backup") as Hpb by done.
  assert (p ≠ p +:+ ".lock") as Hpl by done.
  unfold JSONStorage.__init__, JSONStorage.touch, Storage.__init__ in Hinit.
  destruct m as [k pl].
  destruct (fs !! p) as [[c|]|] eqn:Hp;
    destruct k, pl; cbn [kind plus] in Hinit;
    repeat (case_bool_decide; try discriminate);
    cbn [orb] in Hinit;
    repeat first [ rewrite Hp in Hinit
                 | rewrite lookup_insert_eq in Hinit
                 | progress unfold_json ];
    simplify_eq; cbn [Storage.self Storage._in_transaction];
    unfold ready, open_on; tx_run;
    (split_and!; [done..|]); eexists; split_and!; done.
Qed.

End json_tx.

Lemma run_eq {S A} (m : M S A) (s : S) : m s = (result m s, exec m s).
Proof. unfold result, exec. by destruct (m s). Qed.

Lemma sub_result {B A} (m : M B A) (s : Storage.t B) :
  result (Storage.sub m) s = result m (Storage.self s).
Proof. destruct s as [f b]. unfold_storage. simpl. by destruct (m b). Qed.

Lemma sub_exec {B A} (m : M B A) (s : Storage.t B) :
  exec (Storage.sub m) s =
  Storage.mk (Storage._in_transaction s) (exec m (Storage.self s)).
Proof. destruct s as [f b]. unfold_storage. simpl. by destruct (m b). Qed.

Section rollback_law.
Context {V B : Type} `{!Backend V B}.
Variable Inv : B → Prop.
Variable view : outcome V.
Hypothesis write_inv : ∀ data b, Inv b → Inv (exec (write data) b).
Hypothesis rollback_restores : ∀ b,
  Inv b →
  result _rollback_transaction b = Ret tt ∧
  result read (exec _rollback_transaction b) = view.

Lemma writes_keep ws (s : Storage.t B) :
  Storage._in_transaction s = true →
  Inv (Storage.self s) →
  result (writes ws) s = Ret tt ∧
  Storage._in_transaction (exec (writes ws) s) = true ∧
  Inv (Storage.self (exec (writes ws) s)).
Proof.
  revert s. induction ws as [|w ws IH]; intros [f b] Hf Hb; [done|].
  simpl in *. subst f.
  specialize (IH (Storage.mk true (exec (write w) b)) eq_refl (write_inv w b Hb)).
  unfold_storage. simpl. destruct (write w b) as [r b']. simpl in *. by destruct r.
Qed.

Lemma rollback_law (s : Storage.t B) ws :
  Storage._in_transaction s = false →
  result _begin_transaction (Storage.self s) = Ret tt →
  Inv (exec _begin_transaction (Storage.self s)) →
  (result (Storage.begin;; writes ws;; Storage.rollback) s = Ret tt ∧
   result (Storage.sub read)
     (exec (Storage.begin;; writes ws;; Storage.rollback) s) = view) ∧
  (∀ rt e,
     result (Scope.with_transaction rt (writes ws;; raise e)) s = Raise e ∧
     result (Storage.sub read)
       (exec (Scope.with_transaction rt (writes ws;; raise e)) s) = view).
Proof.
  intros Hf Hbegin Hinv.
  set (b1 := exec _begin_transaction (Storage.self s)) in *.
  assert (Storage.begin s = (Ret tt, Storage.mk true b1)) as Hb.
  { rewrite begin_run by done. by rewrite <-Hbegin. }
  destruct (writes_keep ws (Storage.mk true b1) eq_refl Hinv) as (Hw & Hwf & Hwi).
  set (s2 := exec (writes ws) (Storage.mk true b1)) in *.
  destruct (rollback_restores _ Hwi) as [Hr Hv].
  assert (Storage.rollback s2 =
          (Ret tt, Storage.mk false (exec _rollback_transaction (Storage.self s2)))) as Hrb.
  { rewrite rollback_run by done. by rewrite <-Hr. }
  assert (writes ws (Storage.mk true b1) = (Ret tt, s2)) as Hws.
  { by rewrite (run_eq (writes ws)), Hw. }
  split.
  - unfold result, exec, mbind, M_bind. rewrite Hb, Hws, Hrb. simpl.
    split; [done|]. rewrite <-Hv. apply (sub_result read (Storage.mk false _)).
  - intros rt e.
    assert (((writes ws;; raise e) : M (Storage.t B) unit) (Storage.mk true b1)
            = (Raise e, s2)) as Hblock.
    { unfold mbind, M_bind. by rewrite Hws. }
    pose proof (with_transaction_rolls_back rt _ _ _ _ _ e Hb Hblock Hrb) as Hscope.
    unfold result at 1, exec at 1. rewrite Hscope. split; [done|].
    rewrite <-Hv. apply (sub_result read (Storage.mk false _)).
Qed.

End rollback_law.

(** ** The codec *)

Section codec_facts.
Import PyJson Codec.

Lemma app_assoc' (a b c : string) : (a +:+ b) +:+ c = a +:+ (b +:+ c).
Proof. induction a as [|x a IH]; [done|]. by rewrite !app_cons, IH. Qed.

Lemma parse_str_escape_char a s :
  parse_str (escape_char a +:+ s) = 
  '(t, r) ← parse_str s; Some (String a t, r).
Proof.
  destruct a as [[] [] [] [] [] [] [] []]; reflexivity.
Qed.

Lemma parse_str_escape s rest :
  parse_str (escape s +:+ String quote rest) = Some (s, rest).
Proof.
  induction s as [|a s IH]; [done|].
  cbn [escape]. rewrite app_assoc', parse_str_escape_char, IH. done.
Qed.

Lemma parse_digits_stop acc rest : stops rest → parse_digits acc rest = (acc, rest).
Proof. destruct rest as [|a rest]; [done|]. by intros [->|[->| ->]]. Qed.

Lemma digit_value_char x :
  (x < 10)%N → digit_value (pretty_N_char x) = Some (Z.of_N x).
Proof.
  intros Hx.
  assert (x = 0 ∨ x = 1 ∨ x = 2 ∨ x = 3 ∨ x = 4 ∨ x = 5 ∨ x = 6
          ∨ x = 7 ∨ x = 8 ∨ x = 9)%N as Hc by lia.
  by destruct Hc as [->|[->|[->|[->|[->|[->|[->|[->|[->| ->]]]]]]]]].
Qed.

Lemma pretty_N_go_app x s rest :
  pretty_N_go x s +:+ rest = pretty_N_go x (s +:+ rest).
Proof.
  revert s. induction (N.lt_wf_0 x) as [x _ IH]; intros s.
  assert (x = 0 ∨ 0 < x)%N as [->|?] by lia; [by rewrite !pretty_N_go_0|].
  rewrite (pretty_N_go_step x s), (pretty_N_go_step x (s +:+ rest)) by done.
  by rewrite IH by (by apply N.div_lt).
Qed.

(** Reading the digits of [x] back, from any accumulator. *)
Lemma parse_digits_pretty x :
  ∃ k : nat, ∀ acc s,
    parse_digits acc (pretty_N_go x s) =
    parse_digits (acc * 10 ^ Z.of_nat k + Z.of_N x) s.
Proof.
  induction (N.lt_wf_0 x) as [x _ IH].
  assert (x = 0 ∨ 0 < x)%N as [->|Hx] by lia.
  { exists 0. intros acc s. rewrite pretty_N_go_0. f_equal. simpl. lia. }
  destruct (IH (x `div` 10)%N) as [k Hk]; [by apply N.div_lt|].
  exists (S k). intros acc s.
  rewrite pretty_N_go_step, Hk by done. cbn [parse_digits].
  rewrite digit_value_char by (by apply N.mod_lt).
  f_equal. rewrite Nat2Z.inj_succ, Z.pow_succ_r by lia.
  rewrite (N.div_mod x 10) at 3 by done.
  rewrite N2Z.inj_add, N2Z.inj_mul. simpl Z.of_N. lia.
Qed.

(** The first digit of a positive number is no zero. *)
Lemma pretty_N_go_head x s :
  (0 < x)%N →
  ∃ d tail, pretty_N_go x s = String (pretty_N_char d) tail ∧ (0 < d < 10)%N.
Proof.
  revert s. induction (N.lt_wf_0 x) as [x _ IH]; intros s Hx.
  rewrite pretty_N_go_step by done.
  assert (x < 10 ∨ 10 ≤ x)%N as [Hlt|Hge] by lia.
  - rewrite N.div_small, pretty_N_go_0 by done.
    exists x, s. rewrite N.mod_small by done. split; [done|lia].
  - apply IH; [by apply N.div_lt|].
    apply N.div_str_pos. lia.
Qed.

Lemma parse_int_positive (p : positive) rest :
  stops rest →
  parse_int (pretty (Npos p) +:+ rest) = Some (Zpos p, rest) ∧
  ∃ d tail, pretty (Npos p) +:+ rest = String (pretty_N_char d) tail ∧ (0 < d < 10)%N.
Proof.
  intros Hrest. unfold pretty, pretty_N. case_decide; [done|].
  rewrite pretty_N_go_app, app_empty_l.
  destruct (pretty_N_go_head (Npos p) rest) as (d & tail & Hhead & Hd); [done|].
  split; [|by eauto].
  destruct (parse_digits_pretty (Npos p)) as [k Hk].
  pose proof (Hk 0%Z rest) as Hparse. rewrite Hhead in Hparse |- *.
  cbn [parse_digits] in Hparse.
  rewrite digit_value_char in Hparse by lia.
  unfold parse_int.
  assert (pretty_N_char d ≠ "-"%char) as Hdash.
  { assert (d = 1 ∨ d = 2 ∨ d = 3 ∨ d = 4 ∨ d = 5 ∨ d = 6
            ∨ d = 7 ∨ d = 8 ∨ d = 9)%N as Hc by lia.
    by destruct Hc as [->|[->|[->|[->|[->|[->|[->|[->| ->]]]]]]]]. }
  assert (∀ tl : string,
            match String (pretty_N_char d) tl with
            | String "-" s' => ((-1)%Z, s')
            | _ => (1%Z, String (pretty_N_char d) tl)
            end = (1%Z, String (pretty_N_char d) tl)) as ->.
  { intros tl. assert (d = 1 ∨ d = 2 ∨ d = 3 ∨ d = 4 ∨ d = 5 ∨ d = 6
            ∨ d = 7 ∨ d = 8 ∨ d = 9)%N as Hc by lia.
    by destruct Hc as [->|[->|[->|[->|[->|[->|[->|[->| ->]]]]]]]]. }
  rewrite digit_value_char by lia.
  case_decide as Hz; [lia|].
  replace (10 * 0 + Z.of_N d)%Z with (Z.of_N d) in Hparse by lia.
  rewrite Hparse, parse_digits_stop by done.
  replace (0 * 10 ^ Z.of_nat k + Z.of_N (N.pos p))%Z with (Zpos p) by (simpl; lia).
  destruct rest as [|a rest']; [done|].
  destruct Hrest as [->|[->| ->]]; f_equal; f_equal; lia.
Qed.

Lemma parse_int_neg c tail :
  c ≠ "-"%char →
  parse_int (String "-" (String c tail)) =
  '(z, r) ← parse_int (String c tail); Some ((- z)%Z, r).
Proof.
  intros Hc. unfold parse_int.
  assert (match String c tail with
          | String "-" s' => ((-1)%Z, s')
          | _ => (1%Z, String c tail)
          end = (1%Z, String c tail)) as ->.
  { destruct c as [[] [] [] [] [] [] [] []]; done. }
  destruct (digit_value c) as [d|]; [|done].
  case_decide.
  - destruct tail as [|a tail']; [done|].
    destruct a as [[] [] [] [] [] [] [] []]; done.
  - destruct (parse_digits d tail) as [n [|a rest]]; simpl.
    + do 2 f_equal. lia.
    + destruct a as [[] [] [] [] [] [] [] []]; simpl; do 2 f_equal; lia.
Qed.

Lemma pretty_N_char_not_dash d : pretty_N_char d ≠ "-"%char.
Proof. unfold pretty_N_char. by repeat case_match. Qed.

Lemma parse_int_pretty (z : Z) rest :
  stops rest →
  parse_int (pretty z +:+ rest) = Some (z, rest) ∧
  ∃ c tail, pretty z +:+ rest = String c tail ∧ number_start c.
Proof.
  intros Hrest. destruct z as [|p|p].
  - split; [|exists "0"%char, rest; split; [done|right; by exists 0%N]].
    destruct rest as [|a rest']; [done|].
    by destruct Hrest as [->|[->| ->]].
  - destruct (parse_int_positive p rest Hrest) as [Hp (d & tail & Hhead & Hd)].
    split; [done|]. exists (pretty_N_char d), tail. split; [done|]. right. by exists d.
  - destruct (parse_int_positive p rest Hrest) as [Hp (d & tail & Hhead & Hd)].
    change (pretty (Z.neg p)) with ("-" +:+ pretty (N.pos p)).
    rewrite app_assoc', app_cons, app_empty_l.
    split; [|exists "-"%char; eexists; split; [done|by left]].
    rewrite Hhead in Hp |- *.
    rewrite parse_int_neg by apply pretty_N_char_not_dash.
    by rewrite Hp.
Qed.

Lemma value_induction (P : value → Prop) :
  P PyNone →
  (∀ b, P (PyBool b)) →
  (∀ z, P (PyInt z)) →
  (∀ s, P (PyStr s)) →
  (∀ items, Forall P items → P (PyList items)) →
  (∀ items, Forall (λ kv, P kv.2) items → P (PyDict items)) →
  (∀ n, P (PyObject n)) →
  ∀ v, P v.
Proof.
  intros Hnone Hbool Hint Hstr Hlist Hdict Hobj.
  fix IH 1. intros [| b | z | s | items | items | n].
  - apply Hnone.
  - apply Hbool.
  - apply Hint.
  - apply Hstr.
  - apply Hlist. revert items. fix IHl 1. intros [|x l].
    + constructor.
    + constructor; [apply IH | apply IHl].
  - apply Hdict. revert items. fix IHl 1. intros [|[k x] l].
    + constructor.
    + constructor; [apply IH | apply IHl].
  - apply Hobj.
Qed.

Lemma number_start_cases c :
  number_start c →
  c = "-"%char ∨ c = "0"%char ∨ c = "1"%char ∨ c = "2"%char ∨ c = "3"%char ∨
  c = "4"%char ∨ c = "5"%char ∨ c = "6"%char ∨ c = "7"%char ∨ c = "8"%char ∨
  c = "9"%char.
Proof.
  intros [->|[d ->]]; [by left|]. right. unfold pretty_N_char.
  repeat case_match; naive_solver.
Qed.

Lemma parse_value_number f c tail :
  number_start c →
  parse_value (S f) (String c tail) =
  '(z, r) ← parse_int (String c tail); Some (PyInt z, r).
Proof.
  intros Hc%number_start_cases.
  destruct Hc as [->|[->|[->|[->|[->|[->|[->|[->|[->|[->| ->]]]]]]]]]]; reflexivity.
Qed.

Lemma parse_value_blank f s : parse_value f (String " " s) = parse_value f s.
Proof. by destruct f. Qed.

Lemma skip_ws_value_start c tail :
  value_start c → skip_ws (String c tail) = String c tail.
Proof.
  intros [->|[->|[->|[->|[->|[->|Hc%number_start_cases]]]]]]; try done.
  by destruct Hc as [->|[->|[->|[->|[->|[->|[->|[->|[->|[->| ->]]]]]]]]]].
Qed.

Lemma stops_skip_ws rest : stops rest → skip_ws rest = rest.
Proof. destruct rest as [|a rest]; [done|]. by intros [->|[->| ->]]. Qed.

Lemma compatible_list items :
  compatible (PyList items) ↔ Forall compatible items.
Proof.
  induction items as [|x l IH]; [by split; [constructor|]|].
  rewrite Forall_cons, <-IH. done.
Qed.

Lemma compatible_dict items :
  compatible (PyDict items) ↔
  NoDup items.*1 ∧ Forall (λ kv, compatible kv.2) items.
Proof.
  cbn [compatible]. apply and_iff_compat_l.
  induction items as [|[k x] l IH]; [by split; [constructor|]|].
  rewrite Forall_cons, <-IH. done.
Qed.

Lemma reads_back_none : reads_back PyNone.
Proof.
  exists "null". split; [done|]. split; [exists "n"%char; eexists; split; [done|by left]|].
  intros [|f] rest Hf _; [simpl in Hf; lia|]. reflexivity.
Qed.

Lemma reads_back_bool b : reads_back (PyBool b).
Proof.
  destruct b.
  - exists "true". split; [done|].
    split; [exists "t"%char; eexists; split; [done|right; by left]|].
    intros [|f] rest Hf _; [simpl in Hf; lia|]. reflexivity.
  - exists "false". split; [done|].
    split; [exists "f"%char; eexists; split; [done|right; right; by left]|].
    intros [|f] rest Hf _; [simpl in Hf; lia|]. reflexivity.
Qed.

Lemma reads_back_int z : reads_back (PyInt z).
Proof.
  exists (pretty z). split; [done|].
  destruct (parse_int_pretty z "" I) as [_ (c & tail & Hhead & Hc)].
  rewrite app_empty_r in Hhead.
  split; [exists c, tail; split; [done|by do 6 right]|].
  intros [|f] rest Hf Hrest; [rewrite Hhead in Hf; simpl in Hf; lia|].
  destruct (parse_int_pretty z rest Hrest) as [Hparse (c' & tail' & Hhead' & Hc')].
  rewrite Hhead' in Hparse |- *.
  by rewrite parse_value_number, Hparse.
Qed.

Lemma reads_back_str s : reads_back (PyStr s).
Proof.
  exists (encode_str s). split; [done|].
  split; [exists quote; eexists; split; [done|by do 3 right; left]|].
  intros [|f] rest Hf _; [simpl in Hf; lia|].
  unfold encode_str. rewrite app_assoc', !app_cons, app_empty_l.
  change (parse_value (S f) (String quote ?x)) with
    ('(t, rest') ← parse_str x; Some (PyStr t, rest')).
  by rewrite parse_str_escape.
Qed.

Lemma parse_elements_step f s :
  parse_elements (S f) s =
  '(v, rest) ← parse_value f s;
  match skip_ws rest with
  | String "," rest' =>
      '(vs, rest'') ← parse_elements f rest'; Some (v :: vs, rest'')
  | String "]" rest' => Some ([v], rest')
  | _ => None
  end.
Proof. reflexivity. Qed.

Lemma parse_elements_blank f s :
  parse_elements f (String " " s) = parse_elements f s.
Proof. destruct f; [done|]. by rewrite !parse_elements_step, parse_value_blank. Qed.

Lemma parse_value_list_step f rest :
  parse_value (S f) (String "[" rest) =
  match skip_ws rest with
  | String "]" rest' => Some (PyList [], rest')
  | _ => '(vs, rest') ← parse_elements f rest; Some (PyList vs, rest')
  end.
Proof. reflexivity. Qed.

Lemma join_cons2 sep x y l :
  join sep (x :: y :: l) = x +:+ sep +:+ join sep (y :: l).
Proof. reflexivity. Qed.

Lemma collect_texts {A} (f : A → outcome string) (P : A → string → Prop) items :
  Forall (λ x, ∃ t, f x = Ret t ∧ P x t) items →
  ∃ ts, collect f items = Ret ts ∧ Forall2 P items ts.
Proof.
  induction 1 as [|x l (t & Hf & Ht) _ (ts & Hc & Hts)].
  - exists []. by split; [|constructor].
  - exists (t :: ts). cbn [collect]. fold (collect f). rewrite Hf, Hc.
    by split; [|constructor].
Qed.

Lemma stops_comma rest : stops (", " +:+ rest).
Proof. by left. Qed.

Lemma stops_bracket rest : stops ("]" +:+ rest).
Proof. by right; left. Qed.

Lemma stops_brace rest : stops ("}" +:+ rest).
Proof. by right; right. Qed.

Lemma parse_elements_join items ts :
  Forall2 text_is items ts →
  items ≠ [] →
  ∀ f rest,
    String.length (join ", " ts) < f →
    parse_elements f (join ", " ts +:+ "]" +:+ rest) = Some (items, rest).
Proof.
  induction 1 as [|x t items' ts' (Henc & _ & Hparse) Hrest IH]; [done|].
  intros _ [|f] rest Hf; [lia|].
  rewrite parse_elements_step.
  destruct Hrest as [|x2 t2 items'' ts'' Ht2 Hrest].
  - cbn [join] in *. rewrite Hparse; [done|lia|apply stops_bracket].
  - rewrite join_cons2 in *. rewrite !length_app in Hf.
    rewrite !app_assoc'.
    rewrite Hparse; [|lia|apply stops_comma].
    cbn [mbind option_bind]. 
    change (skip_ws (", " +:+ ?x)) with (String "," (String " " x)).
    cbn beta iota.
    rewrite parse_elements_blank.
    rewrite <-!app_assoc', (app_assoc' _ "]" rest).
    change (String.length ", ") with 2 in Hf.
    rewrite IH by (done || lia). done.
Qed.

Lemma value_start_cases c :
  value_start c →
  c = "n"%char ∨ c = "t"%char ∨ c = "f"%char ∨ c = quote ∨
  c = "["%char ∨ c = "{"%char ∨
  c = "-"%char ∨ c = "0"%char ∨ c = "1"%char ∨ c = "2"%char ∨ c = "3"%char ∨
  c = "4"%char ∨ c = "5"%char ∨ c = "6"%char ∨ c = "7"%char ∨ c = "8"%char ∨
  c = "9"%char.
Proof.
  intros [->|[->|[->|[->|[->|[->|Hc%number_start_cases]]]]]]; naive_solver.
Qed.

Lemma parse_value_list_nonempty f c tail :
  value_start c →
  parse_value (S f) (String "[" (String c tail)) =
  '(vs, rest') ← parse_elements f (String c tail); Some (PyList vs, rest').
Proof.
  intros Hc%value_start_cases.
  repeat (destruct Hc as [->|Hc]; [done|]). by subst.
Qed.

Lemma reads_back_list items :
  Forall reads_back items → reads_back (PyList items).
Proof.
  intros Hitems.
  destruct (collect_texts encode text_is items) as (ts & Hc & Hts).
  { eapply Forall_impl; [done|]. intros x (t & Ht). exists t. split; [apply Ht|done]. }
  exists ("[" +:+ join ", " ts +:+ "]"). split; [by cbn [encode]; rewrite Hc|].
  split; [exists "["%char; eexists; split; [done|by do 4 right; left]|].
  intros f rest Hf Hrest. rewrite !length_app in Hf.
  change (String.length "[") with 1 in Hf.
  change (String.length "]") with 1 in Hf.
  destruct f as [|f]; [lia|].
  rewrite !app_assoc', app_cons, app_empty_l.
  destruct Hts as [|x t items' ts' Ht Hts'].
  { reflexivity. }
  destruct Ht as (Henc & (c & tail & -> & Hstart) & Hparse).
  assert (∃ tail', join ", " (String c tail :: ts') +:+ "]" +:+ rest
                   = String c tail') as [tail' Hhead].
  { destruct ts'; [by eexists|]. rewrite join_cons2, !app_assoc', app_cons. by eexists. }
  rewrite Hhead, parse_value_list_nonempty, <-Hhead by done.
  rewrite (parse_elements_join (x :: items') (String c tail :: ts')); [done| |done|].
  - constructor; [|done]. split; [done|]. split; [by eauto|done].
  - lia.
Qed.

Lemma dict_set_fresh k v acc :
  k ∉ acc.*1 → dict_set k v acc = acc ++ [(k, v)].
Proof.
  induction acc as [|[k' v'] acc IH]; [done|].
  rewrite fmap_cons, not_elem_of_cons. intros [Hne Hacc].
  cbn [dict_set]. case_decide; [by subst|]. by rewrite IH.
Qed.

Lemma parse_members_step f acc k rest :
  parse_members (S f) acc (encode_str k +:+ ": " +:+ rest) =
  '(v, rest3) ← parse_value f rest;
  match skip_ws rest3 with
  | String "," rest4 => parse_members f (dict_set k v acc) rest4
  | String "}" rest4 => Some (dict_set k v acc, rest4)
  | _ => None
  end.
Proof.
  unfold encode_str. rewrite !app_assoc', !app_cons, app_empty_l.
  change (parse_members (S f) acc (String quote ?x)) with
    ('(k, rest1) ← parse_str x;
     match skip_ws rest1 with
     | String ":" rest2 =>
         '(v, rest3) ← parse_value f rest2;
         match skip_ws rest3 with
         | String "," rest4 => parse_members f (dict_set k v acc) rest4
         | String "}" rest4 => Some (dict_set k v acc, rest4)
         | _ => None
         end
     | _ => None
     end).
  rewrite parse_str_escape. cbn [mbind option_bind].
  change (skip_ws (String ":" ?x)) with (String ":" x).
  cbn beta iota. by rewrite app_empty_l, parse_value_blank.
Qed.

Lemma parse_members_blank f acc s :
  parse_members f acc (String " " s) = parse_members f acc s.
Proof. by destruct f. Qed.

Lemma length_encode_str k : 2 ≤ String.length (encode_str k).
Proof. unfold encode_str. rewrite length_app. simpl. lia. Qed.

Lemma parse_members_join items ts :
  Forall2 member_is items ts →
  items ≠ [] →
  ∀ acc f rest,
    NoDup (acc.*1 ++ items.*1) →
    String.length (join ", " ts) < f →
    parse_members f acc (join ", " ts +:+ "}" +:+ rest) = Some (acc ++ items, rest).
Proof.
  induction 1 as [|[k x] t items' ts' (tv & -> & Henc & _ & Hparse) Hrest IH]; [done|].
  intros _ acc [|f] rest Hdup Hf; [lia|].
  assert (k ∉ acc.*1) as Hk.
  { apply NoDup_app in Hdup as (_ & Hdup & _). intros Hin.
    apply (Hdup k Hin). rewrite fmap_cons. by left. }
  cbn [fst snd] in *.
  destruct Hrest as [|kv2 t2 items'' ts'' Ht2 Hrest].
  - cbn [join] in *. rewrite !length_app in Hf.
    rewrite !app_assoc', parse_members_step.
    rewrite Hparse; [|lia|apply stops_brace].
    cbn [mbind option_bind].
    change (skip_ws ("}" +:+ ?x)) with (String "}" x).
    cbn beta iota. by rewrite dict_set_fresh.
  - rewrite join_cons2 in *. rewrite !length_app in Hf.
    rewrite !app_assoc', parse_members_step.
    rewrite Hparse; [|lia|apply stops_comma].
    cbn [mbind option_bind].
    change (skip_ws (", " +:+ ?x)) with (String "," (String " " x)).
    cbn beta iota.
    rewrite parse_members_blank, dict_set_fresh by done.
    rewrite <-!app_assoc', (app_assoc' _ "}" rest).
    change (String.length ", ") with 2 in Hf.
    rewrite IH; [by rewrite <-app_assoc| done | | lia].
    rewrite fmap_app, <-app_assoc. done.
Qed.

Lemma parse_value_dict_nonempty f tail :
  parse_value (S f) (String "{" (String quote tail)) =
  '(kvs, rest') ← parse_members f [] (String quote tail); Some (PyDict kvs, rest').
Proof. reflexivity. Qed.

Lemma reads_back_dict items :
  NoDup items.*1 →
  Forall (λ kv, reads_back kv.2) items → reads_back (PyDict items).
Proof.
  intros Hdup Hitems.
  destruct (collect_texts
              (λ kv : string * value,
                 match encode kv.2 with
                 | Raise e => Raise e
                 | Ret tx => Ret (encode_str kv.1 +:+ ": " +:+ tx)
                 end) member_is items) as (ts & Hc & Hts).
  { eapply Forall_impl; [done|]. intros kv (t & Ht). eexists. split.
    - destruct Ht as [-> _]. done.
    - by exists t. }
  exists ("{" +:+ join ", " ts +:+ "}"). split; [by cbn [encode]; rewrite Hc|].
  split; [exists "{"%char; eexists; split; [done|by do 5 right; left]|].
  intros f rest Hf Hrest. rewrite !length_app in Hf.
  change (String.length "{") with 1 in Hf.
  change (String.length "}") with 1 in Hf.
  destruct f as [|f]; [lia|].
  rewrite !app_assoc', app_cons, app_empty_l.
  destruct Hts as [|kv t items' ts' Ht Hts'].
  { reflexivity. }
  pose proof Ht as (tv & -> & _).
  assert (∃ tail', join ", " ((encode_str kv.1 +:+ ": " +:+ tv) :: ts') +:+ "}" +:+ rest
                   = String quote tail') as [tail' Hhead].
  { unfold encode_str.
    destruct ts'; [|rewrite join_cons2]; cbn [join];
      rewrite !app_assoc', app_cons; by eexists. }
  rewrite Hhead, parse_value_dict_nonempty, <-Hhead.
  rewrite (parse_members_join (kv :: items') (_ :: ts'));
    [done|by constructor|done|done|lia].
Qed.

(** Every JSON-compatible value has a text, and the text reads back as the
    value. *)
Lemma compatible_reads_back v : compatible v → reads_back v.
Proof.
  induction v as [| b | z | s | items IH | items IH | n] using value_induction.
  - intros _. apply reads_back_none.
  - intros _. apply reads_back_bool.
  - intros _. apply reads_back_int.
  - intros _. apply reads_back_str.
  - intros Hc%compatible_list. apply reads_back_list.
    induction IH as [|x l Hx _ IHl]; [done|].
    apply Forall_cons in Hc as [??]. constructor; auto.
  - intros [Hdup Hc]%compatible_dict. apply reads_back_dict; [done|].
    induction IH as [|x l Hx _ IHl]; [done|].
    apply Forall_cons in Hc as [??]. apply NoDup_cons in Hdup as [??].
    constructor; auto.
  - intros [].
Qed.

(** [json.loads(json.dumps(v))] is [v] for every JSON-compatible [v]. *)
Lemma loads_dumps v :
  compatible v →
  ∃ text, dumps v = Ret text ∧ text ≠ "" ∧ loads text = Ret v.
Proof.
  intros (text & Henc & (c & tail & Htext & _) & Hparse)%compatible_reads_back.
  exists text. split; [done|]. split; [by rewrite Htext|].
  cbn [loads json]. unfold decode.
  specialize (Hparse (S (String.length text)) "").
  rewrite app_empty_r in Hparse. rewrite Hparse; [done|lia|done].
Qed.

(** So the hypothesis of the in-memory backend's snapshot holds of every
    JSON-compatible value. *)
Lemma compatible_survives_copy v : compatible v → survives_copy v.
Proof. intros (text & ? & _ & ?)%loads_dumps. right. by exists text. Qed.

End codec_facts.

(** ** The claims about the base class *)

Section base_claims.
Context {V B : Type} `{!Backend V B}.
Implicit Types s : Storage.t B.

Lemma perform_flag (c : client_call V) s :
  Storage._in_transaction s = true →
  Storage._in_transaction (exec (perform c) s) = true.
Proof.
  intros Hs. destruct c; unfold perform.
  - unfold exec, mbind, M_bind, attempt. by rewrite begin_guard.
  - rewrite <-Hs, <-(sub_flag read s).
    unfold exec, mbind, M_bind, attempt, mret, M_ret.
    by destruct (Storage.sub read s).
  - rewrite <-Hs, <-(sub_flag (write data) s).
    unfold exec, mbind, M_bind, attempt, mret, M_ret.
    by destruct (Storage.sub (write data) s).
  - rewrite <-Hs, <-(sub_flag close s).
    unfold exec, mbind, M_bind, attempt, mret, M_ret.
    by destruct (Storage.sub close s).
Qed.

Lemma perform_all_flag (cs : list (client_call V)) s :
  Storage._in_transaction s = true →
  Storage._in_transaction (exec (perform_all cs) s) = true.
Proof.
  revert s. induction cs as [|c cs IH]; intros s Hs; [done|].
  pose proof (perform_flag c s Hs) as Hc.
  specialize (IH _ Hc). simpl.
  unfold exec, mbind, M_bind in *.
  destruct (perform c s) as [[[]|e] s1] eqn:Hp; simpl in *; [done|].
  destruct c; unfold perform, mbind, M_bind, attempt, mret, M_ret in Hp;
    repeat case_match; simplify_eq.
Qed.

(** C4. With a transaction open, [commit] and [rollback] return with the
    in-transaction flag cleared, whether the backend's commit or rollback
    logic returned or raised: the call ends the way the backend logic ended,
    and the instance is not in a transaction afterwards. *)
Theorem commit_rollback_clear_flag s :
  Storage._in_transaction s = true →
  (result Storage.commit s = result _commit_transaction (Storage.self s) ∧
   Storage._in_transaction (exec Storage.commit s) = false) ∧
  (result Storage.rollback s = result _rollback_transaction (Storage.self s) ∧
   Storage._in_transaction (exec Storage.rollback s) = false).
Proof.
  intros Hs. unfold result, exec.
  by rewrite commit_run, rollback_run.
Qed.

(** C5. With no transaction open, [commit] and [rollback] raise
    [RuntimeError("No transaction in progress")] and hand the instance back
    as it was: the flag, the attributes of the backend and what it stores
    are those from before the call, whatever the backend's commit and
    rollback logic would do. *)
Theorem commit_rollback_need_transaction s :
  Storage._in_transaction s = false →
  Storage.commit s = (Raise (RuntimeError "No transaction in progress"), s) ∧
  Storage.rollback s = (Raise (RuntimeError "No transaction in progress"), s).
Proof. intros Hs. by rewrite commit_guard, rollback_guard. Qed.

(** C6. With a transaction open, [begin] raises
    [RuntimeError("Transaction already in progress")] and hands the instance
    back as it was, the open transaction's flag, backup and lock included;
    in particular a [begin] that follows a [begin] that returned is
    refused. *)
Theorem begin_twice_rejected s :
  Storage._in_transaction s = true →
  Storage.begin s =
    (Raise (RuntimeError "Transaction already in progress"), s).
Proof. apply begin_guard. Qed.

(** C10. [begin] raises the flag before it runs the backend's start logic
    and does not lower it when that logic raises: the exception comes out
    of [begin], the instance stays marked in-transaction, and from then on
    [begin] is refused, whatever reads, writes, closes and further begins
    come in between, until [commit] or [rollback] clears the flag. *)
Theorem failed_begin_keeps_flag s e b' :
  Storage._in_transaction s = false →
  _begin_transaction (Storage.self s) = (Raise e, b') →
  Storage.begin s = (Raise e, Storage.mk true b') ∧
  (∀ cs : list (client_call V),
     result Storage.begin (exec (perform_all cs) (Storage.mk true b')) =
       Raise (RuntimeError "Transaction already in progress")) ∧
  Storage._in_transaction (exec Storage.commit (Storage.mk true b')) = false ∧
  Storage._in_transaction (exec Storage.rollback (Storage.mk true b')) = false.
Proof.
  intros Hs Hb. split_and!.
  - rewrite begin_run by done. by rewrite Hb.
  - intros cs. unfold result.
    by rewrite begin_guard by by apply perform_all_flag.
  - apply commit_flag.
  - apply rollback_flag.
Qed.

(** C3 (amended). The scoped transaction helper begins a transaction and runs
    the caller's block.  When the block returns and [commit] returns, the
    scope ends normally, committed.  When the block raises, [rollback] is
    called: if it returns, the exception of the block comes out of the scope
    as it was raised; if [rollback] raises in its turn, it is the exception
    of [rollback] that comes out. *)
Theorem transaction_scope_outcomes rt (block : M (Storage.t B) unit) s s1 :
  Storage.begin s = (Ret tt, s1) →
  (∀ s2 s3,
     block s1 = (Ret tt, s2) →
     Storage.commit s2 = (Ret tt, s3) →
     Scope.with_transaction rt block s = (Ret tt, s3)) ∧
  (∀ e s2 s3,
     block s1 = (Raise e, s2) →
     Storage.rollback s2 = (Ret tt, s3) →
     Scope.with_transaction rt block s = (Raise e, s3)) ∧
  (∀ e e' s2 s3,
     block s1 = (Raise e, s2) →
     Storage.rollback s2 = (Raise e', s3) →
     e ≠ StopIteration →
     Scope.with_transaction rt block s = (Raise (pep479 e'), s3)).
Proof.
  intros Hb. split_and!.
  - intros s2 s3. by apply with_transaction_commits.
  - intros e s2 s3. by apply with_transaction_rolls_back.
  - intros e e' s2 s3. by apply with_transaction_rollback_raises.
Qed.

(** C9 (amended). [__enter__] and [__exit__] each make a transaction scope
    of their own.  On an instance whose [begin] returns, [__enter__] begins a
    transaction.  Where the abandoned scope is not finalized, the transaction
    stays open, and a later [__exit__] with no exception runs [begin] through
    its new scope, which raises
    [RuntimeError("Transaction already in progress")] and leaves the
    transaction open.  Under reference counting the abandoned scope is
    closed as [__enter__] returns, which rolls the transaction back; a later
    [__exit__] with no exception then begins a second transaction and raises
    [RuntimeError("generator didn't stop")].  That exception keeps the new
    scope alive, suspended at its [yield]: the second transaction is open for
    as long as the exception is, and is rolled back when it is released. *)
Theorem enter_exit_scopes s s1 :
  Storage.begin s = (Ret tt, s1) →
  (Scope.__enter__ Deferred s = (Ret tt, s1) ∧
   Scope.__exit__ Deferred None s1 =
     (Raise (RuntimeError "Transaction already in progress"), s1)) ∧
  (Scope.__enter__ RefCounting s = (Ret tt, exec Storage.rollback s1) ∧
   ∀ s2,
     Storage.begin (exec Storage.rollback s1) = (Ret tt, s2) →
     Scope.__exit__ RefCounting None (exec Storage.rollback s1) =
       (Raise (RuntimeError "generator didn't stop"), s2) ∧
     Storage._in_transaction s2 = true ∧
     Scope.__exit__generator None (exec Storage.rollback s1) = GEN_SUSPENDED ∧
     Scope.release RefCounting GEN_SUSPENDED s2 = exec Storage.rollback s2).
Proof.
  intros Hb. destruct (begin_ok_flag _ _ Hb) as [_ Hs1]. split_and!.
  - by apply enter_deferred.
  - by apply exit_in_transaction.
  - by apply enter_refcounting.
  - intros s2 Hb2. destruct (begin_ok_flag _ _ Hb2) as [_ Hs2].
    destruct (exit_begins RefCounting _ s2 Hb2) as (He & Hg & Hr).
    by split_and!.
Qed.

End base_claims.

(** ** The claims about the backends *)

Section backend_claims.
Context {V : Type} `{!Json V}.

(** What the file holds once a run of writes, [rollback] and all have
    passed: the invariant of an open transaction on the file backend. *)
Lemma json_rollback_restores (m : access_mode) (p c0 : string) (b : JSONStorage.t) :
  preserving m = true →
  (∃ c, open_on c b ∧ backed_up c0 b ∧
        JSONStorage.path b = p ∧ JSONStorage._mode b = m) →
  result JSONStorage._rollback_transaction b = Ret tt ∧
  result JSONStorage.read (exec JSONStorage._rollback_transaction b) =
    read_outcome m c0.
Proof.
  intros Hm (c & Ho & Hb & <- & <-).
  destruct Ho as (Hcl & Hn & Hmo & Hd).
  destruct (json_rollback_ok b c c0 Hd Hb Hm)
    as (s3 & Hr & (Hcl3 & Hn3 & Hm3 & Hd3) & Hp3 & Hmode3 & _).
  unfold result at 1, exec. rewrite Hr. split; [done|]. simpl.
  rewrite (json_read_result s3 c0) by (by rewrite ?Hn3).
  by rewrite Hm3, Hmode3.
Qed.

(** C1 (amended). A transaction is begun, any run of writes follows, and the
    transaction is rolled back, by a call of [rollback] or by the scope
    whose block raised: what [read] returns afterwards is what it returned
    before [begin].  This holds for the in-memory backend when the snapshot
    in memory survives the copy through [json], and for the file backend
    when its access mode neither empties nor refuses the file on reopening
    it ([r], [r+], [a], [a+]). *)
Theorem rollback_restores_snapshot :
  (∀ (s : Storage.t (MemoryStorage.t V)) (ws : list V),
     Storage._in_transaction s = false →
     survives_copy (MemoryStorage.memory (Storage.self s)) →
     (result (Storage.begin;; writes ws;; Storage.rollback) s = Ret tt ∧
      result (Storage.sub read)
        (exec (Storage.begin;; writes ws;; Storage.rollback) s) =
      result (Storage.sub read) s) ∧
     (∀ rt e,
        result (Scope.with_transaction rt (writes ws;; raise e)) s = Raise e ∧
        result (Storage.sub read)
          (exec (Scope.with_transaction rt (writes ws;; raise e)) s) =
        result (Storage.sub read) s)) ∧
  (∀ (s : Storage.t JSONStorage.t) (c : string) (ws : list V),
     Storage._in_transaction s = false →
     ready c (Storage.self s) →
     preserving (JSONStorage._mode (Storage.self s)) = true →
     (result (Storage.begin;; writes ws;; Storage.rollback) s = Ret tt ∧
      result (Storage.sub read)
        (exec (Storage.begin;; writes ws;; Storage.rollback) s) =
      result (Storage.sub read) s) ∧
     (∀ rt e,
        result (Scope.with_transaction rt (writes ws;; raise e)) s = Raise e ∧
        result (Storage.sub read)
          (exec (Scope.with_transaction rt (writes ws;; raise e)) s) =
        result (Storage.sub read) s)).
Proof.
  split.
  - intros [f [m bk]] ws Hf Hcopy.
    cbn [Storage.self MemoryStorage.memory Storage._in_transaction] in *.
    assert (MemoryStorage._begin_transaction (MemoryStorage.mk m bk) =
            (Ret tt, MemoryStorage.mk m m)) as Hbegin.
    { unfold MemoryStorage._begin_transaction, MemoryStorage.set_backup.
      unfold_monad. cbn [MemoryStorage.memory].
      destruct Hcopy as [->|(text & Hd & Hl)].
      - by case_decide.
      - case_decide as Hn; [by rewrite Hn|]. by rewrite Hd, Hl. }
    assert (result (Storage.sub read) (Storage.mk f (MemoryStorage.mk m bk))
            = Ret m) as -> by done.
    apply (rollback_law (λ b, MemoryStorage._backup b = m) (Ret m)).
    + by intros data [m' bk'].
    + by intros [m' bk'] [= ->].
    + done.
    + change (result MemoryStorage._begin_transaction (MemoryStorage.mk m bk) = Ret tt).
      unfold result. by rewrite Hbegin.
    + change (MemoryStorage._backup
                (exec MemoryStorage._begin_transaction (MemoryStorage.mk m bk)) = m).
      unfold exec. by rewrite Hbegin.
  - intros s c ws Hf Hready Hm.
    destruct (json_begin_ok _ c Hready) as (s1 & Hbegin & Ho1 & Hb1 & Hp1 & Hm1).
    destruct Hready as ((Hcl & Hn & Hmo & Hd) & _).
    assert (result (Storage.sub read) s
            = read_outcome (JSONStorage._mode (Storage.self s)) c) as ->.
    { rewrite (sub_result read), <-Hmo.
      apply json_read_result; [done | by rewrite Hn]. }
    apply (rollback_law
             (λ b, ∃ c', open_on c' b ∧ backed_up c b ∧
                         JSONStorage.path b = JSONStorage.path (Storage.self s) ∧
                         JSONStorage._mode b = JSONStorage._mode (Storage.self s))).
    + intros data b (c' & Ho & Hb & Hp & Hmode).
      destruct (json_write_keeps data b c' c Ho Hb) as (c'' & ? & ? & Hp' & Hm').
      exists c''. change (write data) with (JSONStorage.write data).
      by rewrite Hp', Hm'.
    + intros b Hinv. by apply (json_rollback_restores _ (JSONStorage.path (Storage.self s))).
    + done.
    + change (result JSONStorage._begin_transaction (Storage.self s) = Ret tt).
      unfold result. by rewrite Hbegin.
    + change (exec _begin_transaction (Storage.self s))
        with (JSONStorage._begin_transaction (Storage.self s)).2.
      rewrite Hbegin. by exists c.
Qed.

(** C2 (amended). [write(S)] and then [read()], with no write in between,
    returns [S]: on the in-memory backend for every [S]; on the file backend,
    through an open handle that reads, writes and does not append ([r+],
    [w+]), for every [S] that [json] serializes to a text which it reads
    back as [S], however long the file was before. *)
Theorem write_then_read :
  (∀ (s : MemoryStorage.t V) (data : V),
     result (write data) s = Ret tt ∧
     result read (exec (write data) s) = Ret data) ∧
  (∀ (s : JSONStorage.t) (data : V) (text c : string),
     closed (JSONStorage._handle s) = false →
     JSONStorage.disk s !! name (JSONStorage._handle s) = Some (Regular c) →
     readable (mode (JSONStorage._handle s)) = true →
     writable (mode (JSONStorage._handle s)) = true →
     appending (mode (JSONStorage._handle s)) = false →
     dumps data = Ret text →
     text ≠ "" →
     loads text = Ret data →
     result (JSONStorage.write data) s = Ret tt ∧
     JSONStorage.disk (exec (JSONStorage.write data) s)
       !! name (JSONStorage._handle s) = Some (Regular text) ∧
     result JSONStorage.read (exec (JSONStorage.write data) s) = Ret data).
Proof.
  split; [done|].
  intros s data text c Hcl Hd Hr Hw Ha Hdumps Htext Hloads.
  unfold result at 1, exec. rewrite (json_write_ok data text s c) by done.
  cbn zeta. rewrite Ha.
  destruct s as [m p lf bp [n hm pos cl] d fl].
  cbn [fst snd JSONStorage.set_handle JSONStorage.set_disk JSONStorage.disk
       JSONStorage._handle name mode] in *.
  split; [done|]. split; [apply lookup_insert_eq|].
  rewrite (json_read_result _ text);
    cbn [JSONStorage.disk JSONStorage._handle JSONStorage.set_handle
         JSONStorage.set_disk name mode closed];
    [|done|apply lookup_insert_eq].
  unfold read_outcome. rewrite Hr. by case_decide.
Qed.

(** C7 (amended). For the file backend with its handle open: when the file
    is empty, [read] returns [None] and does not raise; when the file is not
    empty and the handle reads, [read] is the deserialization of the whole
    content from its start, so that malformed content raises the fault of
    the deserializer, and [None] comes back only if the content deserializes
    to [None]; through a handle that does not read, it raises
    [io.UnsupportedOperation]. *)
Theorem json_read_outcomes (s : JSONStorage.t) (c : string) :
  closed (JSONStorage._handle s) = false →
  JSONStorage.disk s !! name (JSONStorage._handle s) = Some (Regular c) →
  (c = "" → result JSONStorage.read s = Ret none) ∧
  (c ≠ "" → readable (mode (JSONStorage._handle s)) = true →
     result JSONStorage.read s = loads c) ∧
  (c ≠ "" → readable (mode (JSONStorage._handle s)) = false →
     result JSONStorage.read s = Raise (UnsupportedOperation "not readable")).
Proof.
  intros Hcl Hd. rewrite (json_read_result s c) by done. unfold read_outcome.
  split_and!.
  - intros ->. by case_decide.
  - intros Hc ->. by case_decide.
  - intros Hc ->. by case_decide.
Qed.

(** C8 (amended). For the file backend opened read-only, [write(S)] raises
    and writes nothing.  What it raises is the write-rejected error
    [IOError('Cannot write to the database. Access mode is "r"')] when
    [json.dumps] serializes [S]; when [json.dumps] refuses [S], which it is
    asked before the handle is written to, it is the exception of
    [json.dumps].  Either way the file system is as before, and so is the
    instance but for the position of its handle, which is at the start. *)
Theorem read_only_write_rejected (s : JSONStorage.t) (data : V) (c : string) :
  closed (JSONStorage._handle s) = false →
  JSONStorage.disk s !! name (JSONStorage._handle s) = Some (Regular c) →
  mode (JSONStorage._handle s) = JSONStorage._mode s →
  writable (JSONStorage._mode s) = false →
  mode_str (JSONStorage._mode s) = "r" ∧
  result (JSONStorage.write data) s =
    match dumps data with
    | Ret _ =>
        Raise (OSError ("Cannot write to the database. Access mode is "
                        +:+ String "034"%char "r" +:+ String "034"%char ""))
    | Raise e => Raise e
    end ∧
  exec (JSONStorage.write data) s =
    JSONStorage.set_handle (TextIO.set_offset 0 (JSONStorage._handle s)) s ∧
  JSONStorage.disk (exec (JSONStorage.write data) s) = JSONStorage.disk s.
Proof.
  intros Hcl Hd Hm Hw.
  assert (mode_str (JSONStorage._mode s) = "r") as Hstr.
  { destruct (JSONStorage._mode s) as [[] []]; by simplify_eq. }
  unfold result, exec.
  destruct (dumps data) as [text|e] eqn:Hdumps.
  - rewrite (json_write_rejected data text s c) by (by rewrite ?Hm).
    rewrite Hstr. by destruct s.
  - rewrite (json_write_unserializable data e s c) by done.
    by destruct s.
Qed.

End backend_claims.

(** ** The claims on instances *)

Import Scenario.

Ltac by_computing := vm_compute; first [reflexivity | discriminate | by intros ?].

(** C1, on instances: the scenario "write a, begin, write b, rollback, read"
    on the in-memory backend and on a file opened [r+]. *)
Lemma rollback_restores_snapshot_witness :
  result (Storage.sub read)
    (exec (Storage.begin;; writes [snapshot_b];; Storage.rollback)
       (memory_with snapshot_a)) = Ret snapshot_a ∧
  result (Storage.sub read)
    (exec (Storage.begin;; writes [snapshot_b];; Storage.rollback)
       (json_with mode_r_plus ∅ snapshot_a)) = Ret snapshot_a.
Proof.
  destruct (rollback_restores_snapshot (V:=PyJson.value)) as [Hmem Hjson].
  split.
  - destruct (Hmem (memory_with snapshot_a) [snapshot_b]) as [[_ H] _].
    + reflexivity.
    + right. exists (text_of snapshot_a). split; vm_compute; reflexivity.
    + rewrite H. vm_compute. reflexivity.
  - destruct (Hjson (json_with mode_r_plus ∅ snapshot_a) (text_of snapshot_a)
                [snapshot_b]) as [[_ H] _].
    + reflexivity.
    + repeat split; by_computing.
    + reflexivity.
    + rewrite H. vm_compute. reflexivity.
Defined.

(** C1 as stated fails on a file opened [w+]: [rollback] writes the backup
    back and then reopens the file in the mode of the instance, which empties
    it, so that [read] returns [None] where it returned the snapshot. *)
Lemma rollback_restores_snapshot_counterexample :
  result (Storage.sub read) (json_with mode_w_plus ∅ snapshot_a)
    = Ret snapshot_a ∧
  result (Storage.begin;; writes [snapshot_b];; Storage.rollback)
    (json_with mode_w_plus ∅ snapshot_a) = Ret tt ∧
  result (Storage.sub read)
    (exec (Storage.begin;; writes [snapshot_b];; Storage.rollback)
       (json_with mode_w_plus ∅ snapshot_a)) = Ret PyJson.PyNone.
Proof. repeat split; vm_compute; reflexivity. Qed.

(** C2, on instances: a file opened [r+] that held a longer text, and the
    in-memory backend. *)
Lemma write_then_read_witness :
  String.length (text_of snapshot_a) < String.length (text_of snapshot_ab) ∧
  JSONStorage.disk
    (exec (JSONStorage.write snapshot_a)
       (Storage.self (json_storage mode_r_plus (db_json (text_of snapshot_ab)))))
    !! "db.json" = Some (Regular (text_of snapshot_a)) ∧
  result JSONStorage.read
    (exec (JSONStorage.write snapshot_a)
       (Storage.self (json_storage mode_r_plus (db_json (text_of snapshot_ab)))))
    = Ret snapshot_a ∧
  result read
    (exec (write snapshot_a) (Storage.self (memory_with snapshot_ab)))
    = Ret snapshot_a.
Proof.
  destruct (write_then_read (V:=PyJson.value)) as [Hmem Hjson].
  split; [vm_compute; lia|].
  destruct (Hjson (Storage.self (json_storage mode_r_plus (db_json (text_of snapshot_ab))))
              snapshot_a (text_of snapshot_a) (text_of snapshot_ab))
    as (_ & H1 & H2); [by_computing..|].
  split; [exact H1|]. split; [exact H2|].
  apply Hmem.
Defined.

(** C2 as stated fails on a file opened [a+] that holds [{}]: the write
    returns, having appended, and [read] raises on the two texts in a row. *)
Lemma write_then_read_counterexample :
  result (Storage.sub (write snapshot_a)) (json_storage mode_a_plus (db_json "{}"))
    = Ret tt ∧
  result (Storage.sub read)
    (exec (Storage.sub (write snapshot_a)) (json_storage mode_a_plus (db_json "{}")))
    = Raise (JSONDecodeError "Extra data").
Proof. split; vm_compute; reflexivity. Qed.

(** C3, on instances: a block that writes and raises, and one that writes. *)
Lemma transaction_scope_outcomes_witness :
  Scope.with_transaction RefCounting
    (Storage.sub (write snapshot_b);; raise boom) (memory_with snapshot_a) =
  (Raise boom, memory_with snapshot_a) ∧
  Scope.with_transaction RefCounting
    (Storage.sub (write snapshot_b)) (memory_with snapshot_a) =
  (Ret tt, memory_with snapshot_b).
Proof.
  destruct (transaction_scope_outcomes (V:=PyJson.value) RefCounting
              (Storage.sub (write snapshot_b);; raise boom)
              (memory_with snapshot_a)
              (exec Storage.begin (memory_with snapshot_a)))
    as (_ & Hraise & _); [vm_compute; reflexivity|].
  destruct (transaction_scope_outcomes (V:=PyJson.value) RefCounting
              (Storage.sub (write snapshot_b))
              (memory_with snapshot_a)
              (exec Storage.begin (memory_with snapshot_a)))
    as (Hcommit & _ & _); [vm_compute; reflexivity|].
  split.
  - apply (Hraise boom (exec (Storage.begin;; Storage.sub (write snapshot_b))
                          (memory_with snapshot_a))); vm_compute; reflexivity.
  - apply (Hcommit (exec (Storage.begin;; Storage.sub (write snapshot_b))
                          (memory_with snapshot_a))); vm_compute; reflexivity.
Defined.

(** C3 as stated fails for a block that commits the transaction itself and
    then raises [ValueError]: [rollback] finds no transaction, and its
    [RuntimeError] comes out in place of the [ValueError]. *)
Lemma transaction_scope_outcomes_counterexample :
  result (Storage.begin;; Storage.commit;; raise boom) (memory_with snapshot_a)
    = Raise (A:=unit) boom ∧
  result (Scope.with_transaction RefCounting (Storage.commit;; raise boom))
    (memory_with snapshot_a)
    = Raise (RuntimeError "No transaction in progress").
Proof. split; vm_compute; reflexivity. Qed.

(** C4, on an instance whose rollback logic raises: [begin] was stopped by
    a directory in the place of the lock file, so there is neither backup
    nor lock file when [rollback] runs. *)
Lemma commit_rollback_clear_flag_witness :
  result Storage.rollback
    (exec (attempt Storage.begin) (json_storage mode_r_plus lock_is_directory))
    = Raise (AttributeError "'NoneType' object has no attribute 'fileno'") ∧
  Storage._in_transaction
    (exec Storage.rollback
       (exec (attempt Storage.begin) (json_storage mode_r_plus lock_is_directory)))
    = false.
Proof.
  destruct (commit_rollback_clear_flag (V:=PyJson.value)
              (exec (attempt Storage.begin)
                 (json_storage mode_r_plus lock_is_directory)))
    as [_ [Hr Hf]]; [vm_compute; reflexivity|].
  split; [|exact Hf].
  rewrite Hr. vm_compute. reflexivity.
Defined.

(** C5, on a file-backed instance that holds a snapshot. *)
Lemma commit_rollback_need_transaction_witness :
  Storage.commit (json_with mode_r_plus ∅ snapshot_a) =
    (Raise (RuntimeError "No transaction in progress"),
     json_with mode_r_plus ∅ snapshot_a) ∧
  Storage.rollback (json_with mode_r_plus ∅ snapshot_a) =
    (Raise (RuntimeError "No transaction in progress"),
     json_with mode_r_plus ∅ snapshot_a).
Proof.
  apply (commit_rollback_need_transaction (V:=PyJson.value)). vm_compute. reflexivity.
Defined.

(** C6, on a file-backed instance after a [begin] that returned. *)
Lemma begin_twice_rejected_witness :
  Storage.begin (exec Storage.begin (json_with mode_r_plus ∅ snapshot_a)) =
    (Raise (RuntimeError "Transaction already in progress"),
     exec Storage.begin (json_with mode_r_plus ∅ snapshot_a)).
Proof.
  apply (begin_twice_rejected (V:=PyJson.value)). vm_compute. reflexivity.
Defined.

(** C7, on instances: a new file, a file that holds a snapshot, and a file
    that holds a text which is no JSON. *)
Lemma json_read_outcomes_witness :
  result JSONStorage.read (Storage.self (json_storage mode_r_plus ∅))
    = Ret PyJson.PyNone ∧
  result JSONStorage.read
    (Storage.self (json_storage mode_r_plus (db_json (text_of snapshot_a))))
    = Ret snapshot_a ∧
  result JSONStorage.read (Storage.self (json_storage mode_r_plus (db_json "{")))
    = Raise (JSONDecodeError "Expecting value").
Proof.
  split; [|split].
  - destruct (json_read_outcomes (V:=PyJson.value)
                (Storage.self (json_storage mode_r_plus ∅)) "")
      as (H & _ & _); [by_computing..|].
    by apply H.
  - destruct (json_read_outcomes (V:=PyJson.value)
                (Storage.self (json_storage mode_r_plus (db_json (text_of snapshot_a))))
                (text_of snapshot_a)) as (_ & H & _); [by_computing..|].
    rewrite H; by_computing.
  - destruct (json_read_outcomes (V:=PyJson.value)
                (Storage.self (json_storage mode_r_plus (db_json "{")))
                "{") as (_ & H & _); [by_computing..|].
    rewrite H; by_computing.
Defined.

(** C7 as stated fails on a file that holds [null]: the file is not empty
    and [read] returns [None]; and on a file opened [w] and written to,
    which [read] can neither call empty nor deserialize. *)
Lemma json_read_outcomes_counterexample :
  JSONStorage.disk (Storage.self (json_storage mode_r_plus (db_json "null")))
    !! "db.json" = Some (Regular "null") ∧
  result JSONStorage.read (Storage.self (json_storage mode_r_plus (db_json "null")))
    = Ret PyJson.PyNone ∧
  result JSONStorage.read (Storage.self (json_with mode_w ∅ snapshot_a))
    = Raise (UnsupportedOperation "not readable").
Proof. repeat split; vm_compute; reflexivity. Qed.

(** C8, on a file opened [r] that holds a snapshot: the write of another
    snapshot, and the write of a [set]. *)
Lemma read_only_write_rejected_witness :
  result (JSONStorage.write snapshot_b)
    (Storage.self (json_storage mode_r (db_json (text_of snapshot_a))))
  = Raise (OSError ("Cannot write to the database. Access mode is "
                    +:+ String "034"%char "r" +:+ String "034"%char "")) ∧
  JSONStorage.disk
    (exec (JSONStorage.write snapshot_b)
       (Storage.self (json_storage mode_r (db_json (text_of snapshot_a)))))
  = db_json (text_of snapshot_a) ∧
  JSONStorage.disk
    (exec (JSONStorage.write a_set)
       (Storage.self (json_storage mode_r (db_json (text_of snapshot_a)))))
  = db_json (text_of snapshot_a).
Proof.
  destruct (read_only_write_rejected (V:=PyJson.value)
              (Storage.self (json_storage mode_r (db_json (text_of snapshot_a))))
              snapshot_b (text_of snapshot_a))
    as (_ & H1 & _ & H2); [by_computing..|].
  destruct (read_only_write_rejected (V:=PyJson.value)
              (Storage.self (json_storage mode_r (db_json (text_of snapshot_a))))
              a_set (text_of snapshot_a))
    as (_ & _ & _ & H3); [by_computing..|].
  split; [rewrite H1; vm_compute; reflexivity|].
  split; [rewrite H2 | rewrite H3]; vm_compute; reflexivity.
Defined.

(** C8 as stated fails for a snapshot that [json.dumps] refuses: on a file
    opened [r], the write of a [set] raises the [TypeError] of the
    serializer, not the write-rejected error. *)
Lemma read_only_write_rejected_counterexample :
  writable
    (mode (JSONStorage._handle
             (Storage.self (json_storage mode_r (db_json (text_of snapshot_a))))))
    = false ∧
  result (JSONStorage.write a_set)
    (Storage.self (json_storage mode_r (db_json (text_of snapshot_a))))
  = Raise (TypeError "Object of type set is not JSON serializable").
Proof. split; vm_compute; reflexivity. Qed.

(** C9, on the in-memory backend, under both run times. *)
Lemma enter_exit_scopes_witness :
  Scope.__enter__ Deferred (memory_with snapshot_a) =
    (Ret tt, exec Storage.begin (memory_with snapshot_a)) ∧
  Scope.__exit__ Deferred None (exec Storage.begin (memory_with snapshot_a)) =
    (Raise (RuntimeError "Transaction already in progress"),
     exec Storage.begin (memory_with snapshot_a)) ∧
  Scope.__enter__ RefCounting (memory_with snapshot_a) =
    (Ret tt, memory_with snapshot_a) ∧
  Scope.__exit__ RefCounting None (memory_with snapshot_a) =
    (Raise (RuntimeError "generator didn't stop"),
     exec Storage.begin (memory_with snapshot_a)) ∧
  Scope.release RefCounting GEN_SUSPENDED
    (exec Storage.begin (memory_with snapshot_a)) = memory_with snapshot_a.
Proof.
  destruct (enter_exit_scopes (V:=PyJson.value) (memory_with snapshot_a)
              (exec Storage.begin (memory_with snapshot_a)))
    as [[H1 H2] [H3 H4]]; [vm_compute; reflexivity|].
  assert (exec Storage.rollback (exec Storage.begin (memory_with snapshot_a))
          = memory_with snapshot_a) as E by (vm_compute; reflexivity).
  rewrite E in H3, H4.
  destruct (H4 (exec Storage.begin (memory_with snapshot_a)))
    as (H5 & _ & _ & H6); [vm_compute; reflexivity|].
  split; [exact H1|]. split; [exact H2|]. split; [exact H3|].
  split; [exact H5|]. by rewrite H6, E.
Defined.

(** C9 as stated fails under reference counting: no transaction is open
    once [__enter__] has returned, and [__exit__] raises
    [RuntimeError("generator didn't stop")], not the transaction-state
    error. *)
Lemma enter_exit_scopes_counterexample :
  Storage._in_transaction
    (exec (Scope.__enter__ RefCounting) (memory_with snapshot_a)) = false ∧
  result (Scope.__enter__ RefCounting;; Scope.__exit__ RefCounting None)
    (memory_with snapshot_a)
    = Raise (RuntimeError "generator didn't stop").
Proof. split; vm_compute; reflexivity. Qed.

(** C10, on instances: the in-memory backend holding a [set], and the file
    backend with a directory in the place of its lock file. *)
Lemma failed_begin_keeps_flag_witness :
  Storage.begin (memory_with a_set) =
    (Raise (TypeError "Object of type set is not JSON serializable"),
     Storage.mk true (Storage.self (memory_with a_set))) ∧
  Storage.begin (json_storage mode_r_plus lock_is_directory) =
    (Raise (IsADirectoryError "db.json.lock"),
     Storage.mk true
       (Storage.self (exec Storage.begin
                        (json_storage mode_r_plus lock_is_directory)))) ∧
  result Storage.begin
    (exec (perform_all [CallRead; CallBegin; CallWrite snapshot_a])
       (Storage.mk true
          (Storage.self (exec Storage.begin
                           (json_storage mode_r_plus lock_is_directory)))))
    = Raise (RuntimeError "Transaction already in progress").
Proof.
  destruct (failed_begin_keeps_flag (V:=PyJson.value) (memory_with a_set)
              (TypeError "Object of type set is not JSON serializable")
              (Storage.self (memory_with a_set)))
    as (Hm & _); [vm_compute; reflexivity..|].
  destruct (failed_begin_keeps_flag (V:=PyJson.value)
              (json_storage mode_r_plus lock_is_directory)
              (IsADirectoryError "db.json.lock")
              (Storage.self (exec Storage.begin
                               (json_storage mode_r_plus lock_is_directory))))
    as (Hj & Hcs & _); [vm_compute; reflexivity..|].
  split; [exact Hm|]. split; [exact Hj|]. apply Hcs.
Defined.

(** * More of the module *)

(** ** The scopes *)

Section base_extras.
Context {V B : Type} `{!Backend V B}.
Implicit Types s : Storage.t B.

(** X1. [__exit__] called with an exception makes a new scope and throws the
    exception into its generator, which has not started: the exception comes
    straight back, [__exit__] returns [False], and neither [begin] nor
    [commit] nor [rollback] has run. *)
Theorem exit_with_exception_changes_nothing rt e s :
  e ≠ StopIteration →
  Scope.__exit__ rt (Some e) s = (Ret false, s).
Proof. intros _. apply exit_some. Qed.

(** X2. [with storage: block] rolls nothing back: when the block raises,
    its exception, whichever it is, comes out of the statement and the
    instance is as the block left it.  Nor does the statement end normally
    when the block returns and [begin] is accepted once more: [__exit__]
    begins a transaction of its own and raises
    [RuntimeError("generator didn't stop")]; that transaction is open for as
    long as the exception is alive, which keeps the scope of [__exit__], and
    under reference counting it is rolled back when the exception is
    released. *)
Theorem with_storage_outcomes rt block s s1 :
  Scope.__enter__ rt s = (Ret tt, s1) →
  (∀ e s2,
     block s1 = (Raise e, s2) →
     with_storage rt block s = (Raise e, s2)) ∧
  (∀ s2 s3,
     block s1 = (Ret tt, s2) →
     Storage.begin s2 = (Ret tt, s3) →
     with_storage rt block s =
       (Raise (RuntimeError "generator didn't stop"), s3) ∧
     Storage._in_transaction s3 = true ∧
     Scope.__exit__generator None s2 = GEN_SUSPENDED ∧
     Scope.release RefCounting GEN_SUSPENDED s3 = exec Storage.rollback s3).
Proof.
  intros Henter. split.
  - intros e s2 Hblock. unfold with_storage.
    unfold mbind at 1, M_bind at 1. rewrite Henter.
    unfold mbind at 1, M_bind at 1, attempt. rewrite Hblock.
    unfold mbind, M_bind. by rewrite exit_some.
  - intros s2 s3 Hblock Hbegin.
    destruct (begin_ok_flag _ _ Hbegin) as [_ Hs3].
    destruct (exit_begins rt s2 s3 Hbegin) as (He & Hg & Hr).
    split_and!; try done. unfold with_storage.
    unfold mbind at 1, M_bind at 1. rewrite Henter.
    unfold mbind at 1, M_bind at 1, attempt. rewrite Hblock.
    unfold mbind, M_bind. by rewrite He.
Qed.

(** X3. In the transaction scope an exception of [commit] does not come out:
    [commit] has cleared the flag when the bare [except] calls [rollback],
    which therefore raises [RuntimeError("No transaction in progress")]
    without running the backend's rollback logic, and that error replaces
    the one of [commit]. *)
Theorem scope_commit_failure_masked rt block s s1 s2 s3 e :
  Storage.begin s = (Ret tt, s1) →
  block s1 = (Ret tt, s2) →
  Storage.commit s2 = (Raise e, s3) →
  Scope.with_transaction rt block s =
    (Raise (RuntimeError "No transaction in progress"), s3).
Proof.
  intros Hb Hk Hc.
  assert (Storage._in_transaction s3 = false) as Hs3.
  { pose proof (commit_flag s2) as Hf. unfold exec in Hf. by rewrite Hc in Hf. }
  unfold_scope. rewrite Hb, Hk, Hc, (rollback_guard s3 Hs3).
  by destruct rt.
Qed.

(** X4. A transaction scope entered while a transaction is open raises
    [RuntimeError("Transaction already in progress")]: its [begin] stands
    before the [try], so the block does not run and the open transaction is
    not rolled back. *)
Theorem nested_scope_refused rt block s :
  Storage._in_transaction s = true →
  Scope.with_transaction rt block s =
    (Raise (RuntimeError "Transaction already in progress"), s).
Proof.
  intros Hs. unfold_scope. rewrite (begin_guard s Hs). by destruct rt.
Qed.

End base_extras.

(** ** The in-memory backend *)

Section memory_extras.
Context {V : Type} `{!Json V}.
Implicit Types s : Storage.t (MemoryStorage.t V).

(** A run of writes on the in-memory backend leaves the last value written
    in [memory], and the flag and the backup as they were. *)
Lemma memory_writes ws f m bk :
  writes ws (Storage.mk f (MemoryStorage.mk m bk)) =
    (Ret tt, Storage.mk f (MemoryStorage.mk (default m (last ws)) bk)).
Proof.
  revert m. induction ws as [|w ws IH]; intros m; [done|].
  cbn [writes]. unfold mbind at 1, M_bind at 1, attempt.
  change (Storage.sub (write w) (Storage.mk f (MemoryStorage.mk m bk)))
    with (Ret tt, Storage.mk f (MemoryStorage.mk w bk)).
  cbv beta iota. rewrite IH, last_cons. by destruct (last ws).
Qed.

Lemma memory_begin_state s s1 :
  Storage.begin s = (Ret tt, s1) →
  Storage._in_transaction s = false ∧
  ∃ bk, s1 = Storage.mk true
               (MemoryStorage.mk (MemoryStorage.memory (Storage.self s)) bk).
Proof.
  intros Hb. destruct (begin_ok_flag _ _ Hb) as [Hs _]. split; [done|].
  rewrite begin_run in Hb by done. destruct s as [f [m bk]].
  cbn [Storage.self MemoryStorage.memory] in *.
  change (_begin_transaction (MemoryStorage.mk m bk))
    with (MemoryStorage._begin_transaction (MemoryStorage.mk m bk)) in Hb.
  unfold MemoryStorage._begin_transaction, MemoryStorage.set_backup in Hb.
  unfold_monad. cbn [MemoryStorage.memory] in Hb.
  case_decide; [simplify_eq; by eexists|].
  destruct (dumps m) as [text|]; [|done].
  destruct (loads text) as [copy|]; [|done].
  simplify_eq. by eexists.
Qed.

(** X5. On the in-memory backend a committed transaction keeps its writes:
    after [begin], a run of writes and [commit], called one by one or by the
    transaction scope, [memory] is the last value written (the value from
    before, if nothing was written), no backup is kept and no transaction is
    open. *)
Theorem memory_commit_keeps_writes s s1 ws :
  Storage.begin s = (Ret tt, s1) →
  let kept :=
    Storage.mk false
      (MemoryStorage.mk (default (MemoryStorage.memory (Storage.self s)) (last ws))
                        none) in
  (Storage.begin;; writes ws;; Storage.commit) s = (Ret tt, kept) ∧
  ∀ rt, Scope.with_transaction rt (writes ws) s = (Ret tt, kept).
Proof.
  intros Hb kept.
  destruct (memory_begin_state s s1 Hb) as [Hs [bk ->]].
  assert (Storage.commit
            (Storage.mk true
               (MemoryStorage.mk
                  (default (MemoryStorage.memory (Storage.self s)) (last ws)) bk))
          = (Ret tt, kept)) as Hc by done.
  split.
  - unfold mbind at 1, M_bind at 1. rewrite Hb.
    unfold mbind, M_bind. by rewrite memory_writes, Hc.
  - intros rt. eapply with_transaction_commits; [done| |done].
    apply memory_writes.
Qed.

(** X6. On the in-memory backend [rollback] hands back the copy that
    [begin] made through [json]: when [memory] is not [None] and
    [json.loads(json.dumps(memory))] is [copy], then after [begin], any run
    of writes and [rollback] (called, or run by the scope whose block raised)
    [memory] is [copy], whether or not it equals what [memory] was. *)
Theorem memory_rollback_returns_copy s ws text copy :
  Storage._in_transaction s = false →
  MemoryStorage.memory (Storage.self s) ≠ none →
  dumps (MemoryStorage.memory (Storage.self s)) = Ret text →
  loads text = Ret copy →
  let restored := Storage.mk false (MemoryStorage.mk copy none) in
  (Storage.begin;; writes ws;; Storage.rollback) s = (Ret tt, restored) ∧
  ∀ rt e,
    Scope.with_transaction rt (writes ws;; raise e) s = (Raise e, restored).
Proof.
  intros Hs Hm Hd Hl restored. destruct s as [f [m bk]].
  cbn [Storage.self MemoryStorage.memory Storage._in_transaction] in *. subst f.
  assert (Storage.begin (Storage.mk false (MemoryStorage.mk m bk)) =
          (Ret tt, Storage.mk true (MemoryStorage.mk m copy))) as Hb.
  { rewrite begin_run by done. cbn [Storage.self].
    change (_begin_transaction (MemoryStorage.mk m bk))
      with (MemoryStorage._begin_transaction (MemoryStorage.mk m bk)).
    unfold MemoryStorage._begin_transaction, MemoryStorage.set_backup.
    unfold_monad. cbn [MemoryStorage.memory].
    case_decide; [done|]. by rewrite Hd, Hl. }
  assert (Storage.rollback
            (Storage.mk true (MemoryStorage.mk (default m (last ws)) copy))
          = (Ret tt, restored)) as Hr by done.
  split.
  - unfold mbind at 1, M_bind at 1. rewrite Hb.
    unfold mbind, M_bind. by rewrite memory_writes, Hr.
  - intros rt e. eapply with_transaction_rolls_back; [done| |done].
    unfold mbind, M_bind. by rewrite memory_writes.
Qed.

(** X21. On the in-memory backend a [begin] that fails costs the data if it
    is answered with [rollback].  When [json.dumps] refuses what is in
    [memory], [begin] raises and has made no backup; [rollback], which the
    flag left set allows, then puts the old value of [_backup] into
    [memory] ([None], on an instance no transaction is open on), while
    [commit] leaves [memory] alone. *)
Theorem memory_failed_begin_rollback s e :
  Storage._in_transaction s = false →
  MemoryStorage.memory (Storage.self s) ≠ none →
  dumps (MemoryStorage.memory (Storage.self s)) = Raise e →
  Storage.begin s = (Raise e, Storage.mk true (Storage.self s)) ∧
  Storage.rollback (Storage.mk true (Storage.self s)) =
    (Ret tt,
     Storage.mk false
       (MemoryStorage.mk (MemoryStorage._backup (Storage.self s)) none)) ∧
  Storage.commit (Storage.mk true (Storage.self s)) =
    (Ret tt,
     Storage.mk false
       (MemoryStorage.mk (MemoryStorage.memory (Storage.self s)) none)).
Proof.
  intros Hs Hm Hd. destruct s as [f [m bk]].
  cbn [Storage.self MemoryStorage.memory MemoryStorage._backup
       Storage._in_transaction] in *. subst f.
  split; [|done].
  rewrite begin_run by done. cbn [Storage.self].
  change (_begin_transaction (MemoryStorage.mk m bk))
    with (MemoryStorage._begin_transaction (MemoryStorage.mk m bk)).
  unfold MemoryStorage._begin_transaction, MemoryStorage.set_backup.
  unfold_monad. cbn [MemoryStorage.memory].
  case_decide; [done|]. by rewrite Hd.
Qed.

End memory_extras.

(** ** The file backend, beyond reading and writing *)

Ltac unfold_state :=
  unfold in_transaction, ready, open_on, backed_up in *;
  cbn [JSONStorage.disk JSONStorage.path JSONStorage._backup_path
       JSONStorage._lock_file JSONStorage._mode JSONStorage._handle
       JSONStorage.flock name mode closed offset from_option] in *.

Section json_extras.
Context {V : Type} `{!Json V}.
Implicit Types s : JSONStorage.t.

Lemma json_begin_run s c :
  ready c s →
  ∃ s1, JSONStorage._begin_transaction s = (Ret tt, s1) ∧
        in_transaction c c s1 ∧
        JSONStorage.path s1 = JSONStorage.path s ∧
        JSONStorage._mode s1 = JSONStorage._mode s ∧
        JSONStorage._handle s1 = JSONStorage._handle s ∧
        (∀ q, q ≠ JSONStorage.path s +:+ ".backup" →
              q ≠ JSONStorage.path s +:+ ".lock" →
              JSONStorage.disk s1 !! q = JSONStorage.disk s !! q).
Proof.
  destruct s as [m p lf bp [n hm pos cl] d fl]. unfold_state.
  intros ((-> & -> & -> & Hd) & Hlock & Hbackup & Hlf).
  pose proof (backup_neq_path p) as Hbp.
  pose proof (lock_neq_path p) as Hlp.
  pose proof (lock_neq_backup p) as Hlb.
  destruct lf as [f|]; cbn [from_option] in Hlf.
  - json_run. rewrite Hlf. json_run.
    destruct (d !! (p +:+ ".backup")) as [[|]|] eqn:Hb; [|done|]; json_run;
      rewrite drop_zero, pwrite_empty, insert_insert_eq;
      (eexists; split; [reflexivity|]); unfold_state; json_run;
      (split_and!; try done; [by eexists|]);
      intros q ? ?; by rewrite lookup_insert_ne.
  - json_run.
    destruct (d !! (p +:+ ".lock")) as [[|]|] eqn:Hl; [|done|]; json_run;
    (destruct (d !! (p +:+ ".backup")) as [[|]|] eqn:Hb; [|done|]); json_run;
      rewrite drop_zero, pwrite_empty, insert_insert_eq;
      (eexists; split; [reflexivity|]); unfold_state; json_run;
      (split_and!; try done; [by eexists|]);
      intros q ? ?; by rewrite !lookup_insert_ne.
Qed.

Lemma json_write_keeps_tx data s c c0 :
  in_transaction c c0 s →
  ∃ c', in_transaction c' c0 (exec (JSONStorage.write data) s) ∧
        JSONStorage.path (exec (JSONStorage.write data) s) = JSONStorage.path s ∧
        JSONStorage._mode (exec (JSONStorage.write data) s) = JSONStorage._mode s.
Proof.
  intros ((Hcl & Hn & Hm & Hd) & (Hbp & Hb & f & Hlf & Hf) & Hlock & Hfl).
  pose proof (backup_neq_path (JSONStorage.path s)) as Hne.
  pose proof (lock_neq_path (JSONStorage.path s)) as Hlp.
  rewrite <-Hn in Hd.
  destruct (dumps data) as [text|e] eqn:Hdumps.
  - destruct (writable (mode (JSONStorage._handle s))) eqn:Hw.
    + unfold exec. rewrite (json_write_ok data text s c) by done.
      destruct s as [m p lf bp [n hm pos cl] d fl].
      unfold_state. tx_run. simplify_eq.
      eexists. tx_run. split_and!; try done. by eexists.
    + unfold exec. rewrite (json_write_rejected data text s c) by done.
      destruct s as [m p lf bp [n hm pos cl] d fl].
      unfold_state. tx_run. simplify_eq.
      eexists. tx_run. split_and!; try done. by eexists.
  - unfold exec. rewrite (json_write_unserializable data e s c) by done.
    destruct s as [m p lf bp [n hm pos cl] d fl].
    unfold_state. tx_run. simplify_eq.
    eexists. tx_run. split_and!; try done. by eexists.
Qed.

(** [_commit_transaction] inside a transaction: the backup file is removed
    and the lock released; nothing else changes. *)
Lemma json_commit_run s c c0 :
  in_transaction c c0 s →
  JSONStorage._commit_transaction s =
    (Ret tt,
     JSONStorage.set_flock false
       (JSONStorage.set_disk
          (delete (JSONStorage.path s +:+ ".backup") (JSONStorage.disk s)) s)).
Proof.
  destruct s as [m p lf bp [n hm pos cl] d fl]. unfold_state.
  intros ((-> & -> & -> & Hd) & (-> & Hb & f & -> & Hf) & Hlock & ->).
  tx_run. rewrite Hf. by tx_run.
Qed.

Lemma json_commit_ready s c c0 :
  in_transaction c c0 s →
  ready c (exec JSONStorage._commit_transaction s).
Proof.
  intros Htx. unfold exec. rewrite (json_commit_run s c c0 Htx).
  pose proof (backup_neq_path (JSONStorage.path s)) as Hbp.
  pose proof (lock_neq_backup (JSONStorage.path s)) as Hlb.
  destruct s as [m p lf bp [n hm pos cl] d fl]. unfold_state.
  destruct Htx as ((-> & -> & -> & Hd) & (-> & Hb & f & -> & Hf) & Hlock & ->).
  tx_run. unfold_state. rewrite lookup_delete_eq. by tx_run.
Qed.

(** A transaction on the file backend up to its end: [begin] and a run of
    writes return and leave the instance inside the transaction. *)
Lemma json_tx_writes (s : Storage.t JSONStorage.t) c ws :
  Storage._in_transaction s = false →
  ready c (Storage.self s) →
  ∃ (s1 s2 : Storage.t JSONStorage.t) (c' : string),
    Storage.begin s = (Ret tt, s1) ∧
    writes ws s1 = (Ret tt, s2) ∧
    Storage._in_transaction s2 = true ∧
    in_transaction c' c (Storage.self s2) ∧
    JSONStorage.path (Storage.self s2) = JSONStorage.path (Storage.self s) ∧
    JSONStorage._mode (Storage.self s2) = JSONStorage._mode (Storage.self s).
Proof.
  intros Hs Hready.
  destruct (json_begin_run _ c Hready) as (b1 & Hb & Htx & Hp & Hm & _).
  set (s1 := Storage.mk true b1).
  assert (Storage.begin s = (Ret tt, s1)) as Hbegin.
  { rewrite begin_run by done.
    change (_begin_transaction (Storage.self s))
      with (JSONStorage._begin_transaction (Storage.self s)).
    by rewrite Hb. }
  destruct (writes_keep
              (λ b, ∃ c', in_transaction c' c b ∧
                          JSONStorage.path b = JSONStorage.path (Storage.self s) ∧
                          JSONStorage._mode b = JSONStorage._mode (Storage.self s))
              ) with (ws := ws) (s := s1) as (Hr & Hf & c' & Htx2 & Hp2 & Hm2).
  - intros data b (c' & Hb' & Hp' & Hm').
    destruct (json_write_keeps_tx data b c' c Hb') as (c'' & ? & Hp'' & Hm'').
    exists c''. change (write data) with (JSONStorage.write data).
    by rewrite Hp'', Hm''.
  - done.
  - by exists c.
  - exists s1, (exec (writes ws) s1), c'. split_and!; try done.
    by rewrite (run_eq (writes ws) s1), Hr.
Qed.

(** X7. On the file backend a committed transaction keeps its writes.
    After [begin], a run of writes and [commit], the file holds what the
    writes left in it and [read] returns what it returned inside the
    transaction; the backup file is gone, the lock is released, no
    transaction is open, and the instance is ready for the next one.  The
    transaction scope around the writes does the same. *)
Theorem json_commit_keeps_writes (s : Storage.t JSONStorage.t) c ws :
  Storage._in_transaction s = false →
  ready c (Storage.self s) →
  let p := JSONStorage.path (Storage.self s) in
  let inside := exec (Storage.begin;; writes ws) s in
  let after := exec (Storage.begin;; writes ws;; Storage.commit) s in
  result (Storage.begin;; writes ws;; Storage.commit) s = Ret tt ∧
  Storage._in_transaction after = false ∧
  JSONStorage.disk (Storage.self after) !! p =
    JSONStorage.disk (Storage.self inside) !! p ∧
  result (Storage.sub read) after = result (Storage.sub read) inside ∧
  JSONStorage.disk (Storage.self after) !! (p +:+ ".backup") = None ∧
  JSONStorage.flock (Storage.self after) = false ∧
  (∃ c', ready c' (Storage.self after)) ∧
  ∀ rt, Scope.with_transaction rt (writes ws) s =
        (Storage.begin;; writes ws;; Storage.commit) s.
Proof.
  intros Hs Hready p inside after.
  destruct (json_tx_writes s c ws Hs Hready)
    as (s1 & s2 & c' & Hb & Hw & Hf & Htx & Hp & Hm).
  pose proof (json_commit_run _ c' c Htx) as Hc.
  assert (Storage.commit s2 =
          (Ret tt, Storage.mk false (exec JSONStorage._commit_transaction
                                       (Storage.self s2)))) as Hcommit.
  { rewrite commit_run by done.
    change (_commit_transaction (Storage.self s2))
      with (JSONStorage._commit_transaction (Storage.self s2)).
    unfold exec. by rewrite Hc. }
  assert ((Storage.begin;; writes ws) s = (Ret tt, s2)) as Hinside.
  { unfold mbind, M_bind. by rewrite Hb, Hw. }
  assert ((Storage.begin;; writes ws;; Storage.commit) s =
          (Ret tt, Storage.mk false (exec JSONStorage._commit_transaction
                                       (Storage.self s2)))) as Hafter.
  { unfold mbind, M_bind. by rewrite Hb, Hw, Hcommit. }
  subst p inside after. pose proof Hafter as Hrun.
  rewrite (run_eq (Storage.begin;; writes ws;; Storage.commit) s) in Hafter.
  rewrite (run_eq (Storage.begin;; writes ws) s) in Hinside.
  injection Hafter as Hres Hexec. injection Hinside as _ Hexec'.
  rewrite Hrun, Hres, Hexec, Hexec'.
  cbn [Storage.self Storage._in_transaction].
  pose proof (json_commit_ready _ c' c Htx) as Hready'.
  destruct Htx as ((Hcl & Hn & Hmo & Hd) & _).
  pose proof Hready' as ((Hcl' & Hn' & Hmo' & Hd') & _).
  assert (JSONStorage.path (exec JSONStorage._commit_transaction (Storage.self s2))
          = JSONStorage.path (Storage.self s)) as Hp'.
  { unfold exec. rewrite Hc, <-Hp. by destruct (Storage.self s2). }
  split_and!; try done.
  - rewrite Hp' in Hd'. rewrite Hp in Hd. by rewrite Hd, Hd'.
  - rewrite !(sub_result read). cbn [Storage.self].
    change (@read V JSONStorage.t _) with (@JSONStorage.read V _).
    rewrite (json_read_result _ c') by (by rewrite ?Hn').
    rewrite (json_read_result _ c') by (by rewrite ?Hn).
    rewrite Hmo, Hmo'. unfold exec. rewrite Hc. by destruct (Storage.self s2).
  - unfold exec. rewrite Hc, <-Hp.
    destruct (Storage.self s2). apply lookup_delete_eq.
  - unfold exec. rewrite Hc. by destruct (Storage.self s2).
  - by exists c'.
  - intros rt. by eapply with_transaction_commits.
Qed.

(** X8. [begin] on the file backend leaves the data file and the handle
    alone: it copies the content of the file, a text without carriage
    returns, into the backup file, over whatever a backup file held before,
    takes the lock, and touches no file but the backup file and the lock
    file. *)
Theorem json_begin_snapshot (s : Storage.t JSONStorage.t) c :
  Storage._in_transaction s = false →
  ready c (Storage.self s) →
  Text.has_cr c = false →
  let p := JSONStorage.path (Storage.self s) in
  ∃ s1 : Storage.t JSONStorage.t,
    Storage.begin s = (Ret tt, s1) ∧
    Storage._in_transaction s1 = true ∧
    JSONStorage._handle (Storage.self s1) = JSONStorage._handle (Storage.self s) ∧
    JSONStorage.disk (Storage.self s1) !! p = Some (Regular c) ∧
    JSONStorage.disk (Storage.self s1) !! (p +:+ ".backup") = Some (Regular c) ∧
    JSONStorage.flock (Storage.self s1) = true ∧
    ∀ q, q ≠ p +:+ ".backup" → q ≠ p +:+ ".lock" →
         JSONStorage.disk (Storage.self s1) !! q =
         JSONStorage.disk (Storage.self s) !! q.
Proof.
  intros Hs Hready _ p. subst p.
  destruct (json_begin_run _ c Hready)
    as (b1 & Hb & ((_ & _ & _ & Hd) & (_ & Hbk & _) & _ & Hfl) & Hp & _ & Hh & Hq).
  exists (Storage.mk true b1). rewrite begin_run by done.
  change (_begin_transaction (Storage.self s))
    with (JSONStorage._begin_transaction (Storage.self s)).
  rewrite Hb. cbn [fst snd Storage.self Storage._in_transaction].
  split_and!; try done; by rewrite <-Hp.
Qed.

(** [_rollback_transaction] in a mode that empties the file on opening it:
    the backup goes back into the file, and reopening the handle empties the
    file again. *)
Lemma json_rollback_truncates s c c0 :
  JSONStorage.disk s !! JSONStorage.path s = Some (Regular c) →
  backed_up c0 s →
  kind (JSONStorage._mode s) = OpenW →
  ∃ s3, JSONStorage._rollback_transaction s = (Ret tt, s3) ∧
        open_on "" s3 ∧
        JSONStorage.disk s3 !! (JSONStorage.path s +:+ ".backup") = None ∧
        JSONStorage.flock s3 = false.
Proof.
  destruct s as [[k pl] p lf bp h d fl]. unfold_state. cbn [kind].
  intros Hd (-> & Hb & f & -> & Hf) ->.
  pose proof (backup_neq_path p) as Hbp.
  pose proof (lock_neq_path p) as Hlp.
  pose proof (lock_neq_backup p) as Hlb.
  assert (p ≠ p +:+ ".backup") as Hpb by done.
  tx_run. rewrite Hf. tx_run.
  eexists; split; [reflexivity|]. unfold_state. tx_run.
  rewrite lookup_delete_eq. done.
Qed.

(** X9. In access mode [w] or [w+] a rollback leaves the file empty: the
    backup is written back, but the handle is then reopened in the mode of
    the instance, which truncates the file.  After [begin], any run of
    writes and [rollback], [read] returns [None], whatever the file held
    before [begin]. *)
Theorem json_rollback_truncating_mode (s : Storage.t JSONStorage.t) c ws :
  Storage._in_transaction s = false →
  ready c (Storage.self s) →
  kind (JSONStorage._mode (Storage.self s)) = OpenW →
  (result (Storage.begin;; writes ws;; Storage.rollback) s = Ret tt ∧
   result (Storage.sub read)
     (exec (Storage.begin;; writes ws;; Storage.rollback) s) = Ret none) ∧
  (∀ rt e,
     result (Scope.with_transaction rt (writes ws;; raise e)) s = Raise e ∧
     result (Storage.sub read)
       (exec (Scope.with_transaction rt (writes ws;; raise e)) s) = Ret none).
Proof.
  intros Hs Hready Hk.
  destruct (json_begin_ok _ c Hready) as (s1 & Hbegin & Ho1 & Hb1 & Hp1 & Hm1).
  apply (rollback_law
           (λ b, ∃ c', open_on c' b ∧ backed_up c b ∧
                       kind (JSONStorage._mode b) = OpenW)).
  - intros data b (c' & Ho & Hb & Hmode).
    destruct (json_write_keeps data b c' c Ho Hb) as (c'' & ? & ? & Hp' & Hm').
    exists c''. change (write data) with (JSONStorage.write data).
    by rewrite Hm'.
  - intros b (c' & (Hcl & Hn & Hmo & Hd) & Hb & Hmode).
    destruct (json_rollback_truncates b c' c Hd Hb Hmode)
      as (s3 & Hr & (Hcl3 & Hn3 & Hm3 & Hd3) & _).
    change (@_rollback_transaction V JSONStorage.t _)
      with JSONStorage._rollback_transaction.
    change (@read V JSONStorage.t _) with (@JSONStorage.read V _).
    unfold result at 1, exec. rewrite Hr. split; [done|]. cbn [fst snd].
    rewrite (json_read_result s3 "") by (by rewrite ?Hn3).
    unfold read_outcome. by case_decide.
  - done.
  - change (result JSONStorage._begin_transaction (Storage.self s) = Ret tt).
    unfold result. by rewrite Hbegin.
  - change (exec _begin_transaction (Storage.self s))
      with (JSONStorage._begin_transaction (Storage.self s)).2.
    rewrite Hbegin. cbn [snd]. exists c. by rewrite Hm1.
Qed.

(** [_rollback_transaction] when the backup file is gone. *)
Lemma json_rollback_no_backup s c f :
  open_on c s →
  JSONStorage._backup_path s = Some (JSONStorage.path s +:+ ".backup") →
  JSONStorage.disk s !! (JSONStorage.path s +:+ ".backup") = None →
  JSONStorage._lock_file s = Some f →
  closed f = false →
  JSONStorage._rollback_transaction s =
    (Raise (FileNotFoundError (JSONStorage.path s +:+ ".backup")),
     JSONStorage.set_flock false (exec JSONStorage.close s)).
Proof.
  destruct s as [m p lf bp [n hm pos cl] d fl]. unfold_state.
  intros (-> & -> & -> & Hd) -> Hb -> Hf.
  tx_run. rewrite Hf. by tx_run.
Qed.

(** X10. A rollback that finds no backup file raises [FileNotFoundError]
    for it.  The handle was closed before the backup was looked for and is
    not reopened, so every later [read] raises [ValueError]; the data file
    keeps what the writes left in it; the [finally] clause still releases
    the lock, and the flag is cleared. *)
Theorem json_rollback_missing_backup (s : Storage.t JSONStorage.t) c f :
  Storage._in_transaction s = true →
  open_on c (Storage.self s) →
  JSONStorage._backup_path (Storage.self s) =
    Some (JSONStorage.path (Storage.self s) +:+ ".backup") →
  JSONStorage.disk (Storage.self s)
    !! (JSONStorage.path (Storage.self s) +:+ ".backup") = None →
  JSONStorage._lock_file (Storage.self s) = Some f →
  closed f = false →
  let after := exec Storage.rollback s in
  result Storage.rollback s =
    Raise (FileNotFoundError (JSONStorage.path (Storage.self s) +:+ ".backup")) ∧
  Storage._in_transaction after = false ∧
  JSONStorage.disk (Storage.self after) = JSONStorage.disk (Storage.self s) ∧
  JSONStorage.flock (Storage.self after) = false ∧
  closed (JSONStorage._handle (Storage.self after)) = true ∧
  result (Storage.sub read) after =
    Raise (ValueError "I/O operation on closed file.").
Proof.
  intros Hs Ho Hbp Hb Hlf Hf after. subst after.
  assert (Storage.rollback s =
          (Raise (FileNotFoundError (JSONStorage.path (Storage.self s) +:+ ".backup")),
           Storage.mk false
             (JSONStorage.set_flock false (exec JSONStorage.close (Storage.self s)))))
    as Hr.
  { rewrite rollback_run by done.
    change (@_rollback_transaction V JSONStorage.t _)
      with JSONStorage._rollback_transaction.
    by rewrite (json_rollback_no_backup _ c f). }
  unfold result at 1, exec at 1 2 3 4 5. rewrite Hr.
  cbn [fst snd Storage.self Storage._in_transaction].
  rewrite (sub_result read). cbn [Storage.self].
  change (@read V JSONStorage.t _) with (@JSONStorage.read V _).
  destruct (Storage.self s) as [m p lf bp [n hm pos cl] d fl].
  by split_and!.
Qed.

(** X11. A closed instance refuses to read and to write: after [close],
    [read] and [write] raise [ValueError] and change nothing ([write] does
    so before it serializes, whatever the data), and a second [close] is
    accepted.  [close] itself leaves the files alone. *)
Theorem json_closed_refuses s data :
  let closed_ := exec JSONStorage.close s in
  JSONStorage.disk closed_ = JSONStorage.disk s ∧
  JSONStorage.read closed_ =
    (Raise (ValueError "I/O operation on closed file."), closed_) ∧
  JSONStorage.write data closed_ =
    (Raise (ValueError "I/O operation on closed file."), closed_) ∧
  JSONStorage.close closed_ = (Ret tt, closed_).
Proof.
  destruct s as [m p lf bp [n hm pos cl] d fl]. by tx_run.
Qed.

(** X12. [commit] through a closed handle fails at its first step, the
    flush: it raises [ValueError], and the backup file and the lock are left
    as they were, still there and still held; only the flag is cleared. *)
Theorem json_commit_closed_handle (s : Storage.t JSONStorage.t) :
  Storage._in_transaction s = true →
  closed (JSONStorage._handle (Storage.self s)) = true →
  Storage.commit s =
    (Raise (ValueError "I/O operation on closed file."),
     Storage.mk false (Storage.self s)).
Proof.
  intros Hs Hcl. rewrite commit_run by done.
  change (@_commit_transaction V JSONStorage.t _)
    with JSONStorage._commit_transaction.
  destruct (Storage.self s) as [m p lf bp [n hm pos cl] d fl]. unfold_state.
  subst cl. by tx_run.
Qed.

(** X13. [rollback] does not need the handle: it closes it and opens a new
    one.  So a transaction whose instance was closed half-way is still
    rolled back, and the instance reads again afterwards, returning what
    [read] returned before [begin] (the access mode being one that reopens
    the file as it is). *)
Theorem json_rollback_after_close (s : Storage.t JSONStorage.t) c ws :
  Storage._in_transaction s = false →
  ready c (Storage.self s) →
  preserving (JSONStorage._mode (Storage.self s)) = true →
  let run := Storage.begin;; writes ws;; Storage.sub close;; Storage.rollback in
  result run s = Ret tt ∧
  closed (JSONStorage._handle (Storage.self (exec run s))) = false ∧
  result (Storage.sub read) (exec run s) = result (Storage.sub read) s.
Proof.
  intros Hs Hready Hm run.
  destruct (json_tx_writes s c ws Hs Hready)
    as (s1 & s2 & c' & Hb & Hw & Hf & Htx & Hp & Hmode).
  set (b3 := exec JSONStorage.close (Storage.self s2)).
  assert (Storage.sub close s2 = (Ret tt, Storage.mk true b3)) as Hclose.
  { subst b3. destruct s2 as [fl b]. cbn [Storage._in_transaction] in Hf. subst fl.
    change (@close V JSONStorage.t _) with JSONStorage.close.
    by destruct b as [m p lf bp [n hm pos cl] d fl]. }
  destruct Htx as ((Hcl & Hn & Hmo & Hd) & Hbk & _).
  destruct (json_rollback_ok b3 c' c) as (s4 & Hr & Ho4 & Hp4 & Hm4 & _).
  { subst b3. by destruct (Storage.self s2) as [m p lf bp [n hm pos cl] d fl]. }
  { subst b3. by destruct (Storage.self s2) as [m p lf bp [n hm pos cl] d fl]. }
  { subst b3. rewrite <-Hm, <-Hmode.
    by destruct (Storage.self s2) as [m p lf bp [n hm pos cl] d fl]. }
  assert (run s = (Ret tt, Storage.mk false s4)) as Hrun.
  { subst run. unfold mbind, M_bind. rewrite Hb, Hw, Hclose.
    rewrite rollback_run by done. cbn [Storage.self].
    change (@_rollback_transaction V JSONStorage.t _)
      with JSONStorage._rollback_transaction.
    by rewrite Hr. }
  unfold result at 1, exec. rewrite Hrun. cbn [fst snd Storage.self].
  pose proof Ho4 as (Hcl4 & Hn4 & Hmo4 & Hd4).
  split; [done|]. split; [done|].
  rewrite !(sub_result read). cbn [Storage.self].
  change (@read V JSONStorage.t _) with (@JSONStorage.read V _).
  destruct Hready as ((Hcl0 & Hn0 & Hmo0 & Hd0) & _).
  rewrite (json_read_result s4 c) by (by rewrite ?Hn4).
  rewrite (json_read_result _ c) by (by rewrite ?Hn0).
  rewrite Hmo4, Hm4, Hmo0. subst b3.
  rewrite <-Hmode. by destruct (Storage.self s2) as [m p lf bp [n hm pos cl] d fl].
Qed.

(** X14. A write of what [json.dumps] refuses raises the serializer's
    exception before anything is written: the files are as they were (only
    the position of the handle is back at the start), and [read] returns
    what it returned before. *)
Theorem json_write_failure_keeps_file s data e c :
  closed (JSONStorage._handle s) = false →
  JSONStorage.disk s !! name (JSONStorage._handle s) = Some (Regular c) →
  dumps data = Raise e →
  result (JSONStorage.write data) s = Raise e ∧
  JSONStorage.disk (exec (JSONStorage.write data) s) = JSONStorage.disk s ∧
  result JSONStorage.read (exec (JSONStorage.write data) s) =
    result JSONStorage.read s.
Proof.
  intros Hcl Hd Hdumps. unfold result at 1, exec.
  rewrite (json_write_unserializable data e s c) by done. cbn [fst snd].
  rewrite (json_read_result s c) by done.
  destruct s as [m p lf bp [n hm pos cl] d fl]. unfold_state.
  split; [done|]. split; [done|].
  by rewrite (json_read_result _ c).
Qed.

(** X15. [read] only looks: it changes no file and no attribute but the
    position of the handle, and a second [read] returns what the first
    returned, an exception included. *)
Theorem json_read_repeatable s :
  (∃ k, exec JSONStorage.read s =
        JSONStorage.set_handle (TextIO.set_offset k (JSONStorage._handle s)) s) ∧
  result JSONStorage.read (exec JSONStorage.read s) = result JSONStorage.read s.
Proof.
  destruct s as [m p lf bp [n hm pos cl] d fl].
  destruct cl.
  - split; [exists pos|]; by tx_run.
  - destruct (d !! n) as [[c|]|] eqn:Hd.
    + destruct (json_read_state (JSONStorage.mk m p lf bp
                  {| name := n; mode := hm; offset := pos; closed := false |} d fl) c)
        as [k Hk]; [done..|].
      split; [by exists k|]. rewrite Hk.
      by rewrite !(json_read_result _ c).
    + split; [exists pos|]; by tx_run.
    + split; [exists pos|]; by tx_run.
Qed.

Ltac init_run :=
  unfold JSONStorage.__init__, JSONStorage.touch, Storage.__init__;
  cbn [kind plus orb];
  repeat first [ rewrite bool_decide_eq_true_2 by done
               | rewrite bool_decide_eq_false_2 by done ];
  cbn [orb]; tx_run.

(** X16. The constructor on a file name that names nothing in the working
    directory makes an empty file there and nothing else, and [read] on the
    new instance returns [None]: so in every access mode but [r], which
    raises [FileNotFoundError], and [x+], with [create_dirs] left [False]. *)
Theorem json_init_fresh p m fs :
  TextIO.is_file_name p = true →
  fs !! p = None →
  m ≠ {| kind := OpenR; plus := false |} →
  m ≠ {| kind := OpenX; plus := true |} →
  ∃ s : Storage.t JSONStorage.t,
    JSONStorage.__init__ p m fs = Ret s ∧
    Storage._in_transaction s = false ∧
    JSONStorage.disk (Storage.self s) = <[p := Regular ""]> fs ∧
    result (Storage.sub read) s = Ret none.
Proof.
  intros _ Hp Hr Hx.
  assert (JSONStorage.__init__ p m fs =
          Ret (Storage.mk false
                 (JSONStorage.mk m p None None
                    {| name := p; mode := m; offset := 0; closed := false |}
                    (<[p := Regular ""]> fs) false))) as Hinit.
  { destruct m as [[] []]; try done; init_run; by rewrite ?insert_insert_eq. }
  eexists. split; [exact Hinit|]. split; [done|]. split; [done|].
  rewrite (sub_result read). cbn [Storage.self].
  change (@read V JSONStorage.t _) with (@JSONStorage.read V _).
  rewrite (json_read_result _ "") by (done || apply lookup_insert_eq).
  unfold read_outcome. by case_decide.
Qed.

(** X17. The constructor on a file that exists: in the modes [r], [r+], [a]
    and [a+] the files are left as they are and [read] gives what the
    content of the file deserializes to; in [w] and [w+] opening the handle
    empties the file, and [read] returns [None]; [x] and [x+] raise
    [FileExistsError]. *)
Theorem json_init_existing p m fs c :
  fs !! p = Some (Regular c) →
  (preserving m = true →
   ∃ s : Storage.t JSONStorage.t,
     JSONStorage.__init__ p m fs = Ret s ∧
     JSONStorage.disk (Storage.self s) = fs ∧
     result (Storage.sub read) s = read_outcome m c) ∧
  (kind m = OpenW →
   ∃ s : Storage.t JSONStorage.t,
     JSONStorage.__init__ p m fs = Ret s ∧
     JSONStorage.disk (Storage.self s) = <[p := Regular ""]> fs ∧
     result (Storage.sub read) s = Ret none) ∧
  (kind m = OpenX →
   JSONStorage.__init__ p m fs = Raise (FileExistsError p)).
Proof.
  intros Hp. split_and!.
  - intros Hm.
    assert (∃ k, JSONStorage.__init__ p m fs =
            Ret (Storage.mk false
                   (JSONStorage.mk m p None None
                      {| name := p; mode := m; offset := k; closed := false |}
                      fs false))) as [k Hinit].
    { destruct m as [[] []]; try done; init_run; by eexists. }
    eexists. split; [exact Hinit|]. split; [done|].
    rewrite (sub_result read). cbn [Storage.self].
    change (@read V JSONStorage.t _) with (@JSONStorage.read V _).
    by rewrite (json_read_result _ c).
  - intros Hm. destruct m as [k pl]. cbn [kind] in Hm. subst k.
    assert (JSONStorage.__init__ p {| kind := OpenW; plus := pl |} fs =
            Ret (Storage.mk false
                   (JSONStorage.mk {| kind := OpenW; plus := pl |} p None None
                      {| name := p; mode := {| kind := OpenW; plus := pl |};
                         offset := 0; closed := false |}
                      (<[p := Regular ""]> fs) false))) as Hinit.
    { destruct pl; by init_run. }
    eexists. split; [exact Hinit|]. split; [done|].
    rewrite (sub_result read). cbn [Storage.self].
    change (@read V JSONStorage.t _) with (@JSONStorage.read V _).
    rewrite (json_read_result _ "") by (done || apply lookup_insert_eq).
    unfold read_outcome. by case_decide.
  - intros Hm. destruct m as [k pl]. cbn [kind] in Hm. subst k.
    destruct pl; by init_run.
Qed.

(** X18. What the constructor refuses, of a file name in the working
    directory.  Mode [r] on a name that names nothing raises
    [FileNotFoundError]: nothing creates the file.  Mode [x+] raises
    whatever the name names: the constructor first creates the file, the
    mode having a [+], and then opens it in a mode that wants it not to
    exist.  A name that names a directory is refused in every mode. *)
Theorem json_init_refusals p fs :
  TextIO.is_file_name p = true →
  (fs !! p = None →
   JSONStorage.__init__ p {| kind := OpenR; plus := false |} fs =
     Raise (FileNotFoundError p)) ∧
  JSONStorage.__init__ p {| kind := OpenX; plus := true |} fs =
    Raise (match fs !! p with
           | Some Directory => IsADirectoryError p
           | _ => FileExistsError p
           end) ∧
  (fs !! p = Some Directory →
   ∀ m, ∃ e, JSONStorage.__init__ p m fs = Raise e).
Proof.
  intros _. split_and!.
  - intros Hp. by init_run.
  - destruct (fs !! p) as [[c|]|] eqn:Hp; by init_run.
  - intros Hp [[] []]; init_run; by eexists.
Qed.

(** [_rollback_transaction] inside a transaction, in a mode that can open
    a file that exists: the instance is ready for the next transaction. *)
Lemma json_rollback_ready s c c0 :
  in_transaction c c0 s →
  kind (JSONStorage._mode s) ≠ OpenX →
  ∃ s3 c', JSONStorage._rollback_transaction s = (Ret tt, s3) ∧
           ready c' s3 ∧
           JSONStorage.path s3 = JSONStorage.path s ∧
           JSONStorage._mode s3 = JSONStorage._mode s.
Proof.
  destruct s as [[k pl] p lf bp h d fl]. unfold_state. cbn [kind].
  intros ((Hcl & Hn & Hm & Hd) & (-> & Hb & f & -> & Hf) & Hlock & ->) Hk.
  pose proof (backup_neq_path p) as Hbp.
  pose proof (lock_neq_path p) as Hlp.
  pose proof (lock_neq_backup p) as Hlb.
  assert (p ≠ p +:+ ".backup") as Hpb by done.
  destruct k; try done;
    tx_run; rewrite Hf; tx_run;
    rewrite drop_zero, pwrite_empty, ?insert_insert_eq;
    eexists _, _; (split; [reflexivity|]); unfold_state; tx_run;
    rewrite lookup_delete_eq; done.
Qed.

(** X19. Transactions can follow one another on the file backend: on an
    instance that is ready, in a mode other than [x] and [x+], any number of
    transactions, each committed or rolled back after any run of writes, all
    return, and the instance is ready for more.  (The lock file is opened by
    the first and used by all.) *)
Theorem json_transactions_repeat (s : Storage.t JSONStorage.t) c
    (l : list (bool * list V)) :
  Storage._in_transaction s = false →
  ready c (Storage.self s) →
  kind (JSONStorage._mode (Storage.self s)) ≠ OpenX →
  result (transactions l) s = Ret tt ∧
  Storage._in_transaction (exec (transactions l) s) = false ∧
  ∃ c', ready c' (Storage.self (exec (transactions l) s)).
Proof.
  revert s c. induction l as [|[how ws] l IH]; intros s c Hs Hready Hk.
  { split; [done|]. split; [done|]. by exists c. }
  destruct (json_tx_writes s c ws Hs Hready)
    as (s1 & s2 & c' & Hb & Hw & Hf & Htx & Hp & Hm).
  assert (∃ (s3 : Storage.t JSONStorage.t) (c3 : string),
            transaction_run (how, ws) s = (Ret tt, s3) ∧
            Storage._in_transaction s3 = false ∧
            ready c3 (Storage.self s3) ∧
            JSONStorage._mode (Storage.self s3) = JSONStorage._mode (Storage.self s))
    as (s3 & c3 & Hrun & Hs3 & Hready3 & Hm3).
  { unfold transaction_run, mbind, M_bind. cbn [fst snd]. rewrite Hb, Hw.
    destruct how.
    - rewrite commit_run by done.
      change (@_commit_transaction V JSONStorage.t _)
        with JSONStorage._commit_transaction.
      pose proof (json_commit_ready _ c' c Htx) as Hready'.
      unfold exec in Hready'. rewrite (json_commit_run _ c' c Htx) in Hready' |- *.
      eexists _, c'. split; [reflexivity|]. split; [done|]. split; [done|].
      cbn [fst snd Storage.self]. rewrite <-Hm.
      by destruct (Storage.self s2).
    - rewrite rollback_run by done.
      change (@_rollback_transaction V JSONStorage.t _)
        with JSONStorage._rollback_transaction.
      destruct (json_rollback_ready _ c' c Htx) as (b3 & c3 & Hr & Hready' & _ & Hm');
        [by rewrite Hm|].
      rewrite Hr. eexists _, c3. split; [reflexivity|]. split; [done|].
      split; [done|]. cbn [fst snd Storage.self]. by rewrite Hm', Hm. }
  destruct (IH s3 c3 Hs3 Hready3) as (Hres & Hfl & Hrd); [by rewrite Hm3|].
  cbn [transactions]. unfold result, exec, mbind, M_bind in *.
  rewrite Hrun. by split_and!.
Qed.

(** [_rollback_transaction] in a mode that refuses a file that exists. *)
Lemma json_rollback_exclusive s c c0 :
  in_transaction c c0 s →
  kind (JSONStorage._mode s) = OpenX →
  JSONStorage._rollback_transaction s =
    (Raise (FileExistsError (JSONStorage.path s)),
     JSONStorage.set_flock false
       (JSONStorage.set_disk
          (delete (JSONStorage.path s +:+ ".backup")
             (<[JSONStorage.path s := Regular c0]> (JSONStorage.disk s)))
          (exec JSONStorage.close s))).
Proof.
  destruct s as [[k pl] p lf bp [n hm pos cl] d fl]. unfold_state. cbn [kind].
  intros ((Hcl & Hn & Hm & Hd) & (-> & Hb & f & -> & Hf) & Hlock & ->) ->.
  pose proof (backup_neq_path p) as Hbp.
  pose proof (lock_neq_path p) as Hlp.
  pose proof (lock_neq_backup p) as Hlb.
  assert (p ≠ p +:+ ".backup") as Hpb by done.
  tx_run. rewrite Hf. tx_run.
  by rewrite drop_zero, pwrite_empty, ?insert_insert_eq.
Qed.

(** X20. In access mode [x] or [x+] a rollback raises [FileExistsError]:
    the backup is written back into the file, but the handle cannot be
    opened again in a mode that wants the file not to exist.  The file holds
    what it held before [begin] (a text without carriage returns, which the
    two copies leave as it is), the handle stays closed, and the [finally]
    clause has removed the backup file and released the lock. *)
Theorem json_rollback_exclusive_mode (s : Storage.t JSONStorage.t) c ws :
  Storage._in_transaction s = false →
  ready c (Storage.self s) →
  Text.has_cr c = false →
  kind (JSONStorage._mode (Storage.self s)) = OpenX →
  let p := JSONStorage.path (Storage.self s) in
  let run := Storage.begin;; writes ws;; Storage.rollback in
  result run s = Raise (FileExistsError p) ∧
  Storage._in_transaction (exec run s) = false ∧
  JSONStorage.disk (Storage.self (exec run s)) !! p = Some (Regular c) ∧
  JSONStorage.disk (Storage.self (exec run s)) !! (p +:+ ".backup") = None ∧
  JSONStorage.flock (Storage.self (exec run s)) = false ∧
  closed (JSONStorage._handle (Storage.self (exec run s))) = true.
Proof.
  intros Hs Hready _ Hk p run.
  destruct (json_tx_writes s c ws Hs Hready)
    as (s1 & s2 & c' & Hb & Hw & Hf & Htx & Hp & Hm).
  pose proof (json_rollback_exclusive _ c' c Htx) as Hr.
  rewrite Hm in Hr. specialize (Hr Hk).
  assert (run s =
          (Raise (FileExistsError p),
           Storage.mk false (JSONStorage._rollback_transaction (Storage.self s2)).2))
    as Hrun.
  { subst run p. unfold mbind, M_bind. rewrite Hb, Hw.
    rewrite rollback_run by done.
    change (@_rollback_transaction V JSONStorage.t _)
      with JSONStorage._rollback_transaction.
    by rewrite Hr, Hp. }
  unfold result, exec. rewrite Hrun, Hr.
  cbn [fst snd Storage.self Storage._in_transaction].
  pose proof (backup_neq_path p) as Hbp.
  assert (p ≠ p +:+ ".backup") as Hpb by done.
  subst p. rewrite <-Hp in *.
  destruct (Storage.self s2) as [m q lf bp [n hm pos cl] d fl].
  cbn [JSONStorage.path] in *. tx_run.
  rewrite lookup_delete_eq. by split_and!.
Qed.

(** X22. In the access modes [a] and [a+] a write appends: the text of the
    data goes after what the file holds, the [seek(0)] before it and the
    [truncate()] after it changing nothing, and [read] then has the old
    content and the new text, one after the other, to deserialize. *)
Theorem json_write_appends s data text c :
  closed (JSONStorage._handle s) = false →
  JSONStorage.disk s !! name (JSONStorage._handle s) = Some (Regular c) →
  appending (mode (JSONStorage._handle s)) = true →
  dumps data = Ret text →
  result (JSONStorage.write data) s = Ret tt ∧
  JSONStorage.disk (exec (JSONStorage.write data) s)
    !! name (JSONStorage._handle s) = Some (Regular (c +:+ text)) ∧
  result JSONStorage.read (exec (JSONStorage.write data) s) =
    read_outcome (mode (JSONStorage._handle s)) (c +:+ text).
Proof.
  intros Hcl Hd Ha Hdumps.
  assert (writable (mode (JSONStorage._handle s)) = true) as Hw.
  { unfold appending, writable in *. by destruct (kind _). }
  unfold result at 1, exec. rewrite (json_write_ok data text s c) by done.
  cbn zeta. rewrite Ha.
  destruct s as [m p lf bp [n hm pos cl] d fl].
  cbn [fst snd JSONStorage.set_handle JSONStorage.set_disk JSONStorage.disk
       JSONStorage._handle name mode] in *.
  split; [done|]. split; [apply lookup_insert_eq|].
  rewrite (json_read_result _ (c +:+ text));
    cbn [JSONStorage.disk JSONStorage._handle JSONStorage.set_handle
         JSONStorage.set_disk name mode closed];
    [done|done|apply lookup_insert_eq].
Qed.

End json_extras.

(** ** On instances *)

(** X1, on a file-backed instance that holds a snapshot. *)
Lemma exit_with_exception_changes_nothing_witness :
  Scope.__exit__ RefCounting (Some boom) (json_with mode_r_plus ∅ snapshot_a) =
    (Ret false, json_with mode_r_plus ∅ snapshot_a).
Proof.
  apply (exit_with_exception_changes_nothing (V:=PyJson.value)). by_computing.
Defined.

(** X2, on the in-memory backend under reference counting: a block that
    writes and raises, and a block that writes. *)
Lemma with_storage_outcomes_witness :
  with_storage RefCounting (Storage.sub (write snapshot_b);; raise boom)
    (memory_with snapshot_a) = (Raise boom, memory_with snapshot_b) ∧
  with_storage RefCounting (Storage.sub (write snapshot_b);; raise StopIteration)
    (memory_with snapshot_a) = (Raise StopIteration, memory_with snapshot_b) ∧
  with_storage RefCounting (Storage.sub (write snapshot_b))
    (memory_with snapshot_a) =
    (Raise (RuntimeError "generator didn't stop"),
     exec Storage.begin (memory_with snapshot_b)) ∧
  Scope.release RefCounting GEN_SUSPENDED
    (exec Storage.begin (memory_with snapshot_b)) = memory_with snapshot_b.
Proof.
  destruct (with_storage_outcomes (V:=PyJson.value) RefCounting
              (Storage.sub (write snapshot_b);; raise boom)
              (memory_with snapshot_a) (memory_with snapshot_a))
    as [Hraise _]; [vm_compute; reflexivity|].
  destruct (with_storage_outcomes (V:=PyJson.value) RefCounting
              (Storage.sub (write snapshot_b);; raise StopIteration)
              (memory_with snapshot_a) (memory_with snapshot_a))
    as [Hstop _]; [vm_compute; reflexivity|].
  destruct (with_storage_outcomes (V:=PyJson.value) RefCounting
              (Storage.sub (write snapshot_b))
              (memory_with snapshot_a) (memory_with snapshot_a))
    as [_ Hret]; [vm_compute; reflexivity|].
  destruct (Hret (memory_with snapshot_b)
              (exec Storage.begin (memory_with snapshot_b)))
    as (H1 & _ & _ & H2); [vm_compute; reflexivity..|].
  split; [apply Hraise; vm_compute; reflexivity|].
  split; [apply Hstop; vm_compute; reflexivity|].
  split; [exact H1|]. rewrite H2. vm_compute. reflexivity.
Defined.

(** X3, on a file-backed instance whose block closes it: [commit] raises
    [ValueError], and a [RuntimeError] comes out of the scope. *)
Lemma scope_commit_failure_masked_witness :
  result (Storage.begin;; Storage.sub close;; Storage.commit)
    (json_with mode_r_plus ∅ snapshot_a)
    = Raise (ValueError "I/O operation on closed file.") ∧
  result (Scope.with_transaction RefCounting (Storage.sub close))
    (json_with mode_r_plus ∅ snapshot_a)
    = Raise (RuntimeError "No transaction in progress").
Proof.
  split; [vm_compute; reflexivity|].
  unfold result.
  rewrite (scope_commit_failure_masked (V:=PyJson.value) RefCounting
             (Storage.sub close) (json_with mode_r_plus ∅ snapshot_a)
             (exec Storage.begin (json_with mode_r_plus ∅ snapshot_a))
             (exec (Storage.begin;; Storage.sub close)
                (json_with mode_r_plus ∅ snapshot_a))
             (exec (Storage.begin;; Storage.sub close;; Storage.commit)
                (json_with mode_r_plus ∅ snapshot_a))
             (ValueError "I/O operation on closed file."));
    vm_compute; reflexivity.
Defined.

(** X4, on the in-memory backend inside a transaction. *)
Lemma nested_scope_refused_witness :
  Scope.with_transaction RefCounting (Storage.sub (write snapshot_b))
    (exec Storage.begin (memory_with snapshot_a)) =
  (Raise (RuntimeError "Transaction already in progress"),
   exec Storage.begin (memory_with snapshot_a)).
Proof.
  apply (nested_scope_refused (V:=PyJson.value)). vm_compute. reflexivity.
Defined.

(** X5, on an instance that holds a snapshot: two writes, committed. *)
Lemma memory_commit_keeps_writes_witness :
  (Storage.begin;; writes [snapshot_b; snapshot_ab];; Storage.commit)
    (memory_with snapshot_a) = (Ret tt, memory_with snapshot_ab).
Proof.
  pose proof (memory_commit_keeps_writes (V:=PyJson.value)
                (memory_with snapshot_a)
                (exec Storage.begin (memory_with snapshot_a))
                [snapshot_b; snapshot_ab]) as H.
  cbv zeta in H. destruct H as [H _]; [vm_compute; reflexivity|].
  rewrite H. vm_compute. reflexivity.
Defined.

(** X6, on an instance that holds a snapshot: a write, rolled back. *)
Lemma memory_rollback_returns_copy_witness :
  (Storage.begin;; writes [snapshot_b];; Storage.rollback)
    (memory_with snapshot_a) = (Ret tt, memory_with snapshot_a).
Proof.
  pose proof (memory_rollback_returns_copy (V:=PyJson.value)
                (memory_with snapshot_a) [snapshot_b]
                (text_of snapshot_a) snapshot_a) as H.
  cbv zeta in H. destruct H as [H _]; [by_computing..|].
  rewrite H. vm_compute. reflexivity.
Defined.

(** X21, on an instance that holds a [set]. *)
Lemma memory_failed_begin_rollback_witness :
  result Storage.begin (memory_with a_set)
    = Raise (TypeError "Object of type set is not JSON serializable") ∧
  result (Storage.sub read)
    (exec (attempt Storage.begin;; Storage.rollback) (memory_with a_set))
    = Ret PyJson.PyNone.
Proof.
  destruct (memory_failed_begin_rollback (V:=PyJson.value) (memory_with a_set)
              (TypeError "Object of type set is not JSON serializable"))
    as (Hb & Hr & _); [by_computing..|].
  split.
  - unfold result. by rewrite Hb.
  - unfold exec, mbind, M_bind, attempt. rewrite Hb, Hr. reflexivity.
Defined.

(** X7, on a file opened [r+] that holds a snapshot: a write, committed. *)
Lemma json_commit_keeps_writes_witness :
  result (Storage.begin;; writes [snapshot_b];; Storage.commit)
    (json_with mode_r_plus ∅ snapshot_a) = Ret tt ∧
  result (Storage.sub read)
    (exec (Storage.begin;; writes [snapshot_b];; Storage.commit)
       (json_with mode_r_plus ∅ snapshot_a)) = Ret snapshot_b ∧
  JSONStorage.disk
    (Storage.self
       (exec (Storage.begin;; writes [snapshot_b];; Storage.commit)
          (json_with mode_r_plus ∅ snapshot_a)))
    !! "db.json.backup" = None.
Proof.
  pose proof (json_commit_keeps_writes (V:=PyJson.value)
                (json_with mode_r_plus ∅ snapshot_a) (text_of snapshot_a)
                [snapshot_b]) as H.
  cbv zeta in H.
  destruct H as (H1 & _ & _ & H2 & H3 & _); [reflexivity | repeat split; by_computing |].
  split; [exact H1|]. split; [|exact H3].
  rewrite H2. vm_compute. reflexivity.
Defined.

(** X8, on a file opened [r+] that holds a snapshot. *)
Lemma json_begin_snapshot_witness :
  JSONStorage.disk
    (Storage.self (exec Storage.begin (json_with mode_r_plus ∅ snapshot_a)))
    !! "db.json.backup" = Some (Regular (text_of snapshot_a)) ∧
  JSONStorage.flock
    (Storage.self (exec Storage.begin (json_with mode_r_plus ∅ snapshot_a)))
    = true.
Proof.
  pose proof (json_begin_snapshot (V:=PyJson.value)
                (json_with mode_r_plus ∅ snapshot_a) (text_of snapshot_a)) as H.
  cbv zeta in H.
  destruct H as (s1 & Hb & _ & _ & _ & Hbk & Hfl & _);
    [reflexivity | repeat split; by_computing | reflexivity |].
  unfold exec. rewrite Hb. split; [exact Hbk | exact Hfl].
Defined.

(** X9, on a file opened [w+] that holds a snapshot. *)
Lemma json_rollback_truncating_mode_witness :
  result (Storage.sub read)
    (exec (Storage.begin;; writes [snapshot_b];; Storage.rollback)
       (json_with mode_w_plus ∅ snapshot_a)) = Ret PyJson.PyNone.
Proof.
  destruct (json_rollback_truncating_mode (V:=PyJson.value)
              (json_with mode_w_plus ∅ snapshot_a) (text_of snapshot_a)
              [snapshot_b]) as [[_ H] _];
    [reflexivity | repeat split; by_computing | reflexivity |].
  exact H.
Defined.

(** X10, on an instance inside a transaction whose backup file has been
    removed from under it. *)
Lemma json_rollback_missing_backup_witness :
  result Storage.rollback
    (Storage.mk true
       (JSONStorage.set_disk
          (delete "db.json.backup"
             (JSONStorage.disk
                (Storage.self
                   (exec Storage.begin (json_with mode_r_plus ∅ snapshot_a)))))
          (Storage.self
             (exec Storage.begin (json_with mode_r_plus ∅ snapshot_a)))))
    = Raise (FileNotFoundError "db.json.backup") ∧
  result (Storage.sub read)
    (exec Storage.rollback
       (Storage.mk true
          (JSONStorage.set_disk
             (delete "db.json.backup"
                (JSONStorage.disk
                   (Storage.self
                      (exec Storage.begin (json_with mode_r_plus ∅ snapshot_a)))))
             (Storage.self
                (exec Storage.begin (json_with mode_r_plus ∅ snapshot_a))))))
    = Raise (ValueError "I/O operation on closed file.").
Proof.
  pose proof (json_rollback_missing_backup (V:=PyJson.value)
                (Storage.mk true
                   (JSONStorage.set_disk
                      (delete "db.json.backup"
                         (JSONStorage.disk
                            (Storage.self
                               (exec Storage.begin
                                  (json_with mode_r_plus ∅ snapshot_a)))))
                      (Storage.self
                         (exec Storage.begin
                            (json_with mode_r_plus ∅ snapshot_a)))))
                (text_of snapshot_a)
                {| name := "db.json.lock"; mode := mode_w;
                   offset := 0; closed := false |}) as H.
  cbv zeta in H.
  destruct H as (H1 & _ & _ & _ & _ & H2);
    [reflexivity | repeat split; by_computing | by_computing..|].
  split; [|exact H2]. rewrite H1. vm_compute. reflexivity.
Defined.

(** X12, on an instance closed inside a transaction: the lock is still
    held after the [commit] that failed. *)
Lemma json_commit_closed_handle_witness :
  result Storage.commit
    (exec (Storage.begin;; Storage.sub close)
       (json_with mode_r_plus ∅ snapshot_a))
    = Raise (ValueError "I/O operation on closed file.") ∧
  JSONStorage.flock
    (Storage.self
       (exec Storage.commit
          (exec (Storage.begin;; Storage.sub close)
             (json_with mode_r_plus ∅ snapshot_a)))) = true.
Proof.
  pose proof (json_commit_closed_handle (V:=PyJson.value)
                (exec (Storage.begin;; Storage.sub close)
                   (json_with mode_r_plus ∅ snapshot_a))) as H.
  assert (Storage._in_transaction
            (exec (Storage.begin;; Storage.sub close)
               (json_with mode_r_plus ∅ snapshot_a)) = true) as Hf
    by (vm_compute; reflexivity).
  assert (closed (JSONStorage._handle (Storage.self
            (exec (Storage.begin;; Storage.sub close)
               (json_with mode_r_plus ∅ snapshot_a)))) = true) as Hc
    by (vm_compute; reflexivity).
  specialize (H Hf Hc).
  split.
  - unfold result. rewrite H. reflexivity.
  - unfold exec at 1. rewrite H. vm_compute. reflexivity.
Defined.

(** X13, on a file opened [r+] that holds a snapshot. *)
Lemma json_rollback_after_close_witness :
  result (Storage.sub read)
    (exec (Storage.begin;; writes [snapshot_b];; Storage.sub close;;
           Storage.rollback)
       (json_with mode_r_plus ∅ snapshot_a)) = Ret snapshot_a.
Proof.
  pose proof (json_rollback_after_close (V:=PyJson.value)
                (json_with mode_r_plus ∅ snapshot_a) (text_of snapshot_a)
                [snapshot_b]) as H.
  cbv zeta in H.
  destruct H as (_ & _ & H);
    [reflexivity | repeat split; by_computing | reflexivity |].
  rewrite H. vm_compute. reflexivity.
Defined.

(** X14, on a file opened [r+] that holds a snapshot: the write of a
    [set]. *)
Lemma json_write_failure_keeps_file_witness :
  result (JSONStorage.write a_set)
    (Storage.self (json_with mode_r_plus ∅ snapshot_a))
    = Raise (TypeError "Object of type set is not JSON serializable") ∧
  result JSONStorage.read
    (exec (JSONStorage.write a_set)
       (Storage.self (json_with mode_r_plus ∅ snapshot_a)))
    = Ret snapshot_a.
Proof.
  destruct (json_write_failure_keeps_file (V:=PyJson.value)
              (Storage.self (json_with mode_r_plus ∅ snapshot_a)) a_set
              (TypeError "Object of type set is not JSON serializable")
              (text_of snapshot_a)) as (H1 & _ & H2); [by_computing..|].
  split; [exact H1|]. rewrite H2. vm_compute. reflexivity.
Defined.

(** X16, with access mode [a+] on an empty file system. *)
Lemma json_init_fresh_witness :
  ∃ s : Storage.t JSONStorage.t,
    JSONStorage.__init__ "db.json" mode_a_plus ∅ = Ret s ∧
    Storage._in_transaction s = false ∧
    JSONStorage.disk (Storage.self s) = <[ "db.json" := Regular "" ]> ∅ ∧
    result (Storage.sub read) s = Ret PyJson.PyNone.
Proof.
  destruct (json_init_fresh (V:=PyJson.value) "db.json" mode_a_plus ∅)
    as (s & Hi & Hf & Hd & Hr); [by_computing..|].
  exists s. split; [exact Hi|]. split; [exact Hf|]. split; [exact Hd | exact Hr].
Defined.

(** X17, on a file that holds a snapshot, opened [r+] and opened [w+]. *)
Lemma json_init_existing_witness :
  (∃ s : Storage.t JSONStorage.t,
     JSONStorage.__init__ "db.json" mode_r_plus (db_json (text_of snapshot_a))
       = Ret s ∧
     JSONStorage.disk (Storage.self s) = db_json (text_of snapshot_a) ∧
     result (Storage.sub read) s = Ret snapshot_a) ∧
  (∃ s : Storage.t JSONStorage.t,
     JSONStorage.__init__ "db.json" mode_w_plus (db_json (text_of snapshot_a))
       = Ret s ∧
     result (Storage.sub read) s = Ret PyJson.PyNone).
Proof.
  destruct (json_init_existing (V:=PyJson.value) "db.json" mode_r_plus
              (db_json (text_of snapshot_a)) (text_of snapshot_a))
    as (Hr & _ & _); [reflexivity|].
  destruct (json_init_existing (V:=PyJson.value) "db.json" mode_w_plus
              (db_json (text_of snapshot_a)) (text_of snapshot_a))
    as (_ & Hw & _); [reflexivity|].
  split.
  - destruct Hr as (s & Hi & Hd & Hread); [reflexivity|].
    exists s. split; [exact Hi|]. split; [exact Hd|].
    rewrite Hread. vm_compute. reflexivity.
  - destruct Hw as (s & Hi & _ & Hread); [reflexivity|].
    exists s. split; [exact Hi | exact Hread].
Defined.

(** X18, on the name [db.json] in an empty working directory. *)
Lemma json_init_refusals_witness :
  JSONStorage.__init__ "db.json" mode_r ∅ = Raise (FileNotFoundError "db.json") ∧
  JSONStorage.__init__ "db.json" {| kind := OpenX; plus := true |} ∅ =
    Raise (FileExistsError "db.json").
Proof.
  destruct (json_init_refusals "db.json" ∅) as (H1 & H2 & _); [reflexivity|].
  split; [apply H1; reflexivity | exact H2].
Defined.

(** X19, on a file opened [r+]: a transaction committed, one rolled back,
    and an empty one committed. *)
Lemma json_transactions_repeat_witness :
  result (transactions [(true, [snapshot_b]); (false, [snapshot_ab]); (true, [])])
    (json_with mode_r_plus ∅ snapshot_a) = Ret tt ∧
  result (Storage.sub read)
    (exec (transactions [(true, [snapshot_b]); (false, [snapshot_ab]); (true, [])])
       (json_with mode_r_plus ∅ snapshot_a)) = Ret snapshot_b.
Proof.
  destruct (json_transactions_repeat (V:=PyJson.value)
              (json_with mode_r_plus ∅ snapshot_a) (text_of snapshot_a)
              [(true, [snapshot_b]); (false, [snapshot_ab]); (true, [])])
    as (H & _); [reflexivity | repeat split; by_computing | by_computing |].
  split; [exact H|]. vm_compute. reflexivity.
Defined.

(** X20, on a file created by opening it [x], after a write. *)
Lemma json_rollback_exclusive_mode_witness :
  result (Storage.begin;; writes [snapshot_b];; Storage.rollback)
    (json_with {| kind := OpenX; plus := false |} ∅ snapshot_a)
    = Raise (FileExistsError "db.json") ∧
  JSONStorage.disk
    (Storage.self
       (exec (Storage.begin;; writes [snapshot_b];; Storage.rollback)
          (json_with {| kind := OpenX; plus := false |} ∅ snapshot_a)))
    !! "db.json" = Some (Regular (text_of snapshot_a)).
Proof.
  pose proof (json_rollback_exclusive_mode (V:=PyJson.value)
                (json_with {| kind := OpenX; plus := false |} ∅ snapshot_a)
                (text_of snapshot_a) [snapshot_b]) as H.
  cbv zeta in H.
  destruct H as (H1 & _ & H2 & _);
    [reflexivity | repeat split; by_computing | reflexivity | reflexivity |].
  split; [exact H1 | exact H2].
Defined.

(** X22, on a file opened [a+] that holds [{}]. *)
Lemma json_write_appends_witness :
  JSONStorage.disk
    (exec (JSONStorage.write snapshot_a)
       (Storage.self (json_storage mode_a_plus (db_json "{}"))))
    !! "db.json" = Some (Regular ("{}" +:+ text_of snapshot_a)) ∧
  result JSONStorage.read
    (exec (JSONStorage.write snapshot_a)
       (Storage.self (json_storage mode_a_plus (db_json "{}"))))
    = Raise (JSONDecodeError "Extra data").
Proof.
  destruct (json_write_appends (V:=PyJson.value)
              (Storage.self (json_storage mode_a_plus (db_json "{}")))
              snapshot_a (text_of snapshot_a) "{}")
    as (_ & H1 & H2); [by_computing..|].
  split; [exact H1|]. rewrite H2. vm_compute. reflexivity.
Defined.
